(** * Experiment / trial lifecycle of ImageMLReasearch, embedded in Rocq

    The development follows [src/experimenting]: [experiment.py],
    [helpers/trial.py], [helpers/create_experiment_report.py],
    [helpers/markdown_file_writer.py] and
    [helpers/load_definitions_of_experiment.py].

    Python objects are modelled as follows.
    - Values are terms of [PyVal]; a [dict] with string keys is an
      association list in insertion order (the order [json.dump] and
      [.items()] use).
    - The [trial_data] dictionaries are mutable and shared (a trial appends
      its own dictionary to the experiment's list), so they live in a heap of
      the [World] and the experiment's ["trials"] list holds references.
    - Every method is a computation in the monad [M]: it reads and updates
      the [World] and either returns or raises a [PyExc].  The world reached
      when an exception is raised is kept.
    - The operating system is a set of directories and a map from paths to
      file contents; permissions, disk space and concurrent writers are not
      modelled. *)

From Stdlib Require Import QArith Ascii String Sorted Permutation.
From stdpp Require Import base list strings gmap pretty sorting.

Set Warnings "-register-all".

Close Scope Q_scope.
Local Open Scope string_scope.

(** ** Python values *)

Fixpoint assoc_get {V} (k : string) (d : list (string * V)) : option V :=
  match d with
  | [] => None
  | (k', v) :: d' => if String.eqb k k' then Some v else assoc_get k d'
  end.

Fixpoint assoc_set {V} (k : string) (v : V) (d : list (string * V))
  : list (string * V) :=
  match d with
  | [] => [(k, v)]
  | (k', v') :: d' =>
      if String.eqb k k' then (k', v) :: d' else (k', v') :: assoc_set k v d'
  end.

Fixpoint assoc_del {V} (k : string) (d : list (string * V))
  : list (string * V) :=
  match d with
  | [] => []
  | (k', v') :: d' =>
      if String.eqb k k' then d' else (k', v') :: assoc_del k d'
  end.

(** [PyNum] stands for [int] and for a [float] that is a number (only order
    and equality of numbers are used), [PyNaN] for the [float] that is not
    one, [PyObj] for any object [json] cannot encode, such as a function;
    [id] is its identity.  Numbers, strings, lists and dictionaries are
    values: two occurrences stand for two objects.  Only a NaN could tell
    the difference ([in] and [index] find an object by identity before they
    try [==]); a NaN of the model is therefore never found in a list. *)
Inductive PyVal :=
| PyNone
| PyNum (q : Q)
| PyStr (s : string)
| PyList (l : list PyVal)
| PyDict (d : list (string * PyVal))
| PyObj (id : nat)
| PyNaN.

Abbreviation Dict := (list (string * PyVal)).

Definition dict_get (k : string) (d : Dict) : option PyVal := assoc_get k d.
Definition dict_set (k : string) (v : PyVal) (d : Dict) : Dict := assoc_set k v d.
Definition dict_pop (k : string) (d : Dict) : Dict := assoc_del k d.
Definition dict_keys (d : Dict) : list string := d.*1.
Definition dict_values (d : Dict) : list PyVal := d.*2.
Definition dict_has (k : string) (d : Dict) : bool :=
  match dict_get k d with Some _ => true | None => false end.

(** Python's [==]: numbers by value, dictionaries as mappings (the order of
    the keys does not matter), objects by identity; a NaN is equal to
    nothing, not even to a NaN. *)
Fixpoint py_eq (a b : PyVal) : bool :=
  match a, b with
  | PyNone, PyNone => true
  | PyNum x, PyNum y => Qeq_bool x y
  | PyStr s, PyStr t => String.eqb s t
  | PyList l1, PyList l2 =>
      (fix go (l1 l2 : list PyVal) : bool :=
         match l1, l2 with
         | [], [] => true
         | x :: xs, y :: ys => py_eq x y && go xs ys
         | _, _ => false
         end) l1 l2
  | PyDict d1, PyDict d2 =>
      Nat.eqb (length d1) (length d2)
      && (fix go (d : Dict) : bool :=
            match d with
            | [] => true
            | (k, v) :: r =>
                match dict_get k d2 with
                | Some v' => py_eq v v'
                | None => false
                end && go r
            end) d1
  | PyObj i, PyObj j => Nat.eqb i j
  | _, _ => false
  end.

(** Truth value of an object, as [if x:] and [and] test it. *)
Definition py_truthy (v : PyVal) : bool :=
  match v with
  | PyNone => false
  | PyNum q => negb (Qeq_bool q 0)
  | PyStr s => negb (String.eqb s "")
  | PyList l => match l with [] => false | _ => true end
  | PyDict d => match d with [] => false | _ => true end
  | PyObj _ => true
  | PyNaN => true
  end.

(** What [json.dump] can encode ([allow_nan] is left at its default, so a
    NaN is written as [NaN]). *)
Fixpoint json_serializable (v : PyVal) : bool :=
  match v with
  | PyNone | PyNum _ | PyStr _ | PyNaN => true
  | PyList l => forallb json_serializable l
  | PyDict d =>
      (fix go (d : Dict) : bool :=
         match d with
         | [] => true
         | (_, x) :: r => json_serializable x && go r
         end) d
  | PyObj _ => false
  end.

(** ** Exceptions *)

Inductive PyExc :=
| KeyError (key : string)
| TypeError (msg : string)
| ValueError (msg : string)
| AttributeError (msg : string)
| AssertionError (msg : string)
| FileExistsError (path : string)
| StopIteration
| ResultsEmptyError (msg : string)
(** an exception of any other class, raised by the code inside a scope *)
| OtherError (cls : string) (args : list PyVal)
(** [raise ExperimentError(msg) from cause] *)
| ExperimentError (msg : string) (cause : PyExc).

Inductive Res (A : Type) :=
| Ret (a : A)
| Err (e : PyExc).
Arguments Ret {A} a.
Arguments Err {A} e.

Definition res_bind {A B} (r : Res A) (f : A → Res B) : Res B :=
  match r with Ret a => f a | Err e => Err e end.

(** Python's [<], as [list.sort] uses it on the keys: defined between two
    floats or integers, two strings and two lists; [TypeError] otherwise.
    Every comparison with a NaN is false. *)
Fixpoint py_lt (a b : PyVal) : Res bool :=
  match a, b with
  | PyNum x, PyNum y => Ret (negb (Qle_bool y x))
  | PyNum _, PyNaN | PyNaN, PyNum _ | PyNaN, PyNaN => Ret false
  | PyStr s, PyStr t => Ret (String.ltb s t)
  | PyList l1, PyList l2 =>
      (fix go (l1 l2 : list PyVal) : Res bool :=
         match l1, l2 with
         | [], [] => Ret false
         | [], _ :: _ => Ret true
         | _ :: _, [] => Ret false
         | x :: xs, y :: ys => if py_eq x y then go xs ys else py_lt x y
         end) l1 l2
  | _, _ => Err (TypeError "'<' not supported between instances")
  end.

(** [value[key]] *)
Definition py_getitem (v : PyVal) (k : string) : Res PyVal :=
  match v with
  | PyDict d =>
      match dict_get k d with Some x => Ret x | None => Err (KeyError k) end
  | _ => Err (TypeError "object is not subscriptable with a string")
  end.

(** ** Strings and [os.path] (POSIX) *)

Definition ascii_lower (c : ascii) : ascii :=
  let n := nat_of_ascii c in
  if (65 <=? n)%nat && (n <=? 90)%nat then ascii_of_nat (n + 32) else c.

Fixpoint str_map (f : ascii → ascii) (s : string) : string :=
  match s with
  | EmptyString => EmptyString
  | String c s' => String (f c) (str_map f s')
  end.

(** [s.replace(" ", "_")] *)
Definition replace_spaces (s : string) : string :=
  str_map (fun c => if Ascii.eqb c " " then "_"%char else c) s.

(** [s.lower()], on ASCII text *)
Definition lower (s : string) : string := str_map ascii_lower s.

(** [s.ljust(n)] *)
Definition ljust (s : string) (n : nat) : string :=
  s +:+ String.concat "" (replicate (n - String.length s) " ").

Module posixpath.

Definition isabs (p : string) : bool :=
  match p with String "/" _ => true | _ => false end.

Fixpoint endswith_sep (p : string) : bool :=
  match p with
  | EmptyString => false
  | String c EmptyString => Ascii.eqb c "/"
  | String _ p' => endswith_sep p'
  end.

(** [os.path.join(a, b)] *)
Definition join (a b : string) : string :=
  if isabs b then b
  else if String.eqb a "" || endswith_sep a then a +:+ b
  else a +:+ "/" +:+ b.

(** [p.split("/")] *)
Fixpoint split (p : string) : list string :=
  match p with
  | EmptyString => [EmptyString]
  | String c p' =>
      if Ascii.eqb c "/" then EmptyString :: split p'
      else match split p' with
           | [] => [String c EmptyString]
           | w :: ws => String c w :: ws
           end
  end.

(** The loop of [normpath] over the components, [acc] being [new_comps]
    in reverse. *)
Fixpoint norm_comps (initial_slashes : nat) (acc comps : list string)
  : list string :=
  match comps with
  | [] => rev acc
  | comp :: rest =>
      if String.eqb comp "" || String.eqb comp "." then
        norm_comps initial_slashes acc rest
      else if negb (String.eqb comp "..")
              || (Nat.eqb initial_slashes 0
                  && match acc with [] => true | _ => false end)
              || match acc with
                 | last :: _ => String.eqb last ".."
                 | [] => false
                 end
      then norm_comps initial_slashes (comp :: acc) rest
      else norm_comps initial_slashes (tail acc) rest
  end.

Definition count_initial_slashes (p : string) : nat :=
  match p with
  | String "/" (String "/" (String "/" _)) => 1
  | String "/" (String "/" _) => 2
  | String "/" _ => 1
  | _ => 0
  end.

Definition normpath (path : string) : string :=
  if String.eqb path "" then "."
  else
    let initial_slashes := count_initial_slashes path in
    let comps := norm_comps initial_slashes [] (split path) in
    let p := String.concat "" (replicate initial_slashes "/")
             +:+ String.concat "/" comps in
    if String.eqb p "" then "." else p.

(** [os.path.abspath(path)] when [os.getcwd()] is [cwd] *)
Definition abspath (cwd path : string) : string :=
  normpath (if isabs path then path else join cwd path).

Fixpoint rstrip_sep_rev (r : list ascii) : list ascii :=
  match r with
  | c :: r' => if Ascii.eqb c "/" then rstrip_sep_rev r' else r
  | [] => []
  end.

Fixpoint drop_to_sep_rev (r : list ascii) : list ascii :=
  match r with
  | c :: r' => if Ascii.eqb c "/" then r else drop_to_sep_rev r'
  | [] => []
  end.

(** [os.path.dirname(p)] *)
Definition dirname (p : string) : string :=
  let head := drop_to_sep_rev (rev (list_ascii_of_string p)) in
  match rstrip_sep_rev head with
  | [] => string_of_list_ascii (rev head)
  | h => string_of_list_ascii (rev h)
  end.

Fixpoint drop_common (a b : list string) : list string * list string :=
  match a, b with
  | x :: a', y :: b' =>
      if String.eqb x y then drop_common a' b' else (a, b)
  | _, _ => (a, b)
  end.

Definition nonempty_comps (p : string) : list string :=
  filter (fun x => x ≠ "") (split p).

(** [os.path.relpath(path, start)] *)
Definition relpath (cwd path start : string) : Res string :=
  if String.eqb path "" then Err (ValueError "no path specified")
  else
    let start_list := nonempty_comps (abspath cwd start) in
    let path_list := nonempty_comps (abspath cwd path) in
    let '(s, p) := drop_common start_list path_list in
    let rel_list := (replicate (length s) ".." ++ p)%list in
    match rel_list with
    | [] => Ret "."
    | c :: cs => Ret (foldl join c cs)
    end.

End posixpath.

(** ** The world: file system, heap of [trial_data] dictionaries, the
    experiment object, the warning and log channels *)

Inductive File :=
| JsonFile (doc : PyVal)
(** what is left of a [json.dump] that raised part-way *)
| TruncatedJson (doc : PyVal)
| TextFile (content : string)
| FigureFile (id : nat).

Record FS := mkFS {
  fs_dirs : gset string;
  fs_files : gmap string File
}.

(** The [Experiment] instance.  [experiment_data] holds the keys ["name"],
    ["description"], ["start_time"], ["duration"] and ["directory"]; the
    list stored under its key ["trials"] is the field [trials], a list of
    references into the heap. *)
Record ExperimentObj := mkExperiment {
  experiment_data : Dict;
  trials : list nat;
  _figures : PyVal;
  _evaluation_metrics : PyVal;
  report_kwargs : Dict
}.

Record World := mkWorld {
  w_fs : FS;
  w_cwd : string;
  w_clock : nat;
  w_heap : gmap nat Dict;
  w_next : nat;
  w_exp : ExperimentObj;
  w_warnings : list string;
  w_log : list (string * string)
}.

Definition set_fs (f : FS → FS) (w : World) : World :=
  mkWorld (f (w_fs w)) (w_cwd w) (w_clock w) (w_heap w) (w_next w) (w_exp w)
          (w_warnings w) (w_log w).
Definition set_heap (f : gmap nat Dict → gmap nat Dict) (w : World) : World :=
  mkWorld (w_fs w) (w_cwd w) (w_clock w) (f (w_heap w)) (w_next w) (w_exp w)
          (w_warnings w) (w_log w).
Definition set_next (n : nat) (w : World) : World :=
  mkWorld (w_fs w) (w_cwd w) (w_clock w) (w_heap w) n (w_exp w)
          (w_warnings w) (w_log w).
Definition set_exp (f : ExperimentObj → ExperimentObj) (w : World) : World :=
  mkWorld (w_fs w) (w_cwd w) (w_clock w) (w_heap w) (w_next w) (f (w_exp w))
          (w_warnings w) (w_log w).
Definition add_warning (msg : string) (w : World) : World :=
  mkWorld (w_fs w) (w_cwd w) (w_clock w) (w_heap w) (w_next w) (w_exp w)
          (w_warnings w ++ [msg]) (w_log w).
Definition add_log (level msg : string) (w : World) : World :=
  mkWorld (w_fs w) (w_cwd w) (w_clock w) (w_heap w) (w_next w) (w_exp w)
          (w_warnings w) (w_log w ++ [(level, msg)]).

Definition set_experiment_data (f : Dict → Dict) (e : ExperimentObj)
  : ExperimentObj :=
  mkExperiment (f (experiment_data e)) (trials e) (_figures e)
               (_evaluation_metrics e) (report_kwargs e).
Definition set_trials (f : list nat → list nat) (e : ExperimentObj)
  : ExperimentObj :=
  mkExperiment (experiment_data e) (f (trials e)) (_figures e)
               (_evaluation_metrics e) (report_kwargs e).

(** The dictionary a reference points to. *)
Definition deref (w : World) (l : nat) : Dict := default [] (w_heap w !! l).

(** ** The monad of methods *)

Definition M (A : Type) : Type := World → Res A * World.

Definition ret {A} (a : A) : M A := fun w => (Ret a, w).
Definition raise {A} (e : PyExc) : M A := fun w => (Err e, w).
Definition bind {A B} (m : M A) (k : A → M B) : M B :=
  fun w => match m w with
           | (Ret a, w') => k a w'
           | (Err e, w') => (Err e, w')
           end.
Definition get_world : M World := fun w => (Ret w, w).
Definition modify (f : World → World) : M unit := fun w => (Ret (), f w).
Definition lift {A} (r : Res A) : M A := fun w => (r, w).

Notation "'let*' x ':=' m 'in' k" := (bind m (fun x => k))
  (at level 10, x pattern, m at level 100, k at level 200).
Notation "m ';;;' k" := (bind m (fun _ => k))
  (at level 100, k at level 200, right associativity).

Fixpoint mapM {A B} (f : A → M B) (l : list A) : M (list B) :=
  match l with
  | [] => ret []
  | a :: l' => let* b := f a in let* bs := mapM f l' in ret (b :: bs)
  end.

Fixpoint forM_ {A} (l : list A) (f : A → M unit) : M unit :=
  match l with
  | [] => ret ()
  | a :: l' => f a ;;; forM_ l' f
  end.

(** [d[k]] on a dictionary *)
Definition getitem (d : Dict) (k : string) : M PyVal :=
  match dict_get k d with
  | Some v => ret v
  | None => raise (KeyError k)
  end.

Definition warn (msg : string) : M unit := modify (add_warning msg).
Definition logger_warning (msg : string) : M unit := modify (add_log "WARNING" msg).
Definition logger_info (msg : string) : M unit := modify (add_log "INFO" msg).

Definition nl : string := String (ascii_of_nat 10) EmptyString.

(** ** File system operations *)

(** The proper ancestors of a path, outermost first: the text before each
    separator that follows a component. *)
Fixpoint ancestors_from (seen : string) (rest : string) : list string :=
  match rest with
  | EmptyString => []
  | String c rest' =>
      let here :=
        if Ascii.eqb c "/" && negb (String.eqb seen "")
           && negb (posixpath.endswith_sep seen)
        then [seen] else [] in
      (here ++ ancestors_from (seen +:+ String c EmptyString) rest')%list
  end.

Definition ancestors (p : string) : list string :=
  ancestors_from EmptyString p.

Definition NotADirectoryError (p : string) : PyExc :=
  OtherError "NotADirectoryError" [PyStr p].

(** [os.makedirs(p, exist_ok=True)]: creates the missing directories of the
    path; fails when a regular file is in the way; removes nothing. *)
Definition makedirs (p : string) : M unit :=
  let* w := get_world in
  match filter (fun a => is_Some (fs_files (w_fs w) !! a)) (ancestors p) with
  | a :: _ => raise (NotADirectoryError a)
  | [] =>
      if decide (is_Some (fs_files (w_fs w) !! p)) then
        raise (FileExistsError p)
      else
        modify (set_fs (fun fs =>
          mkFS (fs_dirs fs ∪ list_to_set (ancestors p) ∪ {[ p ]})
               (fs_files fs)))
  end.

Definition write_file (p : string) (f : File) : M unit :=
  modify (set_fs (fun fs => mkFS (fs_dirs fs) (<[p := f]> (fs_files fs)))).

(** [with open(p, "w") as f: json.dump(obj, f, indent=4)].  The file is
    opened (and emptied) before the encoder runs; the encoder raises
    [TypeError] at the first object it cannot encode. *)
Definition json_dump_to (p : string) (obj : PyVal) : M unit :=
  if json_serializable obj then write_file p (JsonFile obj)
  else write_file p (TruncatedJson obj) ;;;
       raise (TypeError "Object is not JSON serializable").

(** [try: body except TypeError: handler] *)
Definition try_except_TypeError {A} (body : M A) (handler : M A) : M A :=
  fun w => match body w with
           | (Err (TypeError _), w') => handler w'
           | r => r
           end.

(** ** Collaborators that are not part of the modelled sources

    [get_datetime], [get_duration] and [transform_figures_to_files] are
    imported by [trial.py] and [experiment.py] but defined elsewhere; [str]
    and the format [.4f] are Python built-ins.  What an object that is no
    string does when it is used as a trial name, and what [list.sort] leaves
    behind when a comparison raises, is decided outside these sources too.
    They are parameters of the development. *)
Class Collaborators := {
  (** [get_datetime()] when the clock shows [t] *)
  get_datetime : nat → PyVal;
  (** [get_duration(start_time)] when the clock shows [t] *)
  get_duration : PyVal → nat → PyVal;
  (** [transform_figures_to_files(figures, directory)]: may write files, may
      raise; returns the mapping from figure names to paths *)
  transform_figures_to_files : PyVal → PyVal → FS → Res PyVal * FS;
  (** [str(v)], as an f-string renders [v] *)
  py_str : PyVal → string;
  (** [f"{v:.4f}"] on a number *)
  py_format_4f : Q → string;
  (** [name.replace(" ", "_").lower()] on a name that is an object [id] and
      no string: [AttributeError] for an object without [replace] (a
      function), [TypeError] for a [bytes] or a [datetime], whose [replace]
      takes other arguments; the text, for an object that behaves like a
      string *)
  object_normalize_name : nat → Res string;
  (** the order in which [list.sort] leaves the items when a comparison of
      two keys raises (the list is then "left in a partially modified
      state", which one depends on the merge strategy of CPython), given the
      keys and the items *)
  order_after_failed_sort : list PyVal → list nat → list nat
}.

(** [f"{v}"]: a string is rendered as its text, anything else by [str]. *)
Definition fmt `{Collaborators} (v : PyVal) : string :=
  match v with PyStr s => s | _ => py_str v end.

(** ** [list.sort(key=..., reverse=...)]

    The keys are computed first; the decorated list is then sorted with [<]
    on the keys only.  CPython's sort is stable, and with [reverse=True] it
    reverses the list, sorts it and reverses the result, so that equal keys
    keep their order.  Insertion sort stands for it: every stable sort gives
    the same list when [<] orders the keys (numbers among themselves,
    strings among themselves), and a list in which no key is smaller than
    the one before it, which CPython finds to be one run before it moves
    anything, is left as it is by both ([one_run]).  With a NaN among the
    keys of a list that is not one run, what CPython yields depends on its
    merge strategy; no statement is made about such lists. *)
Section Sorting.
Context {A : Type}.

(** No key is smaller than the one before it. *)
Fixpoint one_run (l : list (PyVal * A)) : bool :=
  match l with
  | x :: l' =>
      match l' with
      | y :: _ =>
          match py_lt y.1 x.1 with
          | Ret false => one_run l'
          | _ => false
          end
      | [] => true
      end
  | [] => true
  end.

Fixpoint insert_key (x : PyVal * A) (l : list (PyVal * A))
  : Res (list (PyVal * A)) :=
  match l with
  | [] => Ret [x]
  | y :: l' =>
      res_bind (py_lt y.1 x.1) (fun b =>
        if b then res_bind (insert_key x l') (fun r => Ret (y :: r))
        else Ret (x :: y :: l'))
  end.

Fixpoint sort_keys (l : list (PyVal * A)) : Res (list (PyVal * A)) :=
  match l with
  | [] => Ret []
  | x :: l' => res_bind (sort_keys l') (insert_key x)
  end.

Definition list_sort (reverse : bool) (l : list (PyVal * A))
  : Res (list (PyVal * A)) :=
  if reverse then res_bind (sort_keys (rev l)) (fun r => Ret (rev r))
  else sort_keys l.
End Sorting.

(** The same sort on a list whose keys are the numbers [f x]; the
    statements about sorted collections refer to it. *)
Section SortByNumber.
Context {A : Type} (f : A → Q).

Fixpoint insert_by (x : A) (l : list A) : list A :=
  match l with
  | [] => [x]
  | y :: l' =>
      if negb (Qle_bool (f x) (f y)) then y :: insert_by x l'
      else x :: y :: l'
  end.

Fixpoint sort_by (l : list A) : list A :=
  match l with
  | [] => []
  | x :: l' => insert_by x (sort_by l')
  end.

Definition sort_by_descending (l : list A) : list A :=
  rev (sort_by (rev l)).

Definition decorate (l : list A) : list (PyVal * A) :=
  map (fun x => (PyNum (f x), x)) l.
End SortByNumber.

(** ** [helpers/trial.py] *)

(** A [Trial] instance: the reference to its [trial_data], the flag computed
    by the constructor, and the bound method kept in
    [self.fetch_trial_results], which reads the experiment object.
    [self.experiment_trials] is the list [trials] of the experiment in the
    world. *)
Record TrialObj := mkTrial {
  trial_data : nat;
  _already_runned : bool;
  fetch_trial_results : ExperimentObj → Dict
}.

(** What [__exit__] receives: [None] on a clean exit, otherwise the class of
    the exception and the exception.  Calling the class with one argument
    either builds an instance or raises. *)
Record ExcClass := mkExcClass {
  cls_name : string;
  cls_call : PyExc → Res PyExc
}.
Definition ExcInfo : Type := option (ExcClass * PyExc).

Definition setitem (l : nat) (k : string) (v : PyVal) : M unit :=
  modify (fun w => set_heap (fun h => <[l := dict_set k v (deref w l)]> h) w).

(** [[trial["name"] for trial in self.experiment_trials]] *)
Definition trial_names : M (list PyVal) :=
  let* w := get_world in
  mapM (fun l => getitem (deref w l) "name") (trials (w_exp w)).

(** [x in names] *)
Definition py_in (x : PyVal) (names : list PyVal) : bool :=
  existsb (fun n => py_eq n x) names.

(** [names.index(x)], for [x in names] *)
Fixpoint py_index (x : PyVal) (names : list PyVal) : nat :=
  match names with
  | [] => 0
  | n :: names' => if py_eq n x then 0 else S (py_index x names')
  end.

(** [all(value == {} for value in trial_results.values())] *)
Definition all_empty (trial_results : Dict) : bool :=
  forallb (fun value => py_eq value (PyDict [])) (dict_values trial_results).

(** The keys of a [trial_data] dictionary, as [_init_trial_data] creates
    them. *)
Definition trial_keys : list string :=
  ["name"; "start_time"; "duration"; "directory"; "hyperparameters";
   "figures"; "evaluation_metrics"; "training_history"].

(** [os.path.join(a, b)] on objects: both must be strings. *)
Definition path_join (a : PyVal) (b : string) : M string :=
  match a with
  | PyStr d => ret (posixpath.join d b)
  | _ => raise (TypeError "expected str, bytes or os.PathLike object")
  end.

Module Trial.
Section Methods.
Context `{Collaborators}.

Definition normalize_trial_name (trial_name : string) : string :=
  lower (replace_spaces trial_name).

Definition _make_trial_directory (experiment_directory : PyVal)
    (name : string) : M string :=
  let* trial_directory :=
    path_join experiment_directory (lower (replace_spaces name)) in
  makedirs trial_directory ;;;
  ret trial_directory.

(** [normalize_trial_name(name)] on whatever the caller passes as the
    name: [None], a number, a list and a dictionary have no [replace]; what
    any other object does is its own affair. *)
Definition normalize_name (name : PyVal) : Res string :=
  match name with
  | PyStr n => Ret (normalize_trial_name n)
  | PyObj id => object_normalize_name id
  | _ => Err (AttributeError "object has no attribute 'replace'")
  end.

(** Returns the reference to the new [self.trial_data]. *)
Definition _init_trial_data (name hyperparameters : PyVal) : M nat :=
  let* w := get_world in
  let* experiment_directory :=
    getitem (experiment_data (w_exp w)) "directory" in
  let* normalized := lift (normalize_name name) in
  let* trial_directory :=
    _make_trial_directory experiment_directory normalized in
  let* w := get_world in
  let l := w_next w in
  modify (fun w =>
    set_next (S l) (set_heap (fun h =>
      <[l := [("name", name);
              ("start_time", PyNone);
              ("duration", PyNone);
              ("directory", PyStr trial_directory);
              ("hyperparameters", hyperparameters);
              ("figures", PyNone);
              ("evaluation_metrics", PyNone);
              ("training_history", PyNone)]]> h) w)) ;;;
  ret l.

Definition _check_if_already_runned (self_trial_data : nat) : M bool :=
  let* w := get_world in
  let* trial := getitem (deref w self_trial_data) "name" in
  let* experiment_trials := trial_names in
  ret (py_in trial experiment_trials).

(** [Trial(experiment, name, hyperparameters)], [get_results] being
    [experiment.get_results].  The checks and copies of the research
    attributes do not touch the modelled state. *)
Definition __init__ (get_results : ExperimentObj → Dict)
    (name hyperparameters : PyVal) : M TrialObj :=
  let* l := _init_trial_data name hyperparameters in
  let* already := _check_if_already_runned l in
  ret (mkTrial l already get_results).

Definition __enter__ (self : TrialObj) : M TrialObj :=
  let* w := get_world in
  setitem (trial_data self) "start_time" (get_datetime (w_clock w)) ;;;
  ret self.

Definition _raise_exception_if_any (exc : ExcInfo) : M unit :=
  match exc with
  | Some (_, exc_value) => raise exc_value
  | None => ret ()
  end.

Definition _remove_trial (trial_name : PyVal) : M unit :=
  let* names := trial_names in
  if negb (py_in trial_name names) then
    raise (ValueError ("Trial " +:+ fmt trial_name
                       +:+ " not found in experiment trials."))
  else
    let index := py_index trial_name names in
    modify (set_exp (set_trials (fun ts => delete index ts))).

Definition _write_trial_data (self : TrialObj) : M unit :=
  let* w := get_world in
  let* directory := getitem (deref w (trial_data self)) "directory" in
  let* trial_info_json := path_join directory "trial_info.json" in
  (* Remove history *)
  let trial_data := deref w (trial_data self) in
  try_except_TypeError
    (json_dump_to trial_info_json (PyDict trial_data))
    (let* name := getitem trial_data "name" in
     let msg := "Hyperparameters are not JSON serializable for trial"
                +:+ fmt name +:+ ". Saving None instead." in
     warn msg ;;;
     logger_warning "Hyperparameters are not JSON serializable" ;;;
     let trial_data := dict_set "hyperparameters" PyNone trial_data in
     json_dump_to trial_info_json (PyDict trial_data)).

Definition call_transform_figures (figures directory : PyVal) : M PyVal :=
  fun w =>
    let '(r, fs) := transform_figures_to_files figures directory (w_fs w) in
    (r, set_fs (fun _ => fs) w).

Definition __exit__ (self : TrialObj) (exc : ExcInfo) : M unit :=
  let* w := get_world in
  let* start_time := getitem (deref w (trial_data self)) "start_time" in
  let duration := get_duration start_time (w_clock w) in
  setitem (trial_data self) "duration" duration ;;;

  _raise_exception_if_any exc ;;;

  let* w := get_world in
  let trial_results := fetch_trial_results self (w_exp w) in

  let results_empty := all_empty trial_results in
  let* trial_name := getitem (deref w (trial_data self)) "name" in
  if results_empty && _already_runned self then
    let msg := "Skipping '" +:+ fmt trial_name +:+ "'. Already run, no new"
               +:+ nl +:+ "results. Keeping old results." in
    warn msg ;;;
    logger_warning ("Skipping " +:+ fmt trial_name)
  else
    logger_info ("Finalizing trial: " +:+ fmt trial_name) ;;;
    if results_empty then
      let msg := "'" +:+ fmt trial_name +:+ "' produced no results. Nothing"
                 +:+ nl +:+ "saved." in
      warn msg ;;;
      logger_warning (fmt trial_name +:+ " produced no results")
    else
      (if _already_runned self then
         let msg := "'" +:+ fmt trial_name +:+ "' already run. Overwriting old"
                    +:+ nl +:+ "results." in
         warn msg ;;;
         logger_warning ("Overwriting old results for " +:+ fmt trial_name) ;;;
         _remove_trial trial_name
       else ret ()) ;;;

      let* figures := getitem trial_results "figures" in
      let* w := get_world in
      let* directory := getitem (deref w (trial_data self)) "directory" in
      let* files := call_transform_figures figures directory in
      setitem (trial_data self) "figures" files ;;;
      let* evaluation_metrics := getitem trial_results "evaluation_metrics" in
      setitem (trial_data self) "evaluation_metrics" evaluation_metrics ;;;
      let* training_history := getitem trial_results "training_history" in
      setitem (trial_data self) "training_history" training_history ;;;

      _write_trial_data self ;;;

      modify (set_exp (set_trials (fun ts => ts ++ [trial_data self])))%list.
End Methods.
End Trial.

(** ** [helpers/markdown_file_writer.py]

    The writer object is its [file_path], [file_dir] and [file_lines]; the
    methods return the lines they append. *)
Module MarkdownFileWriter.
Section Methods.
Context `{Collaborators}.

Definition write_title (title : string) (level : nat) : list string :=
  [String.concat "" (replicate level "#") +:+ " " +:+ title +:+ nl].

Definition write_key_value (key value : string) : list string :=
  ["*    " +:+ key +:+ ": " +:+ value +:+ nl].

(** [max(len(elem) for elem in elements)] *)
Definition max_len (elements : list string) : Res nat :=
  match elements with
  | [] => Err (ValueError "max() arg is an empty sequence")
  | _ => Ret (foldr Nat.max 0 (String.length <$> elements))
  end.

Definition write_key_value_table (table_data : list (string * string))
    (key_label value_label : string) : Res (list string) :=
  let elements := (table_data.*1 ++ table_data.*2)%list in
  res_bind (max_len elements) (fun max_elem_len =>
    let key_header := ljust key_label max_elem_len in
    let value_header := ljust value_label max_elem_len in
    let dashes := String.concat "" (replicate max_elem_len "-") in
    Ret ((["| " +:+ key_header +:+ " | " +:+ value_header +:+ " |";
           "| " +:+ dashes +:+ " | " +:+ dashes +:+ " |"]
          ++ ((fun kv : string * string =>
                 "| " +:+ ljust kv.1 max_elem_len +:+ " | "
                 +:+ ljust kv.2 max_elem_len +:+ " |") <$> table_data)
          ++ [nl])%list)).

(** [create_link(path, hyperlink_text)], [file_dir] being the directory of
    the report and [cwd] the working directory.  [os.path.relpath] tests
    [not path] first: a path that is false ([None], [0], an empty string,
    list or dictionary) is [ValueError], any other path that is no string is
    [TypeError]. *)
Definition create_link (cwd file_dir : string) (path : PyVal)
    (hyperlink_text : string) : Res string :=
  match path with
  | PyStr p =>
      res_bind (posixpath.relpath cwd p file_dir) (fun relative_path =>
        let link := "./" +:+ relative_path in
        let hyperlink_text :=
          if String.eqb hyperlink_text "" then "[Link]" else hyperlink_text in
        Ret ("[" +:+ hyperlink_text +:+ "](" +:+ link +:+ ")"))
  | _ =>
      if py_truthy path
      then Err (TypeError "expected str, bytes or os.PathLike object")
      else Err (ValueError "no path specified")
  end.

Definition write_figure (cwd file_dir : string) (figure_name : string)
    (path : PyVal) : Res (list string) :=
  res_bind (create_link cwd file_dir path figure_name) (fun figure_link =>
    Ret ["!" +:+ figure_link +:+ nl]).

Definition save_file (file_path : string) (file_lines : list string)
  : M unit :=
  write_file file_path (TextFile (String.concat nl file_lines)).
End Methods.
End MarkdownFileWriter.

(** ** [helpers/create_experiment_report.py] *)
Section Report.
Context `{Collaborators}.
Import MarkdownFileWriter.

Definition res_getitem (d : Dict) (k : string) : Res PyVal :=
  match dict_get k d with Some v => Ret v | None => Err (KeyError k) end.

(** [v.items()] *)
Definition py_items (v : PyVal) : Res Dict :=
  match v with
  | PyDict d => Ret d
  | _ => Err (AttributeError "object has no attribute 'items'")
  end.

Fixpoint res_mapM {A B} (f : A → Res B) (l : list A) : Res (list B) :=
  match l with
  | [] => Ret []
  | a :: l' =>
      res_bind (f a) (fun b =>
        res_bind (res_mapM f l') (fun bs => Ret (b :: bs)))
  end.

(** The lines of one pass of the loop over the trials. *)
Definition trial_section (cwd file_dir : string) (trial : Dict)
  : Res (list string) :=
  res_bind (res_getitem trial "name") (fun name =>
  res_bind (res_getitem trial "description") (fun description =>
  res_bind (res_getitem trial "start_time") (fun start_time =>
  res_bind (res_getitem trial "directory") (fun directory =>
  res_bind (create_link cwd file_dir directory "Link") (fun trial_directory_link =>
  res_bind (res_getitem trial "hyperparameters") (fun hyperparameters =>
  res_bind (py_items hyperparameters) (fun hps =>
  let hyperparameter_table :=
    (fun pv : string * PyVal => (pv.1, py_str pv.2)) <$> hps in
  res_bind (write_key_value_table hyperparameter_table
              "Hyperparameter" "Value") (fun hp_lines =>
  res_bind
    (if dict_has "figures" trial
        && py_truthy (default PyNone (dict_get "figures" trial))
     then
       res_bind (py_items (default PyNone (dict_get "figures" trial)))
         (fun figs =>
       res_bind (res_mapM (fun nf : string * PyVal =>
                             write_figure cwd file_dir nf.1 nf.2) figs)
         (fun ls => Ret (write_title "Figures:" 3 ++ concat ls)%list))
     else Ret []) (fun fig_lines =>
  res_bind
    (if dict_has "evaluation_metrics" trial
        && py_truthy (default PyNone (dict_get "evaluation_metrics" trial))
     then
       res_bind
         (py_items (default PyNone (dict_get "evaluation_metrics" trial)))
         (fun ms =>
       let evaluation_metrics_table :=
         omap (fun mv : string * PyVal =>
                 match mv.2 with
                 | PyNum q => Some (mv.1, py_format_4f q)
                 | PyNaN => Some (mv.1, "nan")
                 | _ => None
                 end) ms in
       res_bind (write_key_value_table evaluation_metrics_table
                   "Metric" "Value") (fun ls =>
         Ret (write_title "Evaluation Metrics:" 3 ++ ls)%list))
     else Ret []) (fun metric_lines =>
  Ret (write_title (fmt name) 2
       ++ write_key_value "Description" (fmt description)
       ++ write_key_value "Start Time" (fmt start_time)
       ++ write_key_value "Directory" trial_directory_link
       ++ write_title "Hyperparameters:" 3
       ++ hp_lines ++ fig_lines ++ metric_lines)%list)))))))))).

(** [create_experiment_report(experiment_data, **report_kwargs)].  The
    function has no keyword parameters, so any keyword is a [TypeError];
    the file is written by [save_file] at the very end. *)
Definition create_experiment_report (report_kwargs : Dict) : M unit :=
  match report_kwargs with
  | _ :: _ => raise (TypeError "got an unexpected keyword argument")
  | [] =>
      let* w := get_world in
      let data := experiment_data (w_exp w) in
      let* directory := getitem data "directory" in
      let* report_path := path_join directory "experiment_report.md" in
      let file_dir := posixpath.dirname report_path in
      let* name := getitem data "name" in
      let* description := getitem data "description" in
      let* start_time := getitem data "start_time" in
      let* experiment_directory_link :=
        lift (create_link (w_cwd w) file_dir directory "Link") in
      let head :=
        (write_title ("Experiment Report: " +:+ fmt name) 1
         ++ write_title "Experiment Metadata" 2
         ++ write_key_value "Description" (fmt description)
         ++ write_key_value "Start Time" (fmt start_time)
         ++ write_key_value "Directory" experiment_directory_link)%list in
      let* sections :=
        lift (res_mapM (fun l => trial_section (w_cwd w) file_dir (deref w l))
                       (trials (w_exp w))) in
      save_file report_path (head ++ concat sections)%list
  end.
End Report.

(** ** [experiment.py] *)
Module Experiment.
Section Methods.
Context `{Collaborators}.

Definition _make_experiment_directory (directory name : string) : M string :=
  let* w := get_world in
  let experiment_dir :=
    posixpath.join
      (posixpath.abspath (w_cwd w) (posixpath.normpath directory))
      (replace_spaces name) in
  makedirs experiment_dir ;;;
  ret experiment_dir.

(** [Experiment(research_attributes, directory, name, description,
    report_kwargs)].  The new instance becomes the experiment of the world.
    [super().__init__()] and [synchronize_research_attributes] belong to
    the research attributes and leave [experiment_data] alone. *)
Definition __init__ (directory name : string) (description : PyVal)
    (report_kwargs : option Dict) : M unit :=
  let* experiment_directory := _make_experiment_directory directory name in
  modify (set_exp (fun _ =>
    mkExperiment
      [("name", PyStr name);
       ("description", description);
       ("start_time", PyNone);
       ("duration", PyNone);
       ("directory", PyStr experiment_directory)]
      []
      (PyDict [])
      (PyDict [])
      (default [] report_kwargs))).

Definition _write_experiment_data : M unit :=
  let* w := get_world in
  let* directory := getitem (experiment_data (w_exp w)) "directory" in
  let* info_json := path_join directory "experiment_info.json" in
  (* the copy without "trials" *)
  let experiment_data := experiment_data (w_exp w) in
  json_dump_to info_json (PyDict experiment_data).

Definition __enter__ : M unit :=
  let* w := get_world in
  modify (set_exp (set_experiment_data
    (dict_set "start_time" (get_datetime (w_clock w))))).

(** [x["evaluation_metrics"]["accuracy"]] *)
Definition accuracy_key (x : Dict) : Res PyVal :=
  res_bind (res_getitem x "evaluation_metrics") (fun m =>
    py_getitem m "accuracy").

Definition _sort_trials : M unit :=
  let* w := get_world in
  match trials (w_exp w) with
  | [] => ret ()
  | ts =>
      (* the keys are computed first: when one of them raises, the list is
         as it was *)
      let* keys := lift (res_mapM (fun l => accuracy_key (deref w l)) ts) in
      match list_sort true (zip keys ts) with
      | Ret sorted => modify (set_exp (set_trials (fun _ => sorted.*2)))
      | Err e =>
          modify (set_exp (set_trials (fun _ =>
                    order_after_failed_sort keys ts))) ;;;
          raise e
      end
  end.

Definition __exit__ (exc : ExcInfo) : M unit :=
  let* w := get_world in
  let* start_time := getitem (experiment_data (w_exp w)) "start_time" in
  let duration := get_duration start_time (w_clock w) in
  modify (set_exp (set_experiment_data (dict_set "duration" duration))) ;;;

  match exc with
  | Some (exc_type, exc_value) =>
      let* exc := lift (cls_call exc_type exc_value) in
      let msg := "An error occurred during the experiment." in
      raise (ExperimentError msg exc)
  | None =>
      _write_experiment_data ;;;
      _sort_trials ;;;
      let* w := get_world in
      create_experiment_report (report_kwargs (w_exp w))
  end.

Definition get_results (self : ExperimentObj) : Dict :=
  [("figures", _figures self);
   ("evaluation_metrics", _evaluation_metrics self)].

(** A call [Trial(self, a1, ..., an)]: [Trial.__init__] has the parameters
    [experiment], [name] and [hyperparameters], so exactly two arguments
    must follow the experiment. *)
Definition call_Trial (args : list PyVal) : M TrialObj :=
  match args with
  | [name; hyperparameters] => Trial.__init__ get_results name hyperparameters
  | _ => raise (TypeError "Trial.__init__() takes 4 positional arguments")
  end.

Definition trial (name description hyperparameters : PyVal) : M TrialObj :=
  call_Trial [name; description; hyperparameters].
End Methods.
End Experiment.

(** ** [helpers/load_definitions_of_experiment.py]

    [HParamsSuggester] is imported from a module that is not part of the
    modelled sources: its state, its constructor (which may raise
    [AssertionError]) and [suggest_next] are parameters. *)
Class SuggesterImpl := {
  Suggester : Type;
  HParamsSuggester : PyVal → Res Suggester;
  suggest_next : Suggester → PyVal * Suggester
}.

Section DefinitionsLoader.
Context `{Collaborators} `{SuggesterImpl}.

Record _TrialsDefinitionsIterator := mkIterator {
  suggester : Suggester;
  num_trials : PyVal;
  prefix : PyVal;
  trial_count : Z
}.

Definition iterator__init__ (suggester : Suggester) (num_trials prefix : PyVal)
  : _TrialsDefinitionsIterator :=
  mkIterator suggester num_trials prefix 0.

(** [__next__]: the result and the iterator after the call. *)
Definition __next__ (self : _TrialsDefinitionsIterator)
  : Res Dict * _TrialsDefinitionsIterator :=
  if py_eq (PyNum (inject_Z (trial_count self))) (num_trials self) then
    (Err StopIteration, self)
  else
    let trial_count := (trial_count self + 1)%Z in
    let name := fmt (prefix self) +:+ pretty trial_count in
    let '(hparams, suggester) := suggest_next (suggester self) in
    (Ret [("name", PyStr name); ("hyperparameters", hparams)],
     mkIterator suggester (num_trials self) (prefix self) trial_count).

(** What [_process_trials_definitions] returns: [iter(list)] or the
    generating iterator. *)
Inductive TrialsStream :=
| ListIterator (items : list PyVal)
| DefinitionsIterator (it : _TrialsDefinitionsIterator).

(** [next(stream)] *)
Definition stream_next (s : TrialsStream) : Res PyVal * TrialsStream :=
  match s with
  | ListIterator [] => (Err StopIteration, s)
  | ListIterator (x :: xs) => (Ret x, ListIterator xs)
  | DefinitionsIterator it =>
      let '(r, it') := __next__ it in
      (res_bind r (fun d => Ret (PyDict d)), DefinitionsIterator it')
  end.

(** [for x in stream], cut after [fuel] calls of [next]: the items and
    whether [StopIteration] ended the loop. *)
Fixpoint iterate (fuel : nat) (s : TrialsStream) : list PyVal * option PyExc :=
  match fuel with
  | 0 => ([], None)
  | S fuel' =>
      match stream_next s with
      | (Ret x, s') => let '(xs, e) := iterate fuel' s' in (x :: xs, e)
      | (Err e, _) => ([], Some e)
      end
  end.

(** [set(trial.keys()) == {"name", "hyperparameters"}] *)
Definition has_expected_keys (trial : PyVal) : Res bool :=
  match trial with
  | PyDict d =>
      Ret (forallb (fun k => String.eqb k "name"
                             || String.eqb k "hyperparameters") (dict_keys d)
           && dict_has "name" d && dict_has "hyperparameters" d)
  | _ => Err (AttributeError "object has no attribute 'keys'")
  end.

Fixpoint assert_list_keys (l : list PyVal) : M unit :=
  match l with
  | [] => ret ()
  | trial :: l' =>
      let* ok := lift (has_expected_keys trial) in
      if ok then assert_list_keys l'
      else raise (AssertionError
                    "Invalid keys in list elements of trials_definitions.")
  end.

Definition _process_trials_definitions (trials_definitions : PyVal)
  : M TrialsStream :=
  match trials_definitions with
  | PyList l =>
      assert_list_keys l ;;;
      ret (ListIterator l)
  | PyDict d =>
      let num_trials := default (PyNum 1) (dict_get "num_trials" d) in
      let d := dict_pop "num_trials" d in
      let prefix := default (PyStr "trial_") (dict_get "prefix" d) in
      let d := dict_pop "prefix" d in
      let hparams_configs := default PyNone (dict_get "hparams_configs" d) in
      let d := dict_pop "hparams_configs" d in
      match hparams_configs with
      | PyNone =>
          raise (AssertionError
                   "hparams_configs is not a key in trials_definitions.")
      | _ =>
          forM_ (dict_keys d) (fun key =>
            warn ("Ignoring key '" +:+ key +:+ "' in trials_definitions.")) ;;;
          match HParamsSuggester hparams_configs with
          | Ret suggester =>
              ret (DefinitionsIterator
                     (iterator__init__ suggester num_trials prefix))
          | Err (AssertionError _) =>
              raise (AssertionError
                       "Invalid hparams_configs in trials_definitions.")
          | Err e => raise e
          end
      end
  | _ =>
      (* [msg += ...] on a name that was never bound *)
      raise (OtherError "UnboundLocalError" [PyStr "msg"])
  end.

(** [_process_trials_definitions] above works on the contents of its
    argument.  When the argument is a dictionary that the caller holds, the
    object at [l], the three [pop]s of lines 106-110 take ["num_trials"],
    ["prefix"] and ["hparams_configs"] out of that very object, before
    anything can raise: the caller's dictionary has lost them afterwards. *)
Definition _process_trials_definitions_at (l : nat) : M TrialsStream :=
  let* w := get_world in
  let d := deref w l in
  modify (set_heap (fun h =>
    <[l := dict_pop "hparams_configs"
             (dict_pop "prefix" (dict_pop "num_trials" d))]> h)) ;;;
  _process_trials_definitions (PyDict d).
End DefinitionsLoader.

(** ** Reading the definitions file
    ([helpers/load_definitions_of_experiment.py], continued) *)

(** [needle in hay] on strings *)
Fixpoint str_contains (needle hay : string) : bool :=
  String.prefix needle hay
  || match hay with
     | EmptyString => false
     | String _ hay' => str_contains needle hay'
     end.

(** [key in v], [key] being a string *)
Definition py_contains (key : string) (v : PyVal) : Res bool :=
  match v with
  | PyDict d => Ret (dict_has key d)
  | PyList l => Ret (existsb (fun x => py_eq x (PyStr key)) l)
  | PyStr s => Ret (str_contains key s)
  | _ => Err (TypeError "argument is not iterable")
  end.

(** [len(v)] *)
Definition py_len (v : PyVal) : Res nat :=
  match v with
  | PyDict d => Ret (length d)
  | PyList l => Ret (length l)
  | PyStr s => Ret (String.length s)
  | _ => Err (TypeError "object has no len()")
  end.

(** [json.load(f)]: a file written by [json.dump] gives back the document.
    A dump that stopped half-way and the Markdown report are text that is
    no JSON document.  A figure is no JSON document either; whether reading
    it fails in the decoder of the text or in the one of JSON depends on its
    format, and both errors are [ValueError]s. *)
Definition json_load (f : File) : Res PyVal :=
  match f with
  | JsonFile doc => Ret doc
  | TruncatedJson _ | TextFile _ => Err (OtherError "JSONDecodeError" [])
  | FigureFile _ => Err (ValueError "not a JSON document")
  end.

Definition FileNotFoundError (msg : string) : PyExc :=
  OtherError "FileNotFoundError" [PyStr msg].

Definition IsADirectoryError (p : string) : PyExc :=
  OtherError "IsADirectoryError" [PyStr p].

Definition _load_definitions (definitions_json : string) : M PyVal :=
  let* w := get_world in
  match fs_files (w_fs w) !! definitions_json with
  | Some f => lift (json_load f)
  | None =>
      if decide (definitions_json ∈ fs_dirs (w_fs w)) then
        raise (IsADirectoryError definitions_json)
      else
        raise (FileNotFoundError
                 (definitions_json
                  +:+ " is not found in the experiment directory."))
  end.

(** [assert cond, msg] *)
Definition py_assert (cond : bool) (msg : string) : M unit :=
  if cond then ret () else raise (AssertionError msg).

Definition _assert_experiment_definitions (experiment_definitions : PyVal)
  : M unit :=
  let expected_keys := ["name"; "description"; "directory"] in
  forM_ expected_keys (fun key =>
    let* found := lift (py_contains key experiment_definitions) in
    py_assert found (key +:+ " is not found in experiment_definitions.")).

Section LoadDefinitions.
Context `{Collaborators} `{SuggesterImpl}.

Definition load_definitions_of_experiment (definitions_json : string)
  : M (PyVal * TrialsStream) :=
  let* definitions := _load_definitions definitions_json in
  let* n := lift (py_len definitions) in
  py_assert (Nat.eqb n 2) "Expected 2 keys in the definitions file." ;;;
  let* found := lift (py_contains "experiment_definitions" definitions) in
  py_assert found
    "experiment_definitions is not found in the definitions file." ;;;
  let* found := lift (py_contains "trials_definitions" definitions) in
  py_assert found "trials_definitions is not found in the definitions file." ;;;
  let* experiment_definitions :=
    lift (py_getitem definitions "experiment_definitions") in
  _assert_experiment_definitions experiment_definitions ;;;
  let* trials_definitions :=
    lift (py_getitem definitions "trials_definitions") in
  let* trials_definitions := _process_trials_definitions trials_definitions in
  ret (experiment_definitions, trials_definitions).
End LoadDefinitions.

(** A descriptor of the explicit list: a dictionary with the keys ["name"]
    and ["hyperparameters"] and no other, in either order. *)
Definition named_trial (t : PyVal) : Prop :=
  ∃ n h, t = PyDict [("name", n); ("hyperparameters", h)]
         ∨ t = PyDict [("hyperparameters", h); ("name", n)].

(** ** Computations that only read, and computations that change nothing
    when they raise *)
Definition reads_only {A} (m : M A) : Prop := ∀ w, (m w).2 = w.

Definition fails_cleanly {A} (m : M A) : Prop :=
  ∀ w e, (m w).1 = Err e → (m w).2 = w.


(** ** The order of a collection

    "Sorted by descending accuracy", read off the collection: no trial
    comes before a trial with a greater accuracy. *)
Definition descending_accuracy (w : World) : Prop :=
  ∀ (i j li lj : nat) (ai aj : PyVal),
    (i < j)%nat →
    trials (w_exp w) !! i = Some li →
    trials (w_exp w) !! j = Some lj →
    Experiment.accuracy_key (deref w li) = Ret ai →
    Experiment.accuracy_key (deref w lj) = Ret aj →
    py_lt ai aj ≠ Ret true.

(** ** Conditions under which a clean close can write and report

    [experiment_writable]: [experiment_data] has its ["start_time"], its
    ["directory"] is a string, and the data with the new ["duration"] can be
    encoded, so that [_write_experiment_data] returns.
    [experiment_reportable]: moreover the keys read for the head of the
    report are there, the directory is not the empty string and no keyword
    is passed to [create_experiment_report]. *)
Definition experiment_writable `{Collaborators} (w : World) : bool :=
  let data := experiment_data (w_exp w) in
  match dict_get "start_time" data, dict_get "directory" data with
  | Some start_time, Some (PyStr _) =>
      json_serializable
        (PyDict (dict_set "duration" (get_duration start_time (w_clock w)) data))
  | _, _ => false
  end.

Definition experiment_reportable `{Collaborators} (w : World) : bool :=
  let data := experiment_data (w_exp w) in
  experiment_writable w
  && dict_has "name" data && dict_has "description" data
  && match dict_get "directory" data with
     | Some (PyStr d) => negb (String.eqb d "")
     | _ => false
     end
  && match report_kwargs (w_exp w) with [] => true | _ => false end.

(** A computation that leaves the experiment object and the heap alone. *)
Definition keeps_objects {A} (m : M A) : Prop :=
  ∀ w, w_exp (m w).2 = w_exp w ∧ w_heap (m w).2 = w_heap w.

(** ** A concrete setting for the worked examples

    Time stamps are the clock reading, a duration is the clock reading too,
    and every figure [name] of a trial is saved as [name.png] in the
    directory of the trial. *)
Definition example_transform (figures directory : PyVal) (fs : FS)
  : Res PyVal * FS :=
  match figures, directory with
  | PyDict figs, PyStr d =>
      (Ret (PyDict ((fun nf : string * PyVal =>
                       (nf.1, PyStr (posixpath.join d (nf.1 +:+ ".png"))))
                    <$> figs)),
       mkFS (fs_dirs fs)
            (foldr (fun (nf : string * PyVal) files =>
                      <[posixpath.join d (nf.1 +:+ ".png") := FigureFile 0]> files)
                   (fs_files fs) figs))
  | _, _ => (Err (AttributeError "object has no attribute 'items'"), fs)
  end.

Definition example_str (v : PyVal) : string :=
  match v with
  | PyNone => "None"
  | PyStr s => s
  | PyNum _ => "<number>"
  | PyList _ => "<list>"
  | PyDict _ => "<dict>"
  | PyObj _ => "<object>"
  | PyNaN => "nan"
  end.

Definition example_collaborators : Collaborators := {|
  get_datetime t := PyStr ("t" +:+ pretty t);
  get_duration _ t := PyNum (inject_Z (Z.of_nat t));
  transform_figures_to_files := example_transform;
  py_str := example_str;
  py_format_4f _ := "<number>";
  object_normalize_name _ :=
    Err (AttributeError "object has no attribute 'replace'");
  order_after_failed_sort _ items := items
|}.

(** A suggester that proposes the learning rates 1, 2, 3, ... *)
Definition example_suggester : SuggesterImpl := {|
  Suggester := nat;
  HParamsSuggester cfg :=
    match cfg with
    | PyDict _ => Ret 0
    | _ => Err (AssertionError "hparams_configs must be a dict")
    end;
  suggest_next n := (PyDict [("lr", PyNum (inject_Z (Z.of_nat (S n))))], S n)
|}.

Definition empty_experiment : ExperimentObj :=
  mkExperiment [] [] (PyDict []) (PyDict []) [].

Definition empty_world (cwd : string) : World :=
  mkWorld (mkFS ∅ ∅) cwd 0 ∅ 0 empty_experiment [] [].

(** The caller's code between the opening and the closing of a trial:
    it records an accuracy in the experiment. *)
Definition record_accuracy (q : Q) : M unit :=
  modify (set_exp (fun e =>
    mkExperiment (experiment_data e) (trials e) (_figures e)
                 (PyDict [("accuracy", PyNum q)]) (report_kwargs e))).

Definition tick : M unit :=
  modify (fun w =>
    mkWorld (w_fs w) (w_cwd w) (S (w_clock w)) (w_heap w) (w_next w)
            (w_exp w) (w_warnings w) (w_log w)).

Section WorkedExamples.
#[local] Existing Instance example_collaborators.

(** A parent whose result snapshot also has the slot ["training_history"]
    that [Trial.__exit__] reads. *)
Definition example_full_results (e : ExperimentObj) : Dict :=
  (Experiment.get_results e ++ [("training_history", PyDict [])])%list.

Definition example_hyperparameters : PyVal := PyDict [("lr", PyNum 1)].

Definition setup_experiment : M unit :=
  Experiment.__init__ "runs" "exp 1" (PyStr "learning rates") None ;;;
  Experiment.__enter__.

(** One complete trial scope, the snapshot being read through [results]. *)
Definition run_trial (results : ExperimentObj → Dict) (name : string)
    (accuracy : Q) : M unit :=
  let* t := Trial.__init__ results (PyStr name) example_hyperparameters in
  let* t := Trial.__enter__ t in
  tick ;;;
  record_accuracy accuracy ;;;
  Trial.__exit__ t None.

(** The caller resets the result slots of the experiment. *)
Definition clear_results : M unit :=
  modify (set_exp (fun e =>
    mkExperiment (experiment_data e) (trials e) (PyDict []) (PyDict [])
                 (report_kwargs e))).

(** The caller stores a figure and no metric. *)
Definition record_figure_only : M unit :=
  modify (set_exp (fun e =>
    mkExperiment (experiment_data e) (trials e) (PyDict [("loss", PyObj 7)])
                 (PyDict []) (report_kwargs e))).

Definition world_after {A} (m : M A) (w : World) : World := (m w).2.
Definition result_of {A} (m : M A) (w : World) : Res A := (m w).1.

(** An experiment in which trial ["T"] is retained and persisted. *)
Definition world_with_T : World :=
  world_after (setup_experiment ;;; run_trial example_full_results "T" (8 # 10))
              (empty_world "/home/u").

(** ["T"] is opened again by the experiment's own [get_results]. *)
Definition reopened_T : M TrialObj :=
  let* t := Trial.__init__ Experiment.get_results (PyStr "T")
                           example_hyperparameters in
  Trial.__enter__ t.

(** A later process: same files, fresh objects. *)
Definition restart (w : World) : World :=
  mkWorld (w_fs w) (w_cwd w) (w_clock w) ∅ 0 empty_experiment [] [].

(** ["T"] reopened after the caller cleared the result slots. *)
Definition rerun_world : World :=
  world_after (clear_results ;;; reopened_T) world_with_T.

Definition rerun_trial : TrialObj := mkTrial 1 true Experiment.get_results.

(** Experiment "exp 1" with [trial_a] (accuracy 0.9) recorded before
    [trial_b] (accuracy 0.95). *)
Definition world_with_a_b : World :=
  world_after (setup_experiment ;;;
               run_trial example_full_results "trial_a" (9 # 10) ;;;
               run_trial example_full_results "trial_b" (95 # 100))
              (empty_world "/home/u").

Definition accuracy_a_b (l : nat) : Q :=
  match l with 0 => 9 # 10 | _ => 95 # 100 end.

(** A retained trial that stored a figure and no metric. *)
Definition world_without_accuracy : World :=
  world_after (setup_experiment ;;;
               let* t := Trial.__init__ example_full_results (PyStr "T")
                                        example_hyperparameters in
               let* t := Trial.__enter__ t in
               record_figure_only ;;;
               Trial.__exit__ t None)
              (empty_world "/home/u").

(** A trial whose hyperparameters hold a function object. *)
Definition world_with_function : World :=
  world_after (setup_experiment ;;;
               let* t := Trial.__init__ Experiment.get_results (PyStr "T")
                           (PyDict [("lr", PyNum 1); ("schedule", PyObj 3)]) in
               Trial.__enter__ t)
              (empty_world "/home/u").

Definition trial_with_function : TrialObj :=
  mkTrial 0 false Experiment.get_results.

(** ["T"] opened for the first time and not yet closed; the caller has
    recorded an accuracy. *)
Definition world_with_open_T : World :=
  world_after (setup_experiment ;;;
               let* t := Trial.__init__ example_full_results (PyStr "T")
                                        example_hyperparameters in
               let* t := Trial.__enter__ t in
               tick ;;;
               record_accuracy (8 # 10))
              (empty_world "/home/u").

Definition open_T : TrialObj := mkTrial 0 false example_full_results.

(** The record of the trial holds a metric that [json] cannot encode. *)
Definition world_with_object_metric : World :=
  set_heap (fun h =>
    <[0 := dict_set "evaluation_metrics" (PyDict [("confusion", PyObj 5)])
                    (deref world_with_function 0)]> h)
    world_with_function.

(** A retained trial without hyperparameters. *)
Definition world_with_bare_trial : World :=
  world_after (setup_experiment ;;;
               let* t := Trial.__init__ example_full_results (PyStr "T")
                                        (PyDict []) in
               let* t := Trial.__enter__ t in
               record_accuracy (8 # 10) ;;;
               Trial.__exit__ t None)
              (empty_world "/home/u").

(** A definitions file with an explicit list of two trials. *)
Definition example_trials_list : list PyVal :=
  [PyDict [("name", PyStr "small");
           ("hyperparameters", PyDict [("lr", PyNum 1)])];
   PyDict [("hyperparameters", PyDict [("lr", PyNum 2)]);
           ("name", PyStr "large")]].

Definition example_experiment_definitions : Dict :=
  [("name", PyStr "exp 1"); ("description", PyStr "learning rates");
   ("directory", PyStr "runs")].

Definition example_definitions : Dict :=
  [("experiment_definitions", PyDict example_experiment_definitions);
   ("trials_definitions", PyList example_trials_list)].

Definition world_with_definitions : World :=
  set_fs (fun fs =>
    mkFS (fs_dirs fs)
         (<["/home/u/definitions.json" :=
              JsonFile (PyDict example_definitions)]> (fs_files fs)))
    (empty_world "/home/u").

(** A generator configuration with two keys the loader does not know. *)
Definition example_config_with_unknown_keys : Dict :=
  [("seed", PyNum 7); ("num_trials", PyNum 2);
   ("hparams_configs", PyDict [("lr", PyList [PyNum 1; PyNum 2])]);
   ("comment", PyStr "first sweep")].

(** A record with every key the report reads. *)
Definition example_record (name : string) (accuracy : PyVal) : Dict :=
  [("name", PyStr name); ("description", PyStr "a run");
   ("start_time", PyStr "t0"); ("duration", PyNum 1);
   ("directory", PyStr ("/home/u/runs/exp_1/" +:+ name));
   ("hyperparameters", PyDict [("lr", PyNum 1)]);
   ("figures", PyDict []);
   ("evaluation_metrics", PyDict [("accuracy", accuracy)]);
   ("training_history", PyDict [])].

(** Experiment "exp 1", entered; the caller has put three records into the
    collection: accuracy 0.5, then a run that diverged (its accuracy is
    NaN), then accuracy 0.9. *)
Definition world_with_nan_accuracy : World :=
  world_after
    (setup_experiment ;;;
     modify (set_heap (fun h =>
       <[0 := example_record "a" (PyNum (5 # 10))]>
         (<[1 := example_record "b" PyNaN]>
            (<[2 := example_record "c" (PyNum (9 # 10))]> h)))) ;;;
     modify (set_exp (set_trials (fun _ => [0; 1; 2]))))
    (empty_world "/home/u").

(** The caller holds that configuration as the object at 0. *)
Definition world_with_config : World :=
  set_heap (fun h => <[0 := example_config_with_unknown_keys]> h)
           (empty_world "/").
End WorkedExamples.

(** A class whose constructor has three required parameters, such as
    [json.JSONDecodeError(msg, doc, pos)] or TensorFlow's
    [InvalidArgumentError(node_def, op, message)]. *)
Definition three_parameter_class : ExcClass :=
  mkExcClass "InvalidArgumentError"
    (fun _ => Err (TypeError "__init__() missing 2 required positional arguments")).

(** A class that can be instantiated from one argument, such as
    [ValueError]: the new instance has the old one as its argument. *)
Definition ValueError_class : ExcClass :=
  mkExcClass "ValueError" (fun e => Ret (OtherError "ValueError" [PyObj 0])).

(** ** The trials a generator configuration describes *)
Section ExpectedDescriptors.
Context `{SuggesterImpl}.

Fixpoint expected_descriptors (prefix : string) (first : Z) (n : nat)
    (s : Suggester) : list PyVal :=
  match n with
  | 0 => []
  | S n' =>
      let '(hparams, s') := suggest_next s in
      PyDict [("name", PyStr (prefix +:+ pretty first));
              ("hyperparameters", hparams)]
      :: expected_descriptors prefix (first + 1) n' s'
  end.

End ExpectedDescriptors.

Local Open Scope list_scope.

(** * Properties *)

(** ** Paths *)

Example normpath_ex1 : posixpath.normpath "/a//b/./c/../d/" = "/a/b/d".
Proof. reflexivity. Qed.
Example abspath_ex1 : posixpath.abspath "/home/u" "runs/../out" = "/home/u/out".
Proof. reflexivity. Qed.
Example dirname_ex1 : posixpath.dirname "/a/b/report.md" = "/a/b".
Proof. reflexivity. Qed.
Example relpath_ex1 :
  posixpath.relpath "/" "/a/b/t1" "/a/b" = Ret "t1".
Proof. reflexivity. Qed.
Example relpath_ex2 :
  posixpath.relpath "/" "/a/b" "/a/b" = Ret ".".
Proof. reflexivity. Qed.

(** ** Dictionaries *)

Lemma assoc_get_set_eq {V} k (v : V) d : assoc_get k (assoc_set k v d) = Some v.
Proof.
  induction d as [|[k' v'] d IH]; simpl.
  - by rewrite String.eqb_refl.
  - destruct (String.eqb k k') eqn:E; simpl; rewrite E; done.
Qed.

Lemma assoc_get_set_ne {V} k k' (v : V) d :
  k ≠ k' → assoc_get k (assoc_set k' v d) = assoc_get k d.
Proof.
  intros Hne. induction d as [|[k2 v2] d IH]; simpl.
  - by apply String.eqb_neq in Hne as ->.
  - destruct (String.eqb k' k2) eqn:E; simpl.
    + apply String.eqb_eq in E as <-. by apply String.eqb_neq in Hne as ->.
    + by rewrite IH.
Qed.

Lemma assoc_get_del_ne {V} k k' (d : list (string * V)) :
  k ≠ k' → assoc_get k (assoc_del k' d) = assoc_get k d.
Proof.
  intros Hne. induction d as [|[k2 v2] d IH]; simpl; [done|].
  destruct (String.eqb k' k2) eqn:E; simpl.
  - apply String.eqb_eq in E as <-. by apply String.eqb_neq in Hne as ->.
  - by rewrite IH.
Qed.

Lemma assoc_get_Some_elem {V} k (v : V) d : assoc_get k d = Some v → (k, v) ∈ d.
Proof.
  induction d as [|[k' v'] d IH]; simpl; [done|].
  destruct (String.eqb k k') eqn:E.
  - apply String.eqb_eq in E as <-. intros [= <-]. left.
  - intros. right. auto.
Qed.

Lemma assoc_get_is_Some {V} k (d : list (string * V)) :
  k ∈ d.*1 → is_Some (assoc_get k d).
Proof.
  induction d as [|[k' v'] d IH]; simpl.
  - by intros ?%elem_of_nil.
  - destruct (String.eqb k k') eqn:E; [eauto|].
    intros [->|?]%elem_of_cons; [|auto].
    by rewrite String.eqb_refl in E.
Qed.

Lemma assoc_set_keys {V} k (v : V) d :
  k ∈ d.*1 → (assoc_set k v d).*1 = d.*1.
Proof.
  induction d as [|[k' v'] d IH]; simpl.
  - by intros ?%elem_of_nil.
  - destruct (String.eqb k k') eqn:E; simpl; [done|].
    intros [->|?]%elem_of_cons; [by rewrite String.eqb_refl in E|].
    f_equal. by apply IH.
Qed.

Lemma dict_get_set_eq k v d : dict_get k (dict_set k v d) = Some v.
Proof. apply assoc_get_set_eq. Qed.

Lemma dict_get_set_ne k k' v d :
  k ≠ k' → dict_get k (dict_set k' v d) = dict_get k d.
Proof. apply assoc_get_set_ne. Qed.

Lemma dict_keys_set k v d : k ∈ dict_keys d → dict_keys (dict_set k v d) = dict_keys d.
Proof. apply assoc_set_keys. Qed.

Lemma dict_get_of_keys k d : k ∈ dict_keys d → ∃ v, dict_get k d = Some v.
Proof. intros Hk. by apply assoc_get_is_Some in Hk as [v ?]; exists v. Qed.

Lemma dict_has_keys k d : dict_has k d = true ↔ k ∈ dict_keys d.
Proof.
  unfold dict_has, dict_get, dict_keys. split.
  - destruct (assoc_get k d) eqn:E; [|done]. intros _.
    apply assoc_get_Some_elem in E. apply list_elem_of_fmap. by exists (k, p).
  - intros [v Hv]%assoc_get_is_Some. by rewrite Hv.
Qed.

(** A dictionary with an entry that [json] cannot encode cannot be encoded. *)
Lemma json_serializable_entry k v d :
  (k, v) ∈ d → json_serializable v = false → json_serializable (PyDict d) = false.
Proof.
  intros Hin Hv. cbn. induction d as [|[k' v'] d IH]; [by apply elem_of_nil in Hin|].
  apply elem_of_cons in Hin as [[= <- <-]|Hin].
  - by rewrite Hv.
  - rewrite (IH Hin). apply andb_false_r.
Qed.

(** ** The heap *)

Lemma deref_insert_eq w l d :
  deref (set_heap (fun h => <[l := d]> h) w) l = d.
Proof. unfold deref. simpl. by rewrite lookup_insert_eq. Qed.

Lemma deref_insert_ne w l l' d :
  l ≠ l' → deref (set_heap (fun h => <[l := d]> h) w) l' = deref w l'.
Proof. intros. unfold deref. simpl. by rewrite lookup_insert_ne. Qed.

(** ** Closing a trial *)

Section TrialClose.
Context `{Collaborators}.

Lemma trial_keys_get d k :
  dict_keys d = trial_keys → k ∈ trial_keys → ∃ v, dict_get k d = Some v.
Proof. intros Hd Hk. apply dict_get_of_keys. by rewrite Hd. Qed.

(** C2.  A trial whose constructor found its name among the retained trials
    and that is closed cleanly while every value of the result snapshot is an
    empty mapping: the close returns, warns once, writes no file (the file
    system is the same, so the old [trial_info.json] is unchanged), appends
    nothing and leaves every retained record as it was.  The trial's own
    dictionary is assumed not to be in the collection, which holds for an
    object that was never closed with results before. *)
Theorem Trial_exit_skips_empty_rerun (self : TrialObj) (w : World) :
  dict_keys (deref w (trial_data self)) = trial_keys →
  _already_runned self = true →
  all_empty (fetch_trial_results self (w_exp w)) = true →
  trial_data self ∉ trials (w_exp w) →
  ∃ w' name,
    dict_get "name" (deref w (trial_data self)) = Some name ∧
    Trial.__exit__ self None w = (Ret (), w') ∧
    w_fs w' = w_fs w ∧
    w_exp w' = w_exp w ∧
    (∀ l, l ∈ trials (w_exp w) → deref w' l = deref w l) ∧
    w_warnings w' =
      w_warnings w ++ ["Skipping '" +:+ fmt name +:+ "'. Already run, no new"
                       +:+ nl +:+ "results. Keeping old results."].
Proof.
  intros Hkeys Hrun Hempty Hfresh.
  destruct (trial_keys_get _ "start_time" Hkeys) as [st Hst]; [set_solver|].
  destruct (trial_keys_get _ "name" Hkeys) as [name Hname]; [set_solver|].
  eexists _, name. split; [done|]. split.
  - unfold Trial.__exit__, bind, get_world, getitem, setitem, modify. simpl.
    rewrite Hst. simpl. rewrite deref_insert_eq.
    rewrite dict_get_set_ne by done. rewrite Hname. simpl.
    rewrite Hempty, Hrun. simpl. reflexivity.
  - simpl. repeat split; try done.
    intros l Hl. unfold deref. simpl.
    rewrite lookup_insert_ne; [done|]. intros Heq. apply Hfresh. by rewrite Heq.
Qed.
End TrialClose.

(** ** Writing [trial_info.json] *)

Section TrialWrite.
Context `{Collaborators}.
#[local] Arguments json_serializable : simpl never.

(** When every entry can be encoded, the file holds [trial_data] as it is:
    no key is removed before the dump. *)
Lemma Trial_write_serializable (self : TrialObj) (w : World) dir :
  dict_get "directory" (deref w (trial_data self)) = Some (PyStr dir) →
  json_serializable (PyDict (deref w (trial_data self))) = true →
  Trial._write_trial_data self w =
    (Ret (),
     set_fs (fun fs =>
       mkFS (fs_dirs fs)
            (<[posixpath.join dir "trial_info.json" :=
                 JsonFile (PyDict (deref w (trial_data self)))]> (fs_files fs))) w).
Proof.
  intros Hdir Hser.
  unfold Trial._write_trial_data, bind, get_world, getitem. simpl.
  rewrite Hdir. simpl.
  unfold try_except_TypeError, json_dump_to. rewrite Hser. reflexivity.
Qed.

(** C7.  When the hyperparameters of a trial cannot be encoded and every
    other entry of [trial_data] can, [_write_trial_data] catches the
    [TypeError], warns, and writes [trial_info.json] with [None] for the
    hyperparameters and every other entry as it is in [trial_data]; the
    dictionary in memory keeps its hyperparameters. *)
Theorem Trial_write_unserializable_hyperparameters
    (self : TrialObj) (w : World) dir name hp :
  let d := deref w (trial_data self) in
  let written := dict_set "hyperparameters" PyNone d in
  dict_get "directory" d = Some (PyStr dir) →
  dict_get "name" d = Some name →
  dict_get "hyperparameters" d = Some hp →
  json_serializable hp = false →
  json_serializable (PyDict written) = true →
  ∃ w' msg,
    Trial._write_trial_data self w = (Ret (), w') ∧
    fs_files (w_fs w') =
      <[posixpath.join dir "trial_info.json" := JsonFile (PyDict written)]>
        (fs_files (w_fs w)) ∧
    dict_get "hyperparameters" written = Some PyNone ∧
    (∀ k, k ≠ "hyperparameters" → dict_get k written = dict_get k d) ∧
    dict_keys written = dict_keys d ∧
    w_warnings w' = w_warnings w ++ [msg] ∧
    w_heap w' = w_heap w ∧
    w_exp w' = w_exp w.
Proof.
  intros d written Hdir Hname Hhp Hbad Hrest.
  assert (json_serializable (PyDict d) = false) as Hd.
  { eapply json_serializable_entry; [|exact Hbad].
    by apply assoc_get_Some_elem. }
  eexists _, _. split.
  - unfold Trial._write_trial_data, bind, get_world, getitem. simpl.
    fold d. rewrite Hdir. simpl.
    unfold try_except_TypeError, json_dump_to. rewrite Hd. simpl.
    unfold bind, getitem. rewrite Hname. simpl.
    fold written. rewrite Hrest. simpl. reflexivity.
  - simpl. split_and!; try done.
    + by rewrite insert_insert_eq.
    + apply dict_get_set_eq.
    + intros k Hk. by apply dict_get_set_ne.
    + apply dict_keys_set. apply dict_has_keys. unfold dict_has. by rewrite Hhp.
Qed.
End TrialWrite.

(** ** Closing a trial that produced results *)

Section TrialCloseWithResults.
Context `{Collaborators}.
#[local] Arguments dict_set : simpl never.
#[local] Arguments dict_get : simpl never.
#[local] Arguments json_serializable : simpl never.
#[local] Arguments makedirs : simpl never.
#[local] Arguments trial_names : simpl never.

(** With the snapshot of [Experiment.get_results], a clean close on results
    that are not empty never returns: at the latest, reading
    ["training_history"] raises. *)
Lemma Trial_exit_with_results_raises (self : TrialObj) (w : World) :
  fetch_trial_results self = Experiment.get_results →
  all_empty (Experiment.get_results (w_exp w)) = false →
  ∃ e, (Trial.__exit__ self None w).1 = Err e.
Proof.
  intros Hfetch Hne.
  unfold Trial.__exit__, bind, get_world, getitem, setitem, modify,
    logger_info, warn, logger_warning, ret, raise.
  cbn beta iota.
  destruct (dict_get "start_time" _); [|eauto]. cbn.
  destruct (dict_get "name" _); [|eauto]. cbn.
  rewrite Hfetch. cbn [w_exp set_heap]. rewrite Hne. cbn.
  change (dict_get "figures" (Experiment.get_results (w_exp w)))
    with (Some (_figures (w_exp w))).
  change (dict_get "evaluation_metrics" (Experiment.get_results (w_exp w)))
    with (Some (_evaluation_metrics (w_exp w))).
  change (dict_get "training_history" (Experiment.get_results (w_exp w)))
    with (@None PyVal).
  destruct (_already_runned self).
  - unfold Trial._remove_trial, bind.
    match goal with |- context [trial_names ?w0] =>
      destruct (trial_names w0) as [[names|e] w1] end; [|cbn; eauto].
    destruct (negb (py_in _ names)); cbn; [eauto|].
    destruct (dict_get "directory" _); cbn; [|eauto].
    destruct (Trial.call_transform_figures _ _ _) as [[files|e] w2]; cbn; eauto.
  - cbn.
    destruct (dict_get "directory" _); cbn; [|eauto].
    destruct (Trial.call_transform_figures _ _ _) as [[files|e] w2]; cbn; eauto.
Qed.

Lemma mapM_getitem_run (d : nat → Dict) k ts w0 :
  mapM (fun l => getitem (d l) k) ts w0
  = (res_mapM (fun l => res_getitem (d l) k) ts, w0).
Proof.
  induction ts as [|l ts IH]; [done|].
  cbn [mapM res_mapM]. unfold bind at 1, getitem at 1, res_getitem at 1.
  destruct (dict_get k (d l)); [|done]. cbn.
  unfold bind at 1. rewrite IH.
  by destruct (res_mapM _ ts).
Qed.

Lemma trial_names_run w0 :
  trial_names w0
  = (res_mapM (fun l => res_getitem (deref w0 l) "name") (trials (w_exp w0)), w0).
Proof. unfold trial_names, bind, get_world. apply mapM_getitem_run. Qed.

Lemma res_mapM_ext {A B} (f g : A → Res B) l :
  (∀ x, x ∈ l → f x = g x) → res_mapM f l = res_mapM g l.
Proof.
  induction l as [|a l IH]; intros Hfg; [done|].
  cbn. rewrite Hfg by left. rewrite IH; [done|].
  intros x Hx. apply Hfg. by right.
Qed.

(** The number of names equal to [x]. *)
Lemma py_index_delete_count x names :
  py_in x names = true →
  S (length (List.filter (fun n => py_eq n x) (delete (py_index x names) names)))
  = length (List.filter (fun n => py_eq n x) names).
Proof.
  induction names as [|n names IH]; [done|].
  cbn [py_in existsb py_index]. destruct (py_eq n x) eqn:E; cbn.
  - by rewrite E.
  - intros Hin. rewrite E. by apply IH.
Qed.

(** What the close does when the snapshot has the three slots that
    [__exit__] reads, the figures can be saved and the record can be
    encoded: the first retained record of that name is removed, the record
    of this trial is completed, written to [trial_info.json] and appended.
    [names] are the names of the retained trials before the close. *)
Lemma Trial_exit_replaces_rerun (self : TrialObj) (w : World)
    (n dir : string) (start_time figures metrics history files : PyVal)
    (fs' : FS) (names : list PyVal) :
  let l := trial_data self in
  let snapshot := fetch_trial_results self (w_exp w) in
  let record :=
    dict_set "training_history" history
      (dict_set "evaluation_metrics" metrics
         (dict_set "figures" files
            (dict_set "duration" (get_duration start_time (w_clock w))
               (deref w l)))) in
  dict_get "start_time" (deref w l) = Some start_time →
  dict_get "name" (deref w l) = Some (PyStr n) →
  dict_get "directory" (deref w l) = Some (PyStr dir) →
  _already_runned self = true →
  all_empty snapshot = false →
  dict_get "figures" snapshot = Some figures →
  dict_get "evaluation_metrics" snapshot = Some metrics →
  dict_get "training_history" snapshot = Some history →
  l ∉ trials (w_exp w) →
  res_mapM (fun l' => res_getitem (deref w l') "name") (trials (w_exp w))
  = Ret names →
  py_in (PyStr n) names = true →
  transform_figures_to_files figures (PyStr dir) (w_fs w) = (Ret files, fs') →
  json_serializable (PyDict record) = true →
  ∃ w',
    Trial.__exit__ self None w = (Ret (), w') ∧
    trials (w_exp w')
    = delete (py_index (PyStr n) names) (trials (w_exp w)) ++ [l] ∧
    deref w' l = record ∧
    (∀ l', l' ≠ l → deref w' l' = deref w l') ∧
    fs_files (w_fs w')
    = <[posixpath.join dir "trial_info.json" := JsonFile (PyDict record)]>
        (fs_files fs') ∧
    length (List.filter (fun x => py_eq x (PyStr n)) (delete (py_index (PyStr n) names) names ++ [PyStr n]))
    = length (List.filter (fun x => py_eq x (PyStr n)) names).
Proof.
  intros l snapshot record Hst Hname Hdir Hrun Hne Hfig Hmet Hhist Hfresh
    Hnames Hin Htrans Hser.
  eexists. split; [|split_and!].
  - unfold Trial.__exit__, bind, get_world, getitem, setitem, modify,
      logger_info, warn, logger_warning, ret, raise.
    cbn beta iota. fold l. rewrite Hst. cbn.
    rewrite deref_insert_eq. rewrite dict_get_set_ne by done.
    rewrite Hname. cbn. fold snapshot. rewrite Hne, Hrun. cbn.
    unfold Trial._remove_trial, bind. rewrite trial_names_run. cbn.
    erewrite res_mapM_ext; [rewrite Hnames|].
    2:{ intros l' Hl'. unfold deref. cbn.
        rewrite lookup_insert_ne; [done|]. intros <-. done. }
    rewrite Hin. cbn. rewrite Hfig. cbn.
    unfold deref at 1. cbn. rewrite lookup_insert_eq. cbn.
    rewrite dict_get_set_ne by done. rewrite Hdir. cbn.
    unfold Trial.call_transform_figures. cbn. rewrite Htrans. cbn.
    rewrite Hmet. cbn. rewrite Hhist. cbn.
    unfold Trial._write_trial_data, bind, get_world, getitem. cbn.
    unfold deref in *. cbn. rewrite !lookup_insert_eq. cbn.
    rewrite !dict_get_set_ne by done. rewrite Hdir. cbn.
    unfold try_except_TypeError, json_dump_to.
    fold record. rewrite Hser. cbn. reflexivity.
  - cbn. reflexivity.
  - unfold deref. cbn. rewrite lookup_insert_eq. done.
  - intros l' Hl'. unfold deref. cbn. rewrite !lookup_insert_ne by done. done.
  - cbn. reflexivity.
  - rewrite List.filter_app, length_app. cbn. rewrite String.eqb_refl. cbn.
    rewrite <- (py_index_delete_count _ _ Hin). lia.
Qed.

Lemma makedirs_keeps_objects p w :
  w_exp (makedirs p w).2 = w_exp w ∧
  w_heap (makedirs p w).2 = w_heap w ∧
  w_next (makedirs p w).2 = w_next w.
Proof.
  unfold makedirs, bind, get_world. cbn beta iota.
  destruct (filter _ (ancestors p)); [|done].
  by destruct (decide _).
Qed.

(** A trial that the constructor returns has a [trial_data] with the eight
    keys, and this dictionary is new: no retained trial refers to it. *)
Lemma Trial_init_fresh (get_results : ExperimentObj → Dict)
    (name hyperparameters : PyVal) (w w' : World) (t : TrialObj) :
  (∀ l, l ∈ trials (w_exp w) → (l < w_next w)%nat) →
  Trial.__init__ get_results name hyperparameters w = (Ret t, w') →
  dict_keys (deref w' (trial_data t)) = trial_keys ∧
  (trial_data t ∉ trials (w_exp w')) ∧
  w_exp w' = w_exp w.
Proof.
  intros Hwf.
  unfold Trial.__init__, Trial._init_trial_data, bind, get_world, getitem.
  cbn beta iota.
  destruct (dict_get "directory" _) as [d|]; [|done]. cbn.
  unfold lift. destruct (Trial.normalize_name name) as [n|]; [|done].
  unfold Trial._make_trial_directory, bind, path_join.
  destruct d as [| |d| | | |]; try done. cbn.
  destruct (makedirs_keeps_objects
              (posixpath.join d (lower (replace_spaces n))) w)
    as (He & Hh & Hn).
  destruct (makedirs _ w) as [[[]|e] w1]; cbn in He, Hh, Hn |- *; [|done].
  unfold modify, ret. cbn.
  unfold Trial._check_if_already_runned, bind, get_world, getitem. cbn.
  unfold deref at 1. cbn. rewrite lookup_insert_eq. cbn.
  match goal with
  | |- context [dict_get "name" ?d] =>
      change (dict_get "name" d) with (Some name)
  end.
  unfold ret. cbn. rewrite trial_names_run. cbn.
  destruct (res_mapM _ _); [|done]. cbn.
  intros [= <- <-]. cbn. unfold deref. cbn. rewrite lookup_insert_eq.
  split_and!; [done| |done].
  rewrite He, Hn. intros Hin. apply Hwf in Hin. lia.
Qed.
End TrialCloseWithResults.

(** ** Sorting by a numeric key *)

Section SortByNumberFacts.
Context {A : Type} (f : A → Q).

Lemma insert_key_decorate x l :
  insert_key (PyNum (f x), x) (decorate f l) = Ret (decorate f (insert_by f x l)).
Proof.
  induction l as [|y l IH]; [done|].
  cbn [decorate map insert_key insert_by py_lt res_bind fst snd].
  destruct (negb (Qle_bool (f x) (f y))); [|done].
  fold (decorate f l). by rewrite IH.
Qed.

Lemma sort_keys_decorate l :
  sort_keys (decorate f l) = Ret (decorate f (sort_by f l)).
Proof.
  induction l as [|x l IH]; [done|].
  cbn [decorate map sort_keys sort_by]. fold (decorate f l).
  rewrite IH. cbn [res_bind]. apply insert_key_decorate.
Qed.

Lemma list_sort_reverse_decorate l :
  list_sort true (decorate f l) = Ret (decorate f (sort_by_descending f l)).
Proof.
  unfold list_sort, sort_by_descending, decorate.
  rewrite <- map_rev. fold (decorate f (rev l)).
  rewrite sort_keys_decorate. cbn [res_bind]. unfold decorate.
  by rewrite map_rev.
Qed.

Lemma decorate_items l : (decorate f l).*2 = l.
Proof.
  induction l as [|x l IH]; [done|]. cbn. f_equal. apply IH.
Qed.

Lemma insert_by_perm x l : insert_by f x l ≡ₚ x :: l.
Proof.
  induction l as [|y l IH]; [done|]. simpl.
  destruct (negb _); [|done]. rewrite IH. apply Permutation_swap.
Qed.

Lemma sort_by_perm l : sort_by f l ≡ₚ l.
Proof.
  induction l as [|x l IH]; [done|]. simpl.
  rewrite insert_by_perm. by rewrite IH.
Qed.

Lemma sort_by_descending_perm l : sort_by_descending f l ≡ₚ l.
Proof.
  unfold sort_by_descending.
  rewrite <- Permutation_rev, sort_by_perm. symmetry. apply Permutation_rev.
Qed.

Lemma insert_by_sorted x l :
  StronglySorted (fun a b => (f a <= f b)%Q) l →
  StronglySorted (fun a b => (f a <= f b)%Q) (insert_by f x l).
Proof.
  induction 1 as [|y l Hl IH Hy]; simpl.
  - repeat constructor.
  - destruct (Qle_bool (f x) (f y)) eqn:E; simpl.
    + apply Qle_bool_iff in E. constructor; [by constructor|].
      constructor; [done|].
      eapply Forall_impl; [exact Hy|]. intros z Hz. simpl in Hz.
      by eapply Qle_trans.
    + assert (f y <= f x)%Q as Hyx.
      { apply Qlt_le_weak, Qnot_le_lt. intros Hle.
        apply Qle_bool_iff in Hle. congruence. }
      constructor; [done|].
      rewrite insert_by_perm. by constructor.
Qed.

Lemma sort_by_sorted l :
  StronglySorted (fun a b => (f a <= f b)%Q) (sort_by f l).
Proof.
  induction l; simpl; [constructor|by apply insert_by_sorted].
Qed.

Lemma StronglySorted_rev_flip (R : A → A → Prop) l :
  StronglySorted R l → StronglySorted (fun a b => R b a) (rev l).
Proof.
  induction 1 as [|x l Hl IH Hx]; [constructor|]. simpl.
  apply StronglySorted_app_2; [|done|repeat constructor].
  intros a b Ha ->%list_elem_of_singleton.
  rewrite Forall_forall in Hx. apply Hx.
  apply list_elem_of_In. apply in_rev. by apply list_elem_of_In.
Qed.

(** The result is in descending order of the key. *)
Lemma sort_by_descending_sorted l :
  StronglySorted (fun a b => (f b <= f a)%Q) (sort_by_descending f l).
Proof. apply StronglySorted_rev_flip, sort_by_sorted. Qed.

Lemma insert_by_filter q x l :
  List.filter (fun y => Qeq_bool (f y) q) (insert_by f x l) =
  List.filter (fun y => Qeq_bool (f y) q) (x :: l).
Proof.
  induction l as [|y l IH]; [done|].
  cbn [insert_by]. destruct (Qle_bool (f x) (f y)) eqn:E; [done|].
  cbn [negb List.filter]. rewrite IH. cbn [List.filter].
  destruct (Qeq_bool (f x) q) eqn:Ex; [|done].
  destruct (Qeq_bool (f y) q) eqn:Ey; [|done].
  apply Qeq_bool_iff in Ex, Ey.
  assert (Qle_bool (f x) (f y) = true); [|congruence].
  apply Qle_bool_iff. rewrite Ex, Ey. apply Qle_refl.
Qed.

Lemma sort_by_filter q l :
  List.filter (fun y => Qeq_bool (f y) q) (sort_by f l) =
  List.filter (fun y => Qeq_bool (f y) q) l.
Proof.
  induction l as [|x l IH]; [done|]. cbn [sort_by].
  rewrite insert_by_filter. cbn [List.filter]. by rewrite IH.
Qed.

(** The sort is stable: the elements of a given score keep their order. *)
Lemma sort_by_descending_stable q l :
  List.filter (fun y => Qeq_bool (f y) q) (sort_by_descending f l) =
  List.filter (fun y => Qeq_bool (f y) q) l.
Proof.
  unfold sort_by_descending.
  by rewrite filter_rev, sort_by_filter, filter_rev, rev_involutive.
Qed.
End SortByNumberFacts.

(** A list that is one run is left as it is, whatever its keys are. *)
Lemma sort_keys_one_run {A} (l : list (PyVal * A)) :
  one_run l = true → sort_keys l = Ret l.
Proof.
  induction l as [|x l IH]; [done|]. cbn [one_run sort_keys].
  destruct l as [|y l']; [done|].
  destruct (py_lt y.1 x.1) as [[]|] eqn:E; try done.
  intros Hrun. rewrite (IH Hrun). cbn [res_bind insert_key]. by rewrite E.
Qed.

Lemma list_sort_one_run {A} (l : list (PyVal * A)) :
  one_run (rev l) = true → list_sort true l = Ret l.
Proof.
  intros Hrun. unfold list_sort. rewrite (sort_keys_one_run _ Hrun).
  cbn [res_bind]. by rewrite rev_involutive.
Qed.

(** ** Closing an experiment *)

Section ExperimentClose.
Context `{Collaborators}.
#[local] Arguments json_serializable : simpl never.
#[local] Arguments dict_set : simpl never.
#[local] Arguments dict_get : simpl never.
#[local] Arguments posixpath.relpath : simpl never.
#[local] Arguments posixpath.dirname : simpl never.
#[local] Arguments posixpath.join : simpl never.

Lemma keeps_objects_ret {A} (a : A) : keeps_objects (ret a).
Proof. done. Qed.

Lemma keeps_objects_raise {A} e : keeps_objects (@raise A e).
Proof. done. Qed.

Lemma keeps_objects_lift {A} (r : Res A) : keeps_objects (lift r).
Proof. done. Qed.

Lemma keeps_objects_bind {A B} (m : M A) (k : A → M B) :
  keeps_objects m → (∀ a, keeps_objects (k a)) → keeps_objects (bind m k).
Proof.
  intros Hm Hk w. unfold bind. specialize (Hm w).
  destruct (m w) as [[a|e] w1]; simpl in *; [|done].
  destruct (Hk a w1) as [-> ->]. done.
Qed.

Lemma keeps_objects_get_world : keeps_objects get_world.
Proof. done. Qed.

Lemma keeps_objects_getitem d k : keeps_objects (getitem d k).
Proof. unfold getitem. by destruct (dict_get k d). Qed.

Lemma keeps_objects_path_join a b : keeps_objects (path_join a b).
Proof. by destruct a. Qed.

Lemma keeps_objects_write_file p f : keeps_objects (write_file p f).
Proof. done. Qed.

Lemma keeps_objects_json_dump_to p obj : keeps_objects (json_dump_to p obj).
Proof. unfold json_dump_to. by destruct (json_serializable obj). Qed.

Lemma keeps_objects_report kw : keeps_objects (create_experiment_report kw).
Proof.
  unfold create_experiment_report. destruct kw; [|apply keeps_objects_raise].
  repeat first
    [ apply keeps_objects_bind; [|intros ?]
    | apply keeps_objects_get_world
    | apply keeps_objects_getitem
    | apply keeps_objects_path_join
    | apply keeps_objects_lift
    | apply keeps_objects_write_file ].
Qed.

Lemma keeps_objects_write_experiment_data :
  keeps_objects Experiment._write_experiment_data.
Proof.
  unfold Experiment._write_experiment_data.
  repeat first
    [ apply keeps_objects_bind; [|intros ?]
    | apply keeps_objects_get_world
    | apply keeps_objects_getitem
    | apply keeps_objects_path_join
    | apply keeps_objects_json_dump_to ].
Qed.

(** The keys of the retained trials, when each of them is a number. *)
Lemma accuracy_keys_numbers heap_of (acc : nat → Q) ts :
  (∀ l, l ∈ ts → Experiment.accuracy_key (heap_of l) = Ret (PyNum (acc l))) →
  res_mapM (fun l => Experiment.accuracy_key (heap_of l)) ts
  = Ret ((fun l => PyNum (acc l)) <$> ts).
Proof.
  induction ts as [|l ts IH]; intros Hts; [done|].
  cbn [res_mapM]. rewrite Hts by left. cbn [res_bind].
  rewrite IH; [done|]. intros l' Hl'. apply Hts. by right.
Qed.

Lemma zip_decorate (acc : nat → Q) ts :
  zip ((fun l => PyNum (acc l)) <$> ts) ts = decorate acc ts.
Proof. induction ts as [|l ts IH]; [done|]. cbn. by f_equal. Qed.

(** [_sort_trials] on numeric scores. *)
Lemma sort_trials_numbers (acc : nat → Q) w :
  (∀ l, l ∈ trials (w_exp w) →
        Experiment.accuracy_key (deref w l) = Ret (PyNum (acc l))) →
  Experiment._sort_trials w =
    (Ret (), set_exp (set_trials (fun _ =>
                        sort_by_descending acc (trials (w_exp w)))) w).
Proof.
  intros Hacc. unfold Experiment._sort_trials, bind, get_world.
  cbn beta iota.
  destruct (trials (w_exp w)) as [|l ts] eqn:Ets.
  - unfold ret. destruct w as [? ? ? ? ? [? ? ? ? ?] ? ?].
    simpl in *. subst. reflexivity.
  - unfold lift.
    rewrite (accuracy_keys_numbers (deref w) acc) by done.
    rewrite zip_decorate, list_sort_reverse_decorate.
    unfold modify. by rewrite decorate_items.
Qed.

Lemma experiment_writable_inv w :
  experiment_writable w = true →
  ∃ st d,
    dict_get "start_time" (experiment_data (w_exp w)) = Some st ∧
    dict_get "directory" (experiment_data (w_exp w)) = Some (PyStr d) ∧
    json_serializable
      (PyDict (dict_set "duration" (get_duration st (w_clock w))
                        (experiment_data (w_exp w)))) = true.
Proof.
  unfold experiment_writable.
  destruct (dict_get "start_time" _) as [st|]; [|done].
  destruct (dict_get "directory" _) as [[]|]; try done. eauto.
Qed.

(** The world in which the sort of a clean close starts: the duration is
    set and [experiment_info.json] is written. *)
Lemma exit_clean_prefix w st d :
  dict_get "start_time" (experiment_data (w_exp w)) = Some st →
  dict_get "directory" (experiment_data (w_exp w)) = Some (PyStr d) →
  json_serializable
    (PyDict (dict_set "duration" (get_duration st (w_clock w))
                      (experiment_data (w_exp w)))) = true →
  let data := dict_set "duration" (get_duration st (w_clock w))
                       (experiment_data (w_exp w)) in
  let w2 := set_fs (fun fs =>
              mkFS (fs_dirs fs)
                   (<[posixpath.join d "experiment_info.json" :=
                        JsonFile (PyDict data)]> (fs_files fs)))
              (set_exp (set_experiment_data (fun _ => data)) w) in
  Experiment.__exit__ None w =
    bind Experiment._sort_trials
         (fun _ => bind get_world (fun w =>
                     create_experiment_report (report_kwargs (w_exp w)))) w2.
Proof.
  intros Hst Hd Hser data w2.
  unfold Experiment.__exit__ at 1.
  unfold bind at 1. unfold get_world at 1. cbn beta iota.
  unfold bind at 1. unfold getitem at 1. rewrite Hst. unfold ret at 1.
  cbn beta iota.
  unfold bind at 1. unfold modify at 1. cbn beta iota.
  unfold bind at 1.
  unfold Experiment._write_experiment_data, bind, get_world, getitem. simpl.
  rewrite dict_get_set_ne by done. rewrite Hd. simpl.
  unfold json_dump_to. rewrite Hser. reflexivity.
Qed.

Lemma res_mapM_Ret_inv {A B} (f : A → Res B) l bs :
  res_mapM f l = Ret bs → ∀ x, x ∈ l → ∃ b, f x = Ret b.
Proof.
  revert bs. induction l as [|a l IH]; intros bs Hbs x Hx.
  - by apply elem_of_nil in Hx.
  - cbn [res_mapM] in Hbs. destruct (f a) as [b|] eqn:Ea; [|done].
    cbn [res_bind] in Hbs.
    destruct (res_mapM f l) as [bs'|] eqn:El; [|done].
    apply elem_of_cons in Hx as [->|Hx]; eauto.
Qed.

Lemma res_mapM_Err {A B} (f : A → Res B) l e :
  (∀ x, x ∈ l → f x = Err e ∨ ∃ b, f x = Ret b) →
  (∃ x, x ∈ l ∧ f x = Err e) →
  res_mapM f l = Err e.
Proof.
  induction l as [|a l IH]; intros Hall [x [Hx Hfx]].
  - by apply elem_of_nil in Hx.
  - cbn [res_mapM]. destruct (Hall a) as [Ha|[b Hb]]; [left|by rewrite Ha|].
    rewrite Hb. cbn [res_bind]. rewrite IH; [done| |].
    + intros y Hy. apply Hall. by right.
    + apply elem_of_cons in Hx as [->|Hx]; [congruence|eauto].
Qed.

Lemma accuracy_key_Ret_inv d v :
  Experiment.accuracy_key d = Ret v →
  ∃ m, dict_get "evaluation_metrics" d = Some (PyDict m)
       ∧ dict_get "accuracy" m = Some v.
Proof.
  unfold Experiment.accuracy_key, res_getitem.
  destruct (dict_get "evaluation_metrics" d) as [m|]; [|done].
  cbn [res_bind]. destruct m as [| | | |m| |]; try done.
  cbn [py_getitem]. destruct (dict_get "accuracy" m) eqn:E; [|done].
  intros [= ->]. eauto.
Qed.

Lemma relpath_Ret cwd p start :
  p ≠ "" → ∃ r, posixpath.relpath cwd p start = Ret r.
Proof.
  intros Hp. unfold posixpath.relpath.
  apply String.eqb_neq in Hp as ->.
  destruct (posixpath.drop_common _ _) as [s q].
  destruct (replicate (length s) ".." ++ q); eauto.
Qed.

(** The report of an experiment without trials. *)
Lemma report_without_trials w :
  trials (w_exp w) = [] →
  dict_has "name" (experiment_data (w_exp w)) = true →
  dict_has "description" (experiment_data (w_exp w)) = true →
  dict_has "start_time" (experiment_data (w_exp w)) = true →
  (∃ d, dict_get "directory" (experiment_data (w_exp w)) = Some (PyStr d)
        ∧ d ≠ "") →
  (create_experiment_report [] w).1 = Ret ().
Proof.
  intros Hts Hn Hd Hs [d [Hdir Hne]].
  unfold dict_has in *.
  destruct (dict_get "name" _) as [name|] eqn:En; [|done].
  destruct (dict_get "description" _) as [descr|] eqn:Ed; [|done].
  destruct (dict_get "start_time" _) as [st|] eqn:Es; [|done].
  unfold create_experiment_report, bind, get_world, getitem.
  cbn beta iota. rewrite Hdir. cbn. rewrite En. cbn. rewrite Ed. cbn.
  rewrite Es. cbn. unfold lift, MarkdownFileWriter.create_link.
  destruct (relpath_Ret (w_cwd w) d
              (posixpath.dirname (posixpath.join d "experiment_report.md")) Hne)
    as [r ->].
  cbn. rewrite Hts. reflexivity.
Qed.

(** C6, amended.  A clean close of an experiment whose retained trials all
    carry an ["accuracy"] that is a number (not a NaN) leaves the collection
    sorted by descending accuracy; trials of equal accuracy keep their
    relative order; the records themselves are not modified.  This holds
    whether or not the report that follows the sort can be produced. *)
Theorem Experiment_exit_sorts_trials (acc : nat → Q) (w : World) :
  experiment_writable w = true →
  (∀ l, l ∈ trials (w_exp w) →
        Experiment.accuracy_key (deref w l) = Ret (PyNum (acc l))) →
  let w' := (Experiment.__exit__ None w).2 in
  let ts := trials (w_exp w) in
  let ts' := trials (w_exp w') in
  ts' = sort_by_descending acc ts ∧
  ts' ≡ₚ ts ∧
  StronglySorted (fun a b => (acc b <= acc a)%Q) ts' ∧
  (∀ q, List.filter (fun l => Qeq_bool (acc l) q) ts'
        = List.filter (fun l => Qeq_bool (acc l) q) ts) ∧
  w_heap w' = w_heap w.
Proof.
  intros Hw Hacc w' ts ts'.
  destruct (experiment_writable_inv w Hw) as (st & d & Hst & Hd & Hser).
  assert (ts' = sort_by_descending acc ts ∧ w_heap w' = w_heap w) as [Hts Hheap].
  { pose proof (exit_clean_prefix w st d Hst Hd Hser) as Hpre.
    cbv zeta in Hpre. unfold bind at 1 in Hpre.
    rewrite (sort_trials_numbers acc) in Hpre by exact Hacc.
    cbn beta iota in Hpre.
    subst w' ts ts'. rewrite Hpre.
    match goal with
    | |- context [bind get_world ?k ?w3] =>
        destruct (keeps_objects_bind get_world k keeps_objects_get_world
                    (fun w0 => keeps_objects_report _) w3) as [He Hh]
    end.
    rewrite He, Hh. done. }
  rewrite Hts. split_and!; [done| | | |done].
  - apply sort_by_descending_perm.
  - apply sort_by_descending_sorted.
  - intros q. apply sort_by_descending_stable.
Qed.

Lemma StronglySorted_lookup_lt {B} (R : B → B → Prop) (l : list B) i j x y :
  StronglySorted R l → (i < j)%nat → l !! i = Some x → l !! j = Some y → R x y.
Proof.
  intros Hs. revert i j. induction Hs as [|a l Hs IH Ha]; intros i j Hij Hi Hj.
  - by rewrite lookup_nil in Hi.
  - destruct j as [|j]; [lia|]. cbn in Hj. destruct i as [|i].
    + cbn in Hi. injection Hi as <-.
      rewrite Forall_forall in Ha. apply Ha.
      by apply list_elem_of_lookup_2 in Hj.
    + cbn in Hi. apply (IH i j); [lia|done|done].
Qed.

(** What the theorem on numeric accuracies establishes is the order that
    [descending_accuracy] asks for. *)
Lemma sorted_numbers_descending_accuracy (acc : nat → Q) (w : World) :
  (∀ l, l ∈ trials (w_exp w) →
        Experiment.accuracy_key (deref w l) = Ret (PyNum (acc l))) →
  StronglySorted (fun a b => (acc b <= acc a)%Q) (trials (w_exp w)) →
  descending_accuracy w.
Proof.
  intros Hacc Hs i j li lj ai aj Hij Hi Hj Hai Haj.
  rewrite Hacc in Hai by (by apply list_elem_of_lookup_2 in Hi).
  rewrite Hacc in Haj by (by apply list_elem_of_lookup_2 in Hj).
  injection Hai as <-. injection Haj as <-.
  pose proof (StronglySorted_lookup_lt _ _ i j li lj Hs Hij Hi Hj) as Hle.
  cbn [py_lt]. apply Qle_bool_iff in Hle. by rewrite Hle.
Qed.

Lemma accuracy_key_dict d m :
  dict_get "evaluation_metrics" d = Some (PyDict m) →
  Experiment.accuracy_key d =
    match dict_get "accuracy" m with
    | Some v => Ret v
    | None => Err (KeyError "accuracy")
    end.
Proof.
  intros Hm. unfold Experiment.accuracy_key, res_getitem. by rewrite Hm.
Qed.

(** C10.  After [experiment_info.json] is written, a clean close returns
    only if every retained trial has an ["accuracy"] among its evaluation
    metrics; when the metrics of the retained trials are dictionaries and one
    of them lacks the key, the close raises [KeyError] and the collection
    stays as it was; with no retained trial the sort does nothing and the
    close returns. *)
Theorem Experiment_exit_requires_accuracy (w : World) :
  experiment_writable w = true →
  let r := (Experiment.__exit__ None w).1 in
  let w' := (Experiment.__exit__ None w).2 in
  (r = Ret () →
   ∀ l, l ∈ trials (w_exp w) →
     ∃ m v, dict_get "evaluation_metrics" (deref w l) = Some (PyDict m)
            ∧ dict_get "accuracy" m = Some v) ∧
  ((∀ l, l ∈ trials (w_exp w) →
      ∃ m, dict_get "evaluation_metrics" (deref w l) = Some (PyDict m)) →
   (∃ l m, l ∈ trials (w_exp w)
           ∧ dict_get "evaluation_metrics" (deref w l) = Some (PyDict m)
           ∧ dict_get "accuracy" m = None) →
   r = Err (KeyError "accuracy") ∧ trials (w_exp w') = trials (w_exp w)) ∧
  (trials (w_exp w) = [] → experiment_reportable w = true →
   r = Ret () ∧ trials (w_exp w') = []).
Proof.
  intros Hw r w'.
  destruct (experiment_writable_inv w Hw) as (st & d & Hst & Hd & Hser).
  pose proof (exit_clean_prefix w st d Hst Hd Hser) as Hpre.
  cbv zeta in Hpre. unfold bind at 1 in Hpre.
  unfold Experiment._sort_trials in Hpre.
  unfold bind at 1 in Hpre. unfold get_world at 1 in Hpre.
  cbn beta iota in Hpre.
  match type of Hpre with
  | context [trials (w_exp ?w2)] =>
      change (trials (w_exp w2)) with (trials (w_exp w)) in Hpre;
      change (deref w2) with (deref w) in Hpre
  end.
  subst r w'. rewrite Hpre. clear Hpre. split_and!.
  - destruct (trials (w_exp w)) as [|l0 ts]; [by intros _ l ?%elem_of_nil|].
    unfold bind at 1. unfold lift at 1.
    destruct (res_mapM _ (l0 :: ts)) as [keys|e] eqn:Ek; [|done].
    intros _ l Hl.
    destruct (res_mapM_Ret_inv _ _ _ Ek l Hl) as [v Hv].
    destruct (accuracy_key_Ret_inv _ _ Hv) as (m & ? & ?). eauto.
  - intros Hall (l & m & Hl & Hm & Hnone).
    destruct (trials (w_exp w)) as [|l0 ts] eqn:Ets;
      [by apply elem_of_nil in Hl|].
    unfold bind at 1. unfold lift at 1.
    rewrite (res_mapM_Err _ _ (KeyError "accuracy")).
    + cbn. by rewrite Ets.
    + intros x Hx. destruct (Hall x Hx) as [mx Hmx].
      rewrite (accuracy_key_dict _ _ Hmx).
      destruct (dict_get "accuracy" mx); eauto.
    + exists l. split; [done|].
      by rewrite (accuracy_key_dict _ _ Hm), Hnone.
  - intros Hts Hrep. rewrite Hts. unfold bind, ret, get_world.
    cbn beta iota.
    unfold experiment_reportable in Hrep.
    destruct (report_kwargs (w_exp w)) eqn:Ekw;
      [|by rewrite andb_false_r in Hrep].
    rewrite Hd in Hrep.
    apply andb_prop in Hrep as [Hrep _].
    apply andb_prop in Hrep as [Hrep Hne].
    apply andb_prop in Hrep as [Hrep Hdescr].
    apply andb_prop in Hrep as [_ Hname].
    match goal with
    | |- context [create_experiment_report ?kw ?w3] =>
        change kw with (report_kwargs (w_exp w))
    end.
    rewrite Ekw.
    match goal with
    | |- context [create_experiment_report [] ?w3] =>
        pose proof (report_without_trials w3) as Hr;
        pose proof (keeps_objects_report [] w3) as [He _]
    end.
    split.
    + apply Hr; cbn.
      * done.
      * unfold dict_has in *. by rewrite dict_get_set_ne.
      * unfold dict_has in *. by rewrite dict_get_set_ne.
      * unfold dict_has in *. rewrite dict_get_set_ne by done. by rewrite Hst.
      * exists d. rewrite dict_get_set_ne by done. split; [done|].
        intros ->. done.
    + rewrite He. cbn. done.
Qed.
End ExperimentClose.

(** ** An experiment scope that ends with an exception *)

Section ExperimentFault.
Context `{Collaborators}.
#[local] Arguments dict_set : simpl never.
#[local] Arguments dict_get : simpl never.

(** Whatever the exception, the close raises, and it neither writes a file
    nor touches the collection of trials. *)
Lemma Experiment_exit_abnormal_writes_nothing
    (exc_type : ExcClass) (exc_value : PyExc) (w : World) :
  ∃ e,
    (Experiment.__exit__ (Some (exc_type, exc_value)) w).1 = Err e ∧
    w_fs (Experiment.__exit__ (Some (exc_type, exc_value)) w).2 = w_fs w ∧
    trials (w_exp (Experiment.__exit__ (Some (exc_type, exc_value)) w).2)
    = trials (w_exp w) ∧
    w_heap (Experiment.__exit__ (Some (exc_type, exc_value)) w).2 = w_heap w.
Proof.
  unfold Experiment.__exit__, bind, get_world, getitem, modify, lift, raise.
  cbn beta iota.
  destruct (dict_get "start_time" _); cbn; [|eauto].
  destruct (cls_call exc_type exc_value); cbn; eauto.
Qed.

(** When the class of the exception can be called with the exception as its
    only argument, the close raises [ExperimentError] from the new
    instance. *)
Lemma Experiment_exit_wraps (exc_type : ExcClass) (exc_value exc : PyExc)
    (w : World) :
  dict_has "start_time" (experiment_data (w_exp w)) = true →
  cls_call exc_type exc_value = Ret exc →
  (Experiment.__exit__ (Some (exc_type, exc_value)) w).1
  = Err (ExperimentError "An error occurred during the experiment." exc).
Proof.
  intros Hst Hcall. unfold dict_has in Hst.
  unfold Experiment.__exit__, bind, get_world, getitem, modify, lift, raise.
  cbn beta iota.
  destruct (dict_get "start_time" _); [|done]. cbn. by rewrite Hcall.
Qed.

(** When that call raises, its exception is what the close raises. *)
Lemma Experiment_exit_constructor_raises (exc_type : ExcClass)
    (exc_value e : PyExc) (w : World) :
  dict_has "start_time" (experiment_data (w_exp w)) = true →
  cls_call exc_type exc_value = Err e →
  (Experiment.__exit__ (Some (exc_type, exc_value)) w).1 = Err e.
Proof.
  intros Hst Hcall. unfold dict_has in Hst.
  unfold Experiment.__exit__, bind, get_world, getitem, modify, lift, raise.
  cbn beta iota.
  destruct (dict_get "start_time" _); [|done]. cbn. by rewrite Hcall.
Qed.
End ExperimentFault.

(** ** The directory of an experiment *)

Section ExperimentDirectory.
Context `{Collaborators}.

Lemma makedirs_keeps_files p w :
  fs_files (w_fs (makedirs p w).2) = fs_files (w_fs w) ∧
  fs_dirs (w_fs w) ⊆ fs_dirs (w_fs (makedirs p w).2) ∧
  w_cwd (makedirs p w).2 = w_cwd w.
Proof.
  unfold makedirs, bind, get_world. cbn beta iota.
  destruct (filter _ (ancestors p)); [|done].
  destruct (decide _); [done|]. cbn. split_and!; [done| |done]. set_solver.
Qed.

Lemma makedirs_Ret p w :
  (∀ a, a ∈ ancestors p → fs_files (w_fs w) !! a = None) →
  fs_files (w_fs w) !! p = None →
  (makedirs p w).1 = Ret ().
Proof.
  intros Hanc Hp. unfold makedirs, bind, get_world. cbn beta iota.
  destruct (filter _ (ancestors p)) as [|a l] eqn:E.
  - destruct (decide _) as [[x Hx]|]; [congruence|done].
  - assert (a ∈ filter (λ a, is_Some (fs_files (w_fs w) !! a)) (ancestors p))
      as [[x Hx] Ha]%list_elem_of_filter by (rewrite E; left).
    rewrite Hanc in Hx; done.
Qed.

(** The path [_make_experiment_directory] computes. *)
Lemma make_experiment_directory_result directory name w d :
  (Experiment._make_experiment_directory directory name w).1 = Ret d →
  d = posixpath.join
        (posixpath.abspath (w_cwd w) (posixpath.normpath directory))
        (replace_spaces name).
Proof.
  unfold Experiment._make_experiment_directory, bind, get_world.
  cbn beta iota. destruct (makedirs _ w) as [[[]|e] w1]; [|done].
  cbn. by intros [= <-].
Qed.

Lemma abspath_absolute cwd1 cwd2 p :
  posixpath.isabs p = true → posixpath.abspath cwd1 p = posixpath.abspath cwd2 p.
Proof. intros Hp. unfold posixpath.abspath. by rewrite Hp. Qed.
End ExperimentDirectory.

Section ExperimentDirectoryTheorem.
Context `{Collaborators}.

Lemma Experiment_init_run directory name description kw w :
  let d := posixpath.join
             (posixpath.abspath (w_cwd w) (posixpath.normpath directory))
             (replace_spaces name) in
  match (makedirs d w).1 with
  | Ret _ =>
      (Experiment.__init__ directory name description kw w).1 = Ret () ∧
      dict_get "directory"
        (experiment_data
           (w_exp (Experiment.__init__ directory name description kw w).2))
      = Some (PyStr d) ∧
      trials (w_exp (Experiment.__init__ directory name description kw w).2) = []
  | Err e => (Experiment.__init__ directory name description kw w).1 = Err e
  end ∧
  w_fs (Experiment.__init__ directory name description kw w).2
  = w_fs (makedirs d w).2.
Proof.
  intros d. unfold Experiment.__init__, Experiment._make_experiment_directory.
  unfold bind, get_world. cbn beta iota. fold d.
  destruct (makedirs d w) as [[[]|e] w1]; cbn; done.
Qed.

(** [Experiment.trial] passes one argument more than [Trial] accepts. *)
Lemma Experiment_trial_raises (name description hyperparameters : PyVal) w :
  Experiment.trial name description hyperparameters w
  = (Err (TypeError "Trial.__init__() takes 4 positional arguments"), w).
Proof. reflexivity. Qed.

(** C8, amended.  Two constructions with the same base path and the same
    name, made from the same working directory or with an absolute base
    path, resolve to the same directory: the absolute, normalised base path
    joined with the name in which every space is an underscore.  A
    construction never changes or removes a file or a directory, and it
    succeeds whenever no regular file lies on the path of the directory. *)
Theorem Experiment_directory_deterministic
    (w1 w2 : World) (directory name : string)
    (description1 description2 : PyVal) (kw1 kw2 : option Dict) :
  w_cwd w1 = w_cwd w2 ∨ posixpath.isabs (posixpath.normpath directory) = true →
  let run1 := Experiment.__init__ directory name description1 kw1 w1 in
  let run2 := Experiment.__init__ directory name description2 kw2 w2 in
  let d := posixpath.join
             (posixpath.abspath (w_cwd w1) (posixpath.normpath directory))
             (replace_spaces name) in
  (run1.1 = Ret () → run2.1 = Ret () →
   dict_get "directory" (experiment_data (w_exp run1.2)) = Some (PyStr d) ∧
   dict_get "directory" (experiment_data (w_exp run2.2)) = Some (PyStr d)) ∧
  fs_files (w_fs run1.2) = fs_files (w_fs w1) ∧
  fs_dirs (w_fs w1) ⊆ fs_dirs (w_fs run1.2) ∧
  ((∀ a, a ∈ ancestors d → fs_files (w_fs w1) !! a = None) →
   fs_files (w_fs w1) !! d = None →
   run1.1 = Ret ()).
Proof.
  intros Hcwd run1 run2 d.
  assert (posixpath.join
            (posixpath.abspath (w_cwd w2) (posixpath.normpath directory))
            (replace_spaces name) = d) as Hd2.
  { subst d. destruct Hcwd as [->|Habs]; [done|].
    by rewrite (abspath_absolute (w_cwd w2) (w_cwd w1)). }
  pose proof (Experiment_init_run directory name description1 kw1 w1) as [R1 F1].
  pose proof (Experiment_init_run directory name description2 kw2 w2) as [R2 F2].
  cbv zeta in *. rewrite Hd2 in R2. fold d in R1, F1. fold run1 in R1, F1.
  fold run2 in R2.
  destruct (makedirs_keeps_files d w1) as (Hfiles & Hdirs & _).
  split_and!.
  - intros E1 E2.
    destruct (makedirs d w1).1; [|congruence].
    destruct (makedirs d w2).1; [|congruence].
    destruct R1 as (_ & -> & _), R2 as (_ & -> & _). done.
  - by rewrite F1.
  - by rewrite F1.
  - intros Hanc Hd. rewrite (makedirs_Ret d w1 Hanc Hd) in R1. by destruct R1.
Qed.
End ExperimentDirectoryTheorem.

(** ** The generated stream of trial definitions *)

Section GeneratedStream.
Context `{Collaborators} `{SuggesterImpl}.

Lemma Qeq_bool_inject_Z a b : Qeq_bool (inject_Z a) (inject_Z b) = (a =? b)%Z.
Proof.
  unfold Qeq_bool, inject_Z. cbn. by rewrite !Z.mul_1_r.
Qed.

Lemma iterate_S fuel stream :
  iterate (S fuel) stream =
    match stream_next stream with
    | (Ret x, s') => let '(xs, e) := iterate fuel s' in (x :: xs, e)
    | (Err e, _) => ([], Some e)
    end.
Proof. done. Qed.





(** [num_trials] is compared with [==] only: when it is negative the count
    never meets it and every request yields a descriptor. *)
Lemma negative_num_trials_never_stops (pre : PyVal) (m : positive) (fuel : nat) :
  ∀ (c : nat) (s : Suggester),
    let r := iterate fuel
               (DefinitionsIterator
                  (mkIterator s (PyNum (inject_Z (Z.neg m))) pre (Z.of_nat c))) in
    length r.1 = fuel ∧ r.2 = None.
Proof.
  induction fuel as [|fuel IH]; intros c s; [done|].
  cbv zeta. rewrite iterate_S. cbn [stream_next]. unfold __next__.
  cbn [trial_count num_trials py_eq suggester prefix].
  rewrite Qeq_bool_inject_Z.
  destruct (Z.eqb_spec (Z.of_nat c) (Z.neg m)) as [E|_]; [lia|].
  destruct (suggest_next s) as [hp s']. cbn [res_bind].
  replace (Z.of_nat c + 1)%Z with (Z.of_nat (S c)) by lia.
  specialize (IH (S c) s'). cbv zeta in IH.
  destruct (iterate fuel _) as [xs e]. cbn in *. destruct IH as [-> ->]. done.
Qed.
End GeneratedStream.

(** * Further properties of the code *)

(** ** More on closing a trial *)

Section TrialCloseMore.
Context `{Collaborators}.
#[local] Arguments dict_set : simpl never.
#[local] Arguments dict_get : simpl never.
#[local] Arguments json_serializable : simpl never.
#[local] Arguments trial_names : simpl never.

(** X1.  A trial scope left by an exception: the close raises that very
    exception; before that it has only stored the duration in the trial's own
    dictionary.  No file is written, nothing is appended or removed, no
    warning is issued, and the snapshot is not even read. *)
Theorem Trial_exit_reraises (self : TrialObj) (w : World)
    (exc_type : ExcClass) (exc_value : PyExc) (start_time : PyVal) :
  dict_get "start_time" (deref w (trial_data self)) = Some start_time →
  Trial.__exit__ self (Some (exc_type, exc_value)) w
  = (Err exc_value,
     set_heap (fun h =>
       <[trial_data self :=
           dict_set "duration" (get_duration start_time (w_clock w))
                    (deref w (trial_data self))]> h) w).
Proof.
  intros Hst.
  unfold Trial.__exit__, bind, get_world, getitem, setitem, modify.
  cbn beta iota. rewrite Hst. reflexivity.
Qed.

(** X2.  A trial that was not run before and is closed cleanly with an empty
    snapshot: the close returns after one warning ("produced no results");
    no file is written and the collection is unchanged. *)
Theorem Trial_exit_discards_empty_first_run (self : TrialObj) (w : World) :
  dict_keys (deref w (trial_data self)) = trial_keys →
  _already_runned self = false →
  all_empty (fetch_trial_results self (w_exp w)) = true →
  ∃ w' name,
    dict_get "name" (deref w (trial_data self)) = Some name ∧
    Trial.__exit__ self None w = (Ret (), w') ∧
    w_fs w' = w_fs w ∧
    w_exp w' = w_exp w ∧
    (∀ l, l ≠ trial_data self → deref w' l = deref w l) ∧
    w_warnings w' =
      w_warnings w ++ ["'" +:+ fmt name +:+ "' produced no results. Nothing"
                       +:+ nl +:+ "saved."].
Proof.
  intros Hkeys Hrun Hempty.
  destruct (trial_keys_get _ "start_time" Hkeys) as [st Hst]; [set_solver|].
  destruct (trial_keys_get _ "name" Hkeys) as [name Hname]; [set_solver|].
  eexists _, name. split; [done|]. split.
  - unfold Trial.__exit__, bind, get_world, getitem, setitem, modify.
    cbn beta iota. rewrite Hst. cbn. rewrite deref_insert_eq.
    rewrite dict_get_set_ne by done. rewrite Hname. cbn.
    rewrite Hempty, Hrun. cbn. reflexivity.
  - cbn. split_and!; try done.
    intros l Hl. unfold deref. cbn. by rewrite lookup_insert_ne.
Qed.

(** X3.  A trial that was not run before and is closed cleanly with results,
    the snapshot having the three slots [__exit__] reads: the record is
    completed, written to [trial_info.json] and appended at the end of the
    collection.  Nothing is removed: the flag computed by the constructor
    decides, not the names retained at the time of the close. *)
Theorem Trial_exit_appends_new (self : TrialObj) (w : World)
    (name start_time figures metrics history files : PyVal) (dir : string)
    (fs' : FS) :
  let l := trial_data self in
  let snapshot := fetch_trial_results self (w_exp w) in
  let record :=
    dict_set "training_history" history
      (dict_set "evaluation_metrics" metrics
         (dict_set "figures" files
            (dict_set "duration" (get_duration start_time (w_clock w))
               (deref w l)))) in
  dict_get "start_time" (deref w l) = Some start_time →
  dict_get "name" (deref w l) = Some name →
  dict_get "directory" (deref w l) = Some (PyStr dir) →
  _already_runned self = false →
  all_empty snapshot = false →
  dict_get "figures" snapshot = Some figures →
  dict_get "evaluation_metrics" snapshot = Some metrics →
  dict_get "training_history" snapshot = Some history →
  transform_figures_to_files figures (PyStr dir) (w_fs w) = (Ret files, fs') →
  json_serializable (PyDict record) = true →
  ∃ w',
    Trial.__exit__ self None w = (Ret (), w') ∧
    trials (w_exp w') = trials (w_exp w) ++ [l] ∧
    deref w' l = record ∧
    (∀ l', l' ≠ l → deref w' l' = deref w l') ∧
    fs_files (w_fs w')
    = <[posixpath.join dir "trial_info.json" := JsonFile (PyDict record)]>
        (fs_files fs') ∧
    w_warnings w' = w_warnings w.
Proof.
  intros l snapshot record Hst Hname Hdir Hrun Hne Hfig Hmet Hhist Htrans Hser.
  eexists. split; [|split_and!].
  - unfold Trial.__exit__, bind, get_world, getitem, setitem, modify,
      logger_info, warn, logger_warning, ret, raise.
    cbn beta iota. fold l. rewrite Hst. cbn.
    rewrite deref_insert_eq. rewrite dict_get_set_ne by done.
    rewrite Hname. cbn. fold snapshot. rewrite Hne, Hrun. cbn.
    rewrite Hfig. cbn.
    unfold deref at 1. cbn. rewrite lookup_insert_eq. cbn.
    rewrite dict_get_set_ne by done. rewrite Hdir. cbn.
    unfold Trial.call_transform_figures. cbn. rewrite Htrans. cbn.
    rewrite Hmet. cbn. rewrite Hhist. cbn.
    unfold Trial._write_trial_data, bind, get_world, getitem. cbn.
    unfold deref in *. cbn. rewrite !lookup_insert_eq. cbn.
    rewrite !dict_get_set_ne by done. rewrite Hdir. cbn.
    unfold try_except_TypeError, json_dump_to.
    fold record. rewrite Hser. cbn. reflexivity.
  - cbn. reflexivity.
  - unfold deref. cbn. rewrite lookup_insert_eq. done.
  - intros l' Hl'. unfold deref. cbn. rewrite !lookup_insert_ne by done. done.
  - cbn. reflexivity.
  - cbn. reflexivity.
Qed.
End TrialCloseMore.

(** ** Names and directories of trials *)

Lemma str_map_length f s : String.length (str_map f s) = String.length s.
Proof. induction s; cbn; congruence. Qed.

Lemma str_map_compose f g s : str_map f (str_map g s) = str_map (fun c => f (g c)) s.
Proof. induction s; cbn; congruence. Qed.

Lemma str_map_ext f g s : (∀ c, f c = g c) → str_map f s = str_map g s.
Proof. intros Hfg. induction s; cbn; congruence. Qed.

Lemma str_map_chars f s :
  list_ascii_of_string (str_map f s) = f <$> list_ascii_of_string s.
Proof. induction s; cbn; congruence. Qed.


(** X4.  [normalize_trial_name] is idempotent and keeps the length of the
    name; its result has no space and no upper-case ASCII letter.  Names that
    differ only in case, or in spaces against underscores, therefore share
    one trial directory. *)
Theorem normalize_trial_name_normal (trial_name : string) :
  let n := Trial.normalize_trial_name trial_name in
  Trial.normalize_trial_name n = n ∧
  String.length n = String.length trial_name ∧
  Forall (fun c => c ≠ " "%char ∧ ¬ (65 ≤ nat_of_ascii c ≤ 90)%nat)
         (list_ascii_of_string n) ∧
  Trial.normalize_trial_name (lower trial_name) = n ∧
  Trial.normalize_trial_name (replace_spaces trial_name) = n.
Proof.
  unfold Trial.normalize_trial_name, lower, replace_spaces.
  cbv zeta. rewrite !str_map_compose, !str_map_length. split_and!.
  - apply str_map_ext.
    intros [[] [] [] [] [] [] [] []]; vm_compute; reflexivity.
  - done.
  - rewrite str_map_chars. apply Forall_fmap, Forall_forall.
    intros [[] [] [] [] [] [] [] []] _; vm_compute; split; (discriminate || lia).
  - apply str_map_ext.
    intros [[] [] [] [] [] [] [] []]; vm_compute; reflexivity.
  - apply str_map_ext.
    intros [[] [] [] [] [] [] [] []]; vm_compute; reflexivity.
Qed.

(** ** Removing a retained trial *)

Section RemoveTrial.
Context `{Collaborators}.
#[local] Arguments trial_names : simpl never.

Lemma py_index_spec x names :
  py_in x names = true →
  ∃ n, names !! py_index x names = Some n ∧ py_eq n x = true ∧
       ∀ j m, j < py_index x names → names !! j = Some m → py_eq m x = false.
Proof.
  induction names as [|n names IH]; [done|].
  cbn [py_in existsb py_index]. destruct (py_eq n x) eqn:E; cbn.
  - intros _. exists n. split_and!; [done|done|]. intros j m Hj. lia.
  - intros Hin. destruct (IH Hin) as (n' & Hn' & He & Hbefore).
    exists n'. split_and!; [done|done|].
    intros [|j] m Hj; cbn; [congruence|]. apply Hbefore. lia.
Qed.

Lemma res_mapM_length {A B} (f : A → Res B) l bs :
  res_mapM f l = Ret bs → length bs = length l.
Proof.
  revert bs. induction l as [|a l IH]; intros bs; cbn; [by intros [= <-]|].
  destruct (f a); [|done]. cbn. destruct (res_mapM f l); [|done]. cbn.
  intros [= <-]. cbn. f_equal. by apply IH.
Qed.

(** X5.  [_remove_trial], [names] being the names of the retained trials in
    order: a name that is not among them raises [ValueError] and changes
    nothing; otherwise exactly one entry is removed, the first one whose
    name equals the given name, and the others keep their order. *)
Theorem remove_trial_removes_first (trial_name : PyVal) (names : list PyVal)
    (w : World) :
  res_mapM (fun l => res_getitem (deref w l) "name") (trials (w_exp w))
  = Ret names →
  (py_in trial_name names = false →
   Trial._remove_trial trial_name w
   = (Err (ValueError ("Trial " +:+ fmt trial_name
                       +:+ " not found in experiment trials.")), w)) ∧
  (py_in trial_name names = true →
   ∃ i l n,
     Trial._remove_trial trial_name w
     = (Ret (), set_exp (set_trials (fun ts => delete i ts)) w) ∧
     trials (w_exp w) !! i = Some l ∧
     dict_get "name" (deref w l) = Some n ∧ py_eq n trial_name = true ∧
     (∀ j m, j < i → names !! j = Some m → py_eq m trial_name = false) ∧
     length (delete i (trials (w_exp w))) = pred (length (trials (w_exp w)))).
Proof.
  intros Hnames. split; intros Hin.
  - unfold Trial._remove_trial, bind. rewrite trial_names_run, Hnames.
    cbn. by rewrite Hin.
  - destruct (py_index_spec _ _ Hin) as (n & Hn & Heq & Hbefore).
    pose proof (res_mapM_length _ _ _ Hnames) as Hlen.
    assert (py_index trial_name names < length (trials (w_exp w))) as Hi.
    { rewrite <- Hlen. by eapply lookup_lt_Some. }
    destruct (lookup_lt_is_Some_2 _ _ Hi) as [l Hl].
    exists (py_index trial_name names), l, n. split_and!; try done.
    + unfold Trial._remove_trial, bind. rewrite trial_names_run, Hnames.
      cbn. by rewrite Hin.
    + clear Hbefore Hi Hlen Hin Heq.
      revert Hnames Hn Hl.
      generalize (py_index trial_name names) as i. revert names.
      induction (trials (w_exp w)) as [|a ts IH]; intros names i; [done|].
      cbn [res_mapM]. unfold res_getitem at 1.
      destruct (dict_get "name" (deref w a)) as [na|] eqn:Ea; [|done].
      cbn. destruct (res_mapM _ ts) as [ns|] eqn:Ens; [|done]. cbn.
      intros [= <-]. destruct i as [|i]; cbn.
      * intros [= <-] [= <-]. done.
      * intros Hn Hl. by eapply IH.
    + rewrite length_delete; [lia|]. by eexists.
Qed.
End RemoveTrial.

(** ** More on writing [trial_info.json] *)

Section TrialWriteMore.
Context `{Collaborators}.
#[local] Arguments dict_set : simpl never.
#[local] Arguments dict_get : simpl never.
#[local] Arguments json_serializable : simpl never.

Lemma json_serializable_cons k v d :
  json_serializable (PyDict ((k, v) :: d))
  = json_serializable v && json_serializable (PyDict d).
Proof. done. Qed.

Lemma json_serializable_set_None k d :
  json_serializable (PyDict d) = true →
  json_serializable (PyDict (dict_set k PyNone d)) = true.
Proof.
  unfold dict_set. induction d as [|[k' v'] d IH]; [done|].
  rewrite json_serializable_cons. intros [Hv Hd]%andb_prop.
  cbn [assoc_set]. destruct (String.eqb k k');
    rewrite json_serializable_cons; [done|].
  by rewrite Hv, IH.
Qed.

(** X6.  When an entry other than the hyperparameters cannot be encoded
    (metrics holding an object, say), the second [json.dump] raises too:
    [_write_trial_data] raises [TypeError] after its warning, and
    [trial_info.json], opened for writing twice, is left truncated: what
    it held before is lost. *)
Theorem Trial_write_truncates_on_other_entry (self : TrialObj) (w : World)
    (dir : string) (name : PyVal) :
  let d := deref w (trial_data self) in
  let written := dict_set "hyperparameters" PyNone d in
  dict_get "directory" d = Some (PyStr dir) →
  dict_get "name" d = Some name →
  json_serializable (PyDict written) = false →
  ∃ w',
    Trial._write_trial_data self w
    = (Err (TypeError "Object is not JSON serializable"), w') ∧
    fs_files (w_fs w')
    = <[posixpath.join dir "trial_info.json" := TruncatedJson (PyDict written)]>
        (fs_files (w_fs w)) ∧
    w_warnings w'
    = w_warnings w ++ ["Hyperparameters are not JSON serializable for trial"
                       +:+ fmt name +:+ ". Saving None instead."] ∧
    w_exp w' = w_exp w ∧ w_heap w' = w_heap w.
Proof.
  intros d written Hdir Hname Hbad.
  assert (json_serializable (PyDict d) = false) as Hd.
  { destruct (json_serializable (PyDict d)) eqn:E; [|done].
    apply (json_serializable_set_None "hyperparameters") in E.
    fold written in E. congruence. }
  eexists. split.
  - unfold Trial._write_trial_data, bind, get_world, getitem. cbn.
    fold d. rewrite Hdir. cbn.
    unfold try_except_TypeError, json_dump_to. rewrite Hd. cbn.
    unfold bind, getitem. rewrite Hname. cbn.
    fold written. rewrite Hbad. cbn. reflexivity.
  - cbn. split_and!; try done. by rewrite insert_insert_eq.
Qed.
End TrialWriteMore.

(** ** The constructor of a trial *)

Section TrialInit.
Context `{Collaborators}.
#[local] Arguments dict_set : simpl never.
#[local] Arguments dict_get : simpl never.
#[local] Arguments makedirs : simpl never.
#[local] Arguments trial_names : simpl never.


End TrialInit.

(** ** More on closing an experiment *)

Section ExperimentCloseMore.
Context `{Collaborators}.
#[local] Arguments dict_set : simpl never.
#[local] Arguments dict_get : simpl never.
#[local] Arguments json_serializable : simpl never.
#[local] Arguments posixpath.relpath : simpl never.
#[local] Arguments posixpath.dirname : simpl never.
#[local] Arguments posixpath.join : simpl never.

(** X9.  An experiment scope left by an exception: the close raises, and
    apart from the duration stored in [experiment_data] nothing changes: no
    file, no directory, no record, no warning.  If the class of the exception
    can be called with the exception as its argument, what is raised is
    [ExperimentError], caused by the new instance; if the experiment was
    never entered (no ["start_time"]) it is [KeyError]. *)
Theorem Experiment_exit_on_fault (exc_type : ExcClass) (exc_value : PyExc)
    (w : World) :
  let r := (Experiment.__exit__ (Some (exc_type, exc_value)) w).1 in
  let w' := (Experiment.__exit__ (Some (exc_type, exc_value)) w).2 in
  (∃ e, r = Err e) ∧
  w_fs w' = w_fs w ∧ w_heap w' = w_heap w ∧
  trials (w_exp w') = trials (w_exp w) ∧
  w_warnings w' = w_warnings w ∧ w_log w' = w_log w ∧
  (∀ k, k ≠ "duration" →
        dict_get k (experiment_data (w_exp w'))
        = dict_get k (experiment_data (w_exp w))) ∧
  (∀ exc, dict_has "start_time" (experiment_data (w_exp w)) = true →
          cls_call exc_type exc_value = Ret exc →
          r = Err (ExperimentError "An error occurred during the experiment."
                                   exc)) ∧
  (dict_has "start_time" (experiment_data (w_exp w)) = false →
   r = Err (KeyError "start_time") ∧ w' = w).
Proof.
  unfold Experiment.__exit__, bind, get_world, getitem, modify, lift, raise,
    dict_has.
  cbn beta iota.
  destruct (dict_get "start_time" _) as [st|]; cbn.
  - destruct (cls_call exc_type exc_value) as [exc|e]; cbn;
      split_and!; eauto; try done.
    + intros k Hk. by apply dict_get_set_ne.
    + by intros exc' _ [= <-].
    + intros k Hk. by apply dict_get_set_ne.
  - split_and!; eauto; done.
Qed.

Lemma reads_only_ret {A} (a : A) : reads_only (ret a).
Proof. done. Qed.
Lemma reads_only_raise {A} e : reads_only (@raise A e).
Proof. done. Qed.
Lemma reads_only_lift {A} (r : Res A) : reads_only (lift r).
Proof. done. Qed.
Lemma reads_only_get_world : reads_only get_world.
Proof. done. Qed.
Lemma reads_only_getitem d k : reads_only (getitem d k).
Proof. unfold getitem. by destruct (dict_get k d). Qed.
Lemma reads_only_path_join a b : reads_only (path_join a b).
Proof. by destruct a. Qed.

Lemma fails_cleanly_bind_reader {A B} (m : M A) (k : A → M B) :
  reads_only m → (∀ a, fails_cleanly (k a)) → fails_cleanly (bind m k).
Proof.
  intros Hm Hk w e. unfold bind. specialize (Hm w).
  destruct (m w) as [[a|e'] w1]; cbn in *; subst; [apply Hk|done].
Qed.

Lemma fails_cleanly_never {A} (m : M A) :
  (∀ w, ∃ a, (m w).1 = Ret a) → fails_cleanly m.
Proof. intros Hm w e He. destruct (Hm w) as [a Ha]. congruence. Qed.

Lemma fails_cleanly_report kw : fails_cleanly (create_experiment_report kw).
Proof.
  unfold create_experiment_report. destruct kw.
  2:{ intros w e _. done. }
  repeat first
    [ apply fails_cleanly_bind_reader; [|intros ?]
    | apply reads_only_get_world
    | apply reads_only_getitem
    | apply reads_only_path_join
    | apply reads_only_lift ].
  apply fails_cleanly_never. intros w. by exists ().
Qed.

(** X10.  [create_experiment_report] is all or nothing: the file is written
    by the last statement only, so a report that raises (a missing key, a
    table without rows, a path that is no string, an unexpected keyword)
    leaves the world exactly as it was; and a report never modifies the
    experiment or a record. *)
Theorem report_is_all_or_nothing (kw : Dict) (w : World) :
  (∀ e, (create_experiment_report kw w).1 = Err e →
        (create_experiment_report kw w).2 = w) ∧
  w_exp (create_experiment_report kw w).2 = w_exp w ∧
  w_heap (create_experiment_report kw w).2 = w_heap w.
Proof.
  split; [|apply keeps_objects_report].
  intros e. apply fails_cleanly_report.
Qed.
End ExperimentCloseMore.

(** ** Sorting the trials twice, closing with trials, and a whole run *)

Section ExperimentSortMore.
Context `{Collaborators}.

Lemma sort_by_fixed {A} (f : A → Q) l :
  StronglySorted (fun a b => (f a <= f b)%Q) l → sort_by f l = l.
Proof.
  induction 1 as [|x l Hl IH Hx]; [done|]. cbn [sort_by]. rewrite IH.
  destruct l as [|y l']; [done|]. cbn [insert_by].
  apply Forall_cons in Hx as [Hxy _].
  apply Qle_bool_iff in Hxy as ->. done.
Qed.

Lemma sort_by_descending_fixed {A} (f : A → Q) l :
  StronglySorted (fun a b => (f b <= f a)%Q) l → sort_by_descending f l = l.
Proof.
  intros Hl. unfold sort_by_descending.
  rewrite sort_by_fixed; [apply rev_involutive|].
  by apply (StronglySorted_rev_flip (fun a b => (f b <= f a)%Q)).
Qed.

Lemma set_trials_same w :
  set_exp (set_trials (fun _ => trials (w_exp w))) w = w.
Proof. by destruct w as [? ? ? ? ? [? ? ? ? ?] ? ?]. Qed.

(** X11.  [_sort_trials] is idempotent on numeric scores: sorting a second
    time changes nothing, and a collection that is already in descending
    order of accuracy is left exactly as it is. *)
Theorem sort_trials_idempotent (acc : nat → Q) (w : World) :
  (∀ l, l ∈ trials (w_exp w) →
        Experiment.accuracy_key (deref w l) = Ret (PyNum (acc l))) →
  (Experiment._sort_trials ;;; Experiment._sort_trials) w
  = Experiment._sort_trials w ∧
  (StronglySorted (fun a b => (acc b <= acc a)%Q) (trials (w_exp w)) →
   Experiment._sort_trials w = (Ret (), w)).
Proof.
  intros Hacc. rewrite (sort_trials_numbers acc w Hacc). split.
  - unfold bind at 1. rewrite (sort_trials_numbers acc w Hacc).
    rewrite (sort_trials_numbers acc).
    + cbn.
      change (rev (sort_by acc (rev ?l))) with (sort_by_descending acc l).
      rewrite (sort_by_descending_fixed acc
                 (sort_by_descending acc (trials (w_exp w))))
        by apply sort_by_descending_sorted.
      by destruct w as [? ? ? ? ? [? ? ? ? ?] ? ?].
    + intros l Hl. cbn in Hl.
      rewrite sort_by_descending_perm in Hl. by apply Hacc.
  - intros Hs. rewrite sort_by_descending_fixed by done.
    by rewrite set_trials_same.
Qed.
End ExperimentSortMore.

Section ExperimentCloseWithTrials.
Context `{Collaborators}.
#[local] Arguments json_serializable : simpl never.
#[local] Arguments dict_set : simpl never.
#[local] Arguments dict_get : simpl never.
#[local] Arguments posixpath.relpath : simpl never.
#[local] Arguments posixpath.dirname : simpl never.
#[local] Arguments posixpath.join : simpl never.

Lemma description_not_a_trial_key : "description" ∉ trial_keys.
Proof.
  unfold trial_keys. intros Hin.
  repeat (apply elem_of_cons in Hin as [Hin|Hin]; [done|]).
  by apply elem_of_nil in Hin.
Qed.

(** The section of the report for a record with the keys [Trial] gives it
    stops at the description. *)
Lemma trial_section_needs_description cwd file_dir trial :
  dict_keys trial = trial_keys →
  trial_section cwd file_dir trial = Err (KeyError "description").
Proof.
  intros Hk. unfold trial_section, res_getitem.
  destruct (trial_keys_get trial "name" Hk) as [v ->].
  { unfold trial_keys. left. }
  assert (dict_get "description" trial = None) as ->; [|done].
  destruct (dict_get "description" trial) eqn:E; [|done].
  assert (dict_has "description" trial = true) as Hhas
    by (unfold dict_has; by rewrite E).
  apply dict_has_keys in Hhas. rewrite Hk in Hhas.
  by apply description_not_a_trial_key in Hhas.
Qed.

Lemma experiment_reportable_inv w :
  experiment_reportable w = true →
  experiment_writable w = true ∧
  dict_has "name" (experiment_data (w_exp w)) = true ∧
  dict_has "description" (experiment_data (w_exp w)) = true ∧
  (∃ d, dict_get "directory" (experiment_data (w_exp w)) = Some (PyStr d)
        ∧ d ≠ "") ∧
  report_kwargs (w_exp w) = [].
Proof.
  unfold experiment_reportable. intros Hrep.
  apply andb_prop in Hrep as [Hrep Hkw].
  apply andb_prop in Hrep as [Hrep Hne].
  apply andb_prop in Hrep as [Hrep Hdescr].
  apply andb_prop in Hrep as [Hw Hname].
  split_and!; try done.
  - destruct (dict_get "directory" _) as [[]|]; try done.
    eexists. split; [done|]. intros ->. done.
  - by destruct (report_kwargs _).
Qed.

(** X12.  A clean close of an experiment that retains at least one trial
    whose record has the keys [Trial] gives it (there is no ["description"]
    among them) writes [experiment_info.json], sorts the collection and then
    raises [KeyError('description')] from the report, so
    [experiment_report.md] is not written. *)
Theorem Experiment_exit_report_needs_description
    (acc : nat → Q) (w : World) (st : PyVal) (d : string) :
  experiment_reportable w = true →
  dict_get "start_time" (experiment_data (w_exp w)) = Some st →
  dict_get "directory" (experiment_data (w_exp w)) = Some (PyStr d) →
  trials (w_exp w) ≠ [] →
  (∀ l, l ∈ trials (w_exp w) →
        dict_keys (deref w l) = trial_keys ∧
        Experiment.accuracy_key (deref w l) = Ret (PyNum (acc l))) →
  let run := Experiment.__exit__ None w in
  let data := dict_set "duration" (get_duration st (w_clock w))
                       (experiment_data (w_exp w)) in
  run.1 = Err (KeyError "description") ∧
  fs_files (w_fs run.2)
  = <[posixpath.join d "experiment_info.json" := JsonFile (PyDict data)]>
      (fs_files (w_fs w)) ∧
  fs_dirs (w_fs run.2) = fs_dirs (w_fs w) ∧
  experiment_data (w_exp run.2) = data ∧
  trials (w_exp run.2) = sort_by_descending acc (trials (w_exp w)) ∧
  w_heap run.2 = w_heap w.
Proof.
  intros Hrep Hst Hd Hne Hall run data.
  destruct (experiment_reportable_inv w Hrep)
    as (Hw & Hname & Hdescr & (d' & Hd' & Hdne) & Hkw).
  rewrite Hd in Hd'. injection Hd' as <-.
  destruct (experiment_writable_inv w Hw) as (st' & d' & Hst' & Hd' & Hser).
  rewrite Hst in Hst'. injection Hst' as <-. clear d' Hd'.
  pose proof (exit_clean_prefix w st d Hst Hd Hser) as Hpre.
  cbv zeta in Hpre. unfold bind at 1 in Hpre.
  rewrite (sort_trials_numbers acc) in Hpre by (intros l Hl; by apply Hall).
  cbn beta iota in Hpre.
  unfold bind at 1 in Hpre. unfold get_world at 1 in Hpre.
  cbn beta iota in Hpre.
  match type of Hpre with
  | context [create_experiment_report ?kw ?w3] =>
      change kw with (report_kwargs (w_exp w)) in Hpre
  end.
  rewrite Hkw in Hpre.
  unfold dict_has in Hname, Hdescr.
  destruct (dict_get "name" _) as [name|] eqn:En; [|done].
  destruct (dict_get "description" _) as [descr|] eqn:Ed; [|done].
  destruct (sort_by_descending acc (trials (w_exp w))) as [|l0 ts'] eqn:Es.
  { pose proof (sort_by_descending_perm acc (trials (w_exp w))) as Hp.
    rewrite Es in Hp. by apply Permutation_nil in Hp. }
  assert (l0 ∈ trials (w_exp w)) as Hl0.
  { rewrite <- (sort_by_descending_perm acc), Es. left. }
  destruct (Hall l0 Hl0) as [Hk0 _].
  assert (run = (Err (KeyError "description"),
                 set_exp (set_trials (fun _ => l0 :: ts'))
                   (set_fs (fun fs =>
                      mkFS (fs_dirs fs)
                        (<[posixpath.join d "experiment_info.json" :=
                             JsonFile (PyDict data)]> (fs_files fs)))
                      (set_exp (set_experiment_data (fun _ => data)) w))))
    as ->.
  { subst run. rewrite Hpre.
    unfold create_experiment_report, bind, get_world, getitem, ret.
    cbn beta iota. cbn [w_exp set_exp set_fs set_trials experiment_data
                        set_experiment_data trials w_cwd].
    rewrite !dict_get_set_ne by done. rewrite Hd. cbn [path_join]. unfold ret.
    rewrite En, Ed, Hst. cbn beta iota.
    unfold lift at 1. unfold MarkdownFileWriter.create_link.
    destruct (relpath_Ret (w_cwd w) d
                (posixpath.dirname (posixpath.join d "experiment_report.md"))
                Hdne) as [r ->].
    cbn [res_bind]. cbn beta iota.
    unfold lift, ret. rewrite Es. cbn [res_mapM].
    match goal with
    | |- context [trial_section ?c ?f (deref ?w3 l0)] =>
        change (deref w3 l0) with (deref w l0);
        rewrite (trial_section_needs_description c f (deref w l0) Hk0)
    end.
    reflexivity. }
  cbn. done.
Qed.
End ExperimentCloseWithTrials.

(** ** A whole experiment without trials *)

Section ExperimentLifecycle.
Context `{Collaborators}.
#[local] Arguments json_serializable : simpl never.
#[local] Arguments posixpath.relpath : simpl never.
#[local] Arguments posixpath.dirname : simpl never.
#[local] Arguments posixpath.join : simpl never.
#[local] Arguments posixpath.abspath : simpl never.
#[local] Arguments posixpath.normpath : simpl never.
#[local] Arguments makedirs : simpl never.





End ExperimentLifecycle.

(** ** The explicit list of trials and the generator configuration *)

Section TrialsDefinitionsMore.
Context `{Collaborators} `{SuggesterImpl}.

Lemma iterate_list (l : list PyVal) (extra : nat) :
  iterate (S (length l) + extra) (ListIterator l) = (l, Some StopIteration).
Proof.
  induction l as [|x l IH]; [done|].
  cbn [length Nat.add]. rewrite iterate_S. cbn [stream_next].
  cbn [length Nat.add] in IH. by rewrite IH.
Qed.

Lemma named_trial_expected t : named_trial t → has_expected_keys t = Ret true.
Proof. by intros (n & h & [-> | ->]). Qed.

Lemma assert_list_keys_named l w :
  Forall named_trial l → assert_list_keys l w = (Ret (), w).
Proof.
  induction 1 as [|t l Ht Hl IH]; [done|].
  cbn [assert_list_keys]. unfold bind, lift.
  by rewrite (named_trial_expected t Ht).
Qed.

Lemma has_expected_keys_other d :
  "name" ∉ dict_keys d ∨ "hyperparameters" ∉ dict_keys d
  ∨ (∃ k, k ∈ dict_keys d ∧ k ≠ "name" ∧ k ≠ "hyperparameters") →
  has_expected_keys (PyDict d) = Ret false.
Proof.
  intros Hbad. cbn [has_expected_keys]. f_equal.
  destruct Hbad as [Hn | [Hh | (k & Hk & Hkn & Hkh)]].
  - destruct (dict_has "name" d) eqn:E; [|by rewrite andb_false_r].
    by apply dict_has_keys in E.
  - destruct (dict_has "hyperparameters" d) eqn:E; [|by rewrite andb_false_r].
    by apply dict_has_keys in E.
  - destruct (forallb _ (dict_keys d)) eqn:E; [|done].
    rewrite forallb_forall in E. apply list_elem_of_In in Hk.
    specialize (E k Hk). apply orb_prop in E as [E|E];
      by apply String.eqb_eq in E.
Qed.

Lemma assert_list_keys_other l d rest w :
  Forall named_trial l →
  "name" ∉ dict_keys d ∨ "hyperparameters" ∉ dict_keys d
  ∨ (∃ k, k ∈ dict_keys d ∧ k ≠ "name" ∧ k ≠ "hyperparameters") →
  assert_list_keys (l ++ PyDict d :: rest) w
  = (Err (AssertionError
            "Invalid keys in list elements of trials_definitions."), w).
Proof.
  intros Hl Hbad. induction Hl as [|t l Ht Hl IH].
  - cbn [app assert_list_keys]. unfold bind, lift.
    by rewrite (has_expected_keys_other d Hbad).
  - cbn [app assert_list_keys]. unfold bind, lift.
    rewrite (named_trial_expected t Ht). exact IH.
Qed.

(** X14.  An explicit list of trials whose elements all have exactly the
    keys ["name"] and ["hyperparameters"] is accepted without any effect,
    and the stream yields the elements themselves, in the order of the list,
    before it raises [StopIteration]; one element with a missing or an
    additional key after such a prefix makes the whole list fail with
    [AssertionError]. *)
Theorem explicit_trials_are_streamed_in_order (l : list PyVal) (w : World) :
  Forall named_trial l →
  (_process_trials_definitions (PyList l) w = (Ret (ListIterator l), w) ∧
   ∀ extra,
     iterate (S (length l) + extra) (ListIterator l)
     = (l, Some StopIteration)) ∧
  (∀ d rest,
     "name" ∉ dict_keys d ∨ "hyperparameters" ∉ dict_keys d
     ∨ (∃ k, k ∈ dict_keys d ∧ k ≠ "name" ∧ k ≠ "hyperparameters") →
     _process_trials_definitions (PyList (l ++ PyDict d :: rest)) w
     = (Err (AssertionError
               "Invalid keys in list elements of trials_definitions."), w)).
Proof.
  intros Hl. split_and!.
  - cbn [_process_trials_definitions]. unfold bind.
    by rewrite assert_list_keys_named.
  - apply iterate_list.
  - intros d rest Hbad. cbn [_process_trials_definitions]. unfold bind.
    by rewrite assert_list_keys_other.
Qed.

Lemma filter_all {A} (P : A → Prop) `{!∀ x, Decision (P x)} (l : list A) :
  Forall P l → filter P l = l.
Proof.
  induction 1 as [|x l Hx Hl IH]; [done|].
  rewrite filter_cons_True by done. by rewrite IH.
Qed.

Lemma assoc_del_keys {V} k (d : list (string * V)) :
  NoDup d.*1 → (assoc_del k d).*1 = filter (fun k' => k' ≠ k) d.*1.
Proof.
  induction d as [|[k' v] d IH]; [done|].
  cbn [fmap list_fmap fst assoc_del]. intros [Hk' Hd]%NoDup_cons.
  destruct (String.eqb_spec k k') as [->|Hne].
  - rewrite filter_cons_False by (intros ?; done).
    symmetry. apply filter_all.
    apply Forall_forall. intros x Hx ->. done.
  - rewrite filter_cons_True by done. cbn. f_equal. by apply IH.
Qed.

Lemma forM_warn_run (keys : list string) (f : string → string) w :
  forM_ keys (fun key => warn (f key)) w
  = (Ret (),
     mkWorld (w_fs w) (w_cwd w) (w_clock w) (w_heap w) (w_next w) (w_exp w)
             (w_warnings w ++ (f <$> keys)) (w_log w)).
Proof.
  revert w. induction keys as [|k keys IH]; intros w.
  - cbn. rewrite app_nil_r. by destruct w.
  - cbn [forM_]. unfold bind at 1. unfold warn at 1, modify at 1.
    cbn beta iota. rewrite IH. cbn. by rewrite <- app_assoc.
Qed.

Lemma generator_unknown_keys d :
  NoDup (dict_keys d) →
  dict_keys (dict_pop "hparams_configs"
               (dict_pop "prefix" (dict_pop "num_trials" d)))
  = filter (fun k => k ∉ ["num_trials"; "prefix"; "hparams_configs"])
             (dict_keys d).
Proof.
  intros Hd. unfold dict_keys, dict_pop in *.
  assert (NoDup (assoc_del "num_trials" d).*1) as Hd1
    by (rewrite assoc_del_keys by done; by apply NoDup_filter).
  assert (NoDup (assoc_del "prefix" (assoc_del "num_trials" d)).*1) as Hd2
    by (rewrite assoc_del_keys by done; by apply NoDup_filter).
  rewrite (assoc_del_keys "hparams_configs") by done.
  rewrite (assoc_del_keys "prefix") by done.
  rewrite (assoc_del_keys "num_trials") by done.
  rewrite !list_filter_filter. apply list_filter_iff.
  intros k. rewrite !not_elem_of_cons.
  pose proof (not_elem_of_nil k). tauto.
Qed.

(** The generator branch on the contents [d] of the configuration. *)
Lemma generator_config_run (d : Dict) (w : World) :
  NoDup (dict_keys d) →
  let run := _process_trials_definitions (PyDict d) w in
  let ignoring key := "Ignoring key '" +:+ key +:+ "' in trials_definitions." in
  let warned :=
    mkWorld (w_fs w) (w_cwd w) (w_clock w) (w_heap w) (w_next w) (w_exp w)
            (w_warnings w ++ (ignoring <$> filter (fun k => k ∉ ["num_trials"; "prefix"; "hparams_configs"])
             (dict_keys d)))
            (w_log w) in
  (default PyNone (dict_get "hparams_configs" d) = PyNone →
   run = (Err (AssertionError
                 "hparams_configs is not a key in trials_definitions."), w)) ∧
  (∀ cfg, dict_get "hparams_configs" d = Some cfg → cfg ≠ PyNone →
     run.2 = warned ∧
     (∀ s, HParamsSuggester cfg = Ret s →
        run.1 = Ret (DefinitionsIterator
                       (iterator__init__ s
                          (default (PyNum 1) (dict_get "num_trials" d))
                          (default (PyStr "trial_") (dict_get "prefix" d))))) ∧
     (∀ msg, HParamsSuggester cfg = Err (AssertionError msg) →
        run.1 = Err (AssertionError
                       "Invalid hparams_configs in trials_definitions."))).
Proof.
  intros Hd run ignoring warned. subst run.
  unfold _process_trials_definitions.
  assert (dict_get "hparams_configs" (dict_pop "prefix" (dict_pop "num_trials" d))
          = dict_get "hparams_configs" d) as ->.
  { unfold dict_pop, dict_get. by rewrite !assoc_get_del_ne. }
  assert (dict_get "prefix" (dict_pop "num_trials" d) = dict_get "prefix" d)
    as ->.
  { unfold dict_pop, dict_get. by rewrite !assoc_get_del_ne. }
  rewrite (generator_unknown_keys d Hd).
  split.
  - by intros ->.
  - intros cfg Hcfg Hnone. rewrite Hcfg. cbn [default].
    assert (∀ A (x y : A), match cfg with PyNone => x | _ => y end = y) as ->
      by (intros; by destruct cfg).
    unfold bind. rewrite (forM_warn_run _ ignoring w). fold warned.
    split_and!.
    + unfold id. destruct (HParamsSuggester cfg) as [s|[]]; done.
    + unfold id. by intros s ->.
    + unfold id. by intros msg ->.
Qed.

Lemma generator_config_left (d : Dict) :
  NoDup (dict_keys d) →
  let left := dict_pop "hparams_configs"
                (dict_pop "prefix" (dict_pop "num_trials" d)) in
  dict_keys left
  = filter (fun k => k ∉ ["num_trials"; "prefix"; "hparams_configs"])
           (dict_keys d) ∧
  (∀ k, k ∉ ["num_trials"; "prefix"; "hparams_configs"] →
        dict_get k left = dict_get k d) ∧
  dict_get "hparams_configs" left = None.
Proof.
  intros Hd left. pose proof (generator_unknown_keys d Hd) as Hkeys.
  fold left in Hkeys. split_and!; [done| |].
  - intros k Hk. apply not_elem_of_cons in Hk as [H1 Hk].
    apply not_elem_of_cons in Hk as [H2 Hk].
    apply not_elem_of_cons in Hk as [H3 _].
    unfold left, dict_pop, dict_get. by rewrite !assoc_get_del_ne.
  - destruct (dict_get "hparams_configs" left) eqn:E; [|done].
    assert (dict_has "hparams_configs" left = true) as Hhas
      by (unfold dict_has; by rewrite E).
    apply dict_has_keys in Hhas. rewrite Hkeys in Hhas.
    apply list_elem_of_filter in Hhas as [Hno _].
    exfalso. apply Hno. set_solver.
Qed.

(** X15.  The generator configuration, a dictionary [d] that the caller
    holds: the call pops ["num_trials"], ["prefix"] and ["hparams_configs"]
    out of the caller's dictionary in every case, so only the other entries
    are left in it.  Without ["hparams_configs"] (or with [None] for it) the
    call then raises [AssertionError] and warns about nothing; otherwise it
    emits one warning for each of the other keys, in the order of the keys,
    whether the suggester can then be built or not, and an [AssertionError]
    of the suggester is replaced by one with the message of this function.
    Nothing else changes.  A second call on the same dictionary raises
    [AssertionError]: its ["hparams_configs"] is gone. *)
Theorem generator_config_pops_and_warns (l : nat) (d : Dict) (w : World) :
  w_heap w !! l = Some d →
  NoDup (dict_keys d) →
  let run := _process_trials_definitions_at l w in
  let ignoring key := "Ignoring key '" +:+ key +:+ "' in trials_definitions." in
  let left := dict_pop "hparams_configs"
                (dict_pop "prefix" (dict_pop "num_trials" d)) in
  let popped := set_heap (fun h => <[l := left]> h) w in
  let warned :=
    mkWorld (w_fs w) (w_cwd w) (w_clock w) (<[l := left]> (w_heap w))
            (w_next w) (w_exp w)
            (w_warnings w
             ++ (ignoring <$> filter (fun k => k ∉ ["num_trials"; "prefix";
                                                    "hparams_configs"])
                                     (dict_keys d)))
            (w_log w) in
  (dict_keys left
   = filter (fun k => k ∉ ["num_trials"; "prefix"; "hparams_configs"])
            (dict_keys d) ∧
   (∀ k, k ∉ ["num_trials"; "prefix"; "hparams_configs"] →
         dict_get k left = dict_get k d)) ∧
  deref run.2 l = left ∧
  (default PyNone (dict_get "hparams_configs" d) = PyNone →
   run = (Err (AssertionError
                 "hparams_configs is not a key in trials_definitions."),
          popped)) ∧
  (∀ cfg, dict_get "hparams_configs" d = Some cfg → cfg ≠ PyNone →
     run.2 = warned ∧
     (∀ s, HParamsSuggester cfg = Ret s →
        run.1 = Ret (DefinitionsIterator
                       (iterator__init__ s
                          (default (PyNum 1) (dict_get "num_trials" d))
                          (default (PyStr "trial_") (dict_get "prefix" d))))) ∧
     (∀ msg, HParamsSuggester cfg = Err (AssertionError msg) →
        run.1 = Err (AssertionError
                       "Invalid hparams_configs in trials_definitions."))) ∧
  (_process_trials_definitions_at l run.2).1
  = Err (AssertionError "hparams_configs is not a key in trials_definitions.").
Proof.
  intros Hl Hd run ignoring left popped warned.
  destruct (generator_config_left d Hd) as (Hkeys & Hvals & Hgone).
  fold left in Hkeys, Hvals, Hgone.
  assert (run = _process_trials_definitions (PyDict d) popped) as Hrun.
  { subst run. unfold _process_trials_definitions_at, bind, get_world, modify.
    cbn beta iota. unfold deref. by rewrite Hl. }
  destruct (generator_config_run d popped Hd) as [Hnone Hcfg].
  cbv zeta in Hnone, Hcfg. rewrite <- Hrun in Hnone, Hcfg.
  assert (deref run.2 l = left) as Hleft.
  { destruct (default PyNone (dict_get "hparams_configs" d)) eqn:E.
    1:{ rewrite (Hnone eq_refl). unfold deref. cbn.
        by rewrite lookup_insert_eq. }
    all: destruct (dict_get "hparams_configs" d) as [cfg|] eqn:Ec;
      [|done]; cbn in E; subst cfg;
      (destruct (Hcfg _ eq_refl) as (-> & _ & _); [done|]);
      unfold deref; cbn; by rewrite lookup_insert_eq. }
  split_and!; [done|done|done|exact Hnone| |].
  - intros cfg Hc Hn. destruct (Hcfg cfg Hc Hn) as (Hw & Hs & He).
    split_and!; [|done|done]. rewrite Hw. done.
  - unfold _process_trials_definitions_at, bind, get_world, modify.
    cbn beta iota. rewrite Hleft.
    unfold _process_trials_definitions.
    assert (dict_get "hparams_configs"
              (dict_pop "prefix" (dict_pop "num_trials" left)) = None) as ->.
    { unfold dict_pop, dict_get in *. by rewrite !assoc_get_del_ne. }
    done.
Qed.

(** X16.  [__next__] ends the stream by [==] alone: when [num_trials] is
    equal to no natural number (a negative number, a fraction, a string such
    as ["3"]) every request yields a descriptor, named by the prefix and the
    running count, and [StopIteration] is never raised. *)
Theorem uncountable_num_trials_never_stops
    (pre num : PyVal) (s : Suggester) (fuel : nat) :
  (∀ k : nat, py_eq (PyNum (inject_Z (Z.of_nat k))) num = false) →
  iterate fuel (DefinitionsIterator (iterator__init__ s num pre))
  = (expected_descriptors (fmt pre) 1 fuel s, None).
Proof.
  intros Hnum. unfold iterator__init__.
  change 0%Z with (Z.of_nat 0). change 1%Z with (Z.of_nat 0 + 1)%Z.
  generalize 0%nat as c. revert s.
  induction fuel as [|fuel IH]; intros s c; [done|].
  rewrite iterate_S. cbn [stream_next]. unfold __next__.
  cbn [trial_count num_trials suggester prefix]. rewrite Hnum.
  cbn [expected_descriptors].
  destruct (suggest_next s) as [hp s']. cbn [res_bind].
  replace (Z.of_nat c + 1)%Z with (Z.of_nat (S c)) by lia.
  by rewrite IH.
Qed.
End TrialsDefinitionsMore.

(** ** Reading the definitions file *)

Section LoadDefinitionsFacts.
Context `{Collaborators} `{SuggesterImpl}.
#[local] Arguments dict_get : simpl never.
#[local] Arguments dict_has : simpl never.

Lemma reads_only_assert_list_keys l : reads_only (assert_list_keys l).
Proof.
  intros w. induction l as [|t l IH]; [done|].
  cbn [assert_list_keys]. unfold bind, lift.
  destruct (has_expected_keys t) as [[]|]; done.
Qed.

Lemma process_trials_definitions_world td w :
  let w' := (_process_trials_definitions td w).2 in
  w_fs w' = w_fs w ∧ w_exp w' = w_exp w ∧ w_heap w' = w_heap w ∧
  w_log w' = w_log w ∧ w_cwd w' = w_cwd w.
Proof.
  destruct td as [| | | l | d | |]; try done.
  - cbn [_process_trials_definitions]. unfold bind.
    pose proof (reads_only_assert_list_keys l w) as Hw.
    destruct (assert_list_keys l w) as [[[]|e] w1]; cbn in *; by subst.
  - cbn [_process_trials_definitions].
    destruct (default PyNone _) eqn:E; try done;
      unfold bind; rewrite forM_warn_run;
      destruct (HParamsSuggester _) as [?|[]]; done.
Qed.

Lemma reads_only_assert_experiment_definitions ed :
  reads_only (_assert_experiment_definitions ed).
Proof.
  intros w. unfold _assert_experiment_definitions. cbn [forM_].
  unfold bind, lift, py_assert, ret, raise.
  repeat (destruct (py_contains _ ed) as [[]|]; try done).
Qed.

(** X17.  [load_definitions_of_experiment] never writes: whatever it
    returns or raises, the files, the directories, the experiment, the
    records and the log are as before (it can only add warnings).  A path
    that names nothing raises [FileNotFoundError] with the message of
    [_load_definitions]; a file that is no JSON document raises and
    changes nothing, and for a dump that stopped at an object it could not
    encode the exception is the decoder's. *)
Theorem load_definitions_never_writes (definitions_json : string) (w : World) :
  let run := load_definitions_of_experiment definitions_json w in
  (w_fs run.2 = w_fs w ∧ w_exp run.2 = w_exp w ∧ w_heap run.2 = w_heap w ∧
   w_log run.2 = w_log w) ∧
  (fs_files (w_fs w) !! definitions_json = None →
   definitions_json ∉ fs_dirs (w_fs w) →
   run = (Err (FileNotFoundError
                 (definitions_json
                  +:+ " is not found in the experiment directory.")), w)) ∧
  (∀ f, fs_files (w_fs w) !! definitions_json = Some f →
        (∀ doc, f ≠ JsonFile doc) →
        (∃ e, run = (Err e, w)) ∧
        (∀ doc, f = TruncatedJson doc →
                run = (Err (OtherError "JSONDecodeError" []), w))).
Proof.
  intros run. subst run.
  remember (load_definitions_of_experiment definitions_json w) as run eqn:Erun.
  unfold load_definitions_of_experiment in Erun.
  unfold bind at 1 in Erun.
  unfold _load_definitions, bind at 1, get_world at 1 in Erun.
  cbn beta iota in Erun.
  destruct (fs_files (w_fs w) !! definitions_json) as [f|].
  2:{ destruct (decide _); subst run; cbn; split_and!; done. }
  unfold lift at 1 in Erun.
  split; [|split; [done|]].
  2:{ intros f' [= <-] Hf. destruct f; subst run; cbn.
      - by destruct (Hf doc).
      - split; [eauto|done].
      - split; [eauto|done].
      - split; [eauto|done]. }
  destruct (json_load f) as [definitions|]; [|by subst run].
  unfold bind, lift, py_assert, ret, raise in Erun.
  destruct (py_len definitions) as [n|]; [|by subst run].
  destruct (n =? 2)%nat; [|by subst run].
  destruct (py_contains "experiment_definitions" definitions) as [[]|];
    try (by subst run).
  destruct (py_contains "trials_definitions" definitions) as [[]|];
    try (by subst run).
  destruct (py_getitem definitions "experiment_definitions") as [ed|];
    [|by subst run].
  pose proof (reads_only_assert_experiment_definitions ed w) as Hed.
  destruct (_assert_experiment_definitions ed w) as [[[]|] w1];
    cbn in Hed; subst w1; [|by subst run].
  destruct (py_getitem definitions "trials_definitions") as [td|];
    [|by subst run].
  pose proof (process_trials_definitions_world td w) as Htd.
  cbv zeta in Htd.
  destruct (_process_trials_definitions td w) as [[stream|] w1];
    subst run; cbn in *; tauto.
Qed.

(** X18.  A definitions file that holds the two entries
    ["experiment_definitions"] (with a name, a description and a directory)
    and ["trials_definitions"] (an explicit list of trials with exactly a
    name and hyperparameters each) is loaded as it is written: the call
    returns the experiment definitions and a stream over the list itself,
    with no warning and no other effect. *)
Theorem load_definitions_explicit_list
    (definitions_json : string) (doc ed : Dict) (l : list PyVal) (w : World) :
  fs_files (w_fs w) !! definitions_json = Some (JsonFile (PyDict doc)) →
  length doc = 2 →
  dict_get "experiment_definitions" doc = Some (PyDict ed) →
  dict_get "trials_definitions" doc = Some (PyList l) →
  dict_has "name" ed = true →
  dict_has "description" ed = true →
  dict_has "directory" ed = true →
  Forall named_trial l →
  load_definitions_of_experiment definitions_json w
  = (Ret (PyDict ed, ListIterator l), w).
Proof.
  intros Hf Hlen Hed Htd Hn Hd Hdir Hl.
  unfold load_definitions_of_experiment, _load_definitions.
  unfold bind at 1. unfold bind at 1. unfold get_world at 1.
  cbn beta iota. rewrite Hf. unfold lift at 1. cbn [json_load].
  unfold bind at 1. unfold lift at 1. cbn [py_len]. rewrite Hlen.
  unfold bind at 1. cbn [Nat.eqb py_assert]. unfold ret at 1.
  unfold bind at 1. unfold lift at 1. cbn [py_contains].
  unfold dict_has at 1. rewrite Hed.
  unfold bind at 1. cbn [py_assert]. unfold ret at 1.
  unfold bind at 1. unfold lift at 1. cbn [py_contains].
  unfold dict_has at 1. rewrite Htd.
  unfold bind at 1. cbn [py_assert]. unfold ret at 1.
  unfold bind at 1. unfold lift at 1. cbn [py_getitem]. rewrite Hed.
  unfold bind at 1.
  assert (_assert_experiment_definitions (PyDict ed) w = (Ret (), w)) as ->.
  { unfold _assert_experiment_definitions. cbn [forM_].
    unfold bind, lift. cbn [py_contains]. rewrite Hn, Hd, Hdir. done. }
  unfold bind at 1. unfold lift at 1. rewrite Htd.
  unfold bind at 1.
  cbn [_process_trials_definitions]. unfold bind.
  by rewrite (assert_list_keys_named l w Hl).
Qed.
End LoadDefinitionsFacts.

(** ** The tables of the report *)

Section ReportTables.
Context `{Collaborators}.
#[local] Arguments posixpath.relpath : simpl never.
#[local] Arguments posixpath.dirname : simpl never.
#[local] Arguments posixpath.join : simpl never.
#[local] Arguments dict_get : simpl never.

Lemma length_append (a b : string) :
  String.length (a +:+ b) = String.length a + String.length b.
Proof.
  induction a as [|c a IH]; [done|].
  change (String c a +:+ b) with (String c (a +:+ b)). cbn. by rewrite IH.
Qed.

Lemma length_repeat_char (c : ascii) (n : nat) :
  String.length (String.concat "" (replicate n (String c ""))) = n.
Proof.
  induction n as [|n IH]; [done|].
  destruct n as [|n]; [done|].
  change (String.concat "" (replicate (S (S n)) (String c "")))
    with (String c "" +:+ "" +:+
          String.concat "" (replicate (S n) (String c ""))).
  rewrite !length_append, IH. done.
Qed.

Lemma length_ljust (s : string) (n : nat) :
  String.length (ljust s n) = Nat.max n (String.length s).
Proof.
  unfold ljust. rewrite length_append, (length_repeat_char " "). lia.
Qed.

Lemma foldr_max_le (x : nat) (l : list nat) :
  x ∈ l → (x ≤ foldr Nat.max 0 l)%nat.
Proof.
  induction l as [|y l IH]; [by intros ?%elem_of_nil|].
  intros [->|Hx]%elem_of_cons; cbn; [lia|]. specialize (IH Hx). lia.
Qed.

Lemma foldr_max_elem (l : list nat) : l ≠ [] → foldr Nat.max 0 l ∈ l.
Proof.
  induction l as [|y l IH]; [done|]. intros _. cbn.
  destruct l as [|z l]; [cbn; rewrite Nat.max_0_r; left|].
  destruct (Nat.max_spec y (foldr Nat.max 0 (z :: l))) as [[_ ->]|[_ ->]];
    [right; by apply IH|left].
Qed.

(** X19.  [write_key_value_table] raises [ValueError] on an empty table (the
    [max] of no lengths).  On a table with rows it pads every cell to the
    length [m] of the longest key or value: the dashes row and every data
    row are exactly [2 * m + 7] characters long, one row per entry and in
    the order of the entries.  The two labels are not part of that maximum,
    so the header row is longer than the rows whenever a label is longer than
    every cell. *)
Theorem write_key_value_table_aligned
    (kv : string * string) (table : list (string * string))
    (key_label value_label : string) :
  MarkdownFileWriter.write_key_value_table [] key_label value_label
  = Err (ValueError "max() arg is an empty sequence") ∧
  ∃ m header dashes rows,
    MarkdownFileWriter.write_key_value_table (kv :: table) key_label value_label
    = Ret (header :: dashes :: rows ++ [nl]) ∧
    (∀ e, e ∈ (kv :: table).*1 ++ (kv :: table).*2 → (String.length e ≤ m)%nat) ∧
    (∃ e, e ∈ (kv :: table).*1 ++ (kv :: table).*2 ∧ String.length e = m) ∧
    length rows = S (length table) ∧
    Forall (fun row => String.length row = 2 * m + 7) (dashes :: rows) ∧
    String.length header
    = Nat.max m (String.length key_label)
      + Nat.max m (String.length value_label) + 7.
Proof.
  split; [done|].
  set (elements := (kv :: table).*1 ++ (kv :: table).*2).
  set (m := foldr Nat.max 0 (String.length <$> elements)).
  exists m. do 3 eexists. split_and!.
  - unfold MarkdownFileWriter.write_key_value_table.
    fold elements. unfold MarkdownFileWriter.max_len.
    destruct elements as [|e0 es] eqn:E; [done|]. rewrite <- E. fold m.
    cbn [res_bind]. reflexivity.
  - intros e He. apply foldr_max_le. apply list_elem_of_fmap. eauto.
  - assert (m ∈ String.length <$> elements) as Hm.
    { apply foldr_max_elem. subst elements. by destruct kv. }
    apply list_elem_of_fmap in Hm as (e & -> & He). eauto.
  - by rewrite length_fmap.
  - apply Forall_cons. split.
    + cbv beta. rewrite !length_append.
      rewrite !(length_repeat_char "-").
      cbn [String.length]. subst m. lia.
    + apply Forall_fmap, Forall_forall. intros [k v] Hkv.
      unfold compose. cbn [fst snd].
      rewrite !length_append, !length_ljust. cbn [String.length].
      assert (String.length k ≤ m)%nat.
      { apply foldr_max_le, list_elem_of_fmap. exists k. split; [done|].
        subst elements. apply elem_of_app. left.
        apply list_elem_of_fmap. by exists (k, v). }
      assert (String.length v ≤ m)%nat.
      { apply foldr_max_le, list_elem_of_fmap. exists v. split; [done|].
        subst elements. apply elem_of_app. right.
        apply list_elem_of_fmap. by exists (k, v). }
      lia.
  - rewrite !length_append, !length_ljust. cbn [String.length]. lia.
Qed.

Lemma res_mapM_some_Err {A B} (f : A → Res B) l x e :
  x ∈ l → f x = Err e → ∃ e', res_mapM f l = Err e'.
Proof.
  intros Hx Hfx. induction l as [|a l IH]; [by apply elem_of_nil in Hx|].
  cbn [res_mapM]. destruct (f a) as [b|e1] eqn:Ea; [|eauto].
  apply elem_of_cons in Hx as [->|Hx]; [congruence|].
  destruct (IH Hx) as [e' ->]. eauto.
Qed.

(** The section of a trial without hyperparameters cannot be written. *)
Lemma trial_section_empty_hyperparameters cwd file_dir trial :
  dict_get "hyperparameters" trial = Some (PyDict []) →
  ∃ e, trial_section cwd file_dir trial = Err e.
Proof.
  intros Hhp. unfold trial_section, res_getitem. rewrite Hhp.
  destruct (dict_get "name" trial); [|eauto].
  destruct (dict_get "description" trial); [|eauto].
  destruct (dict_get "start_time" trial); [|eauto].
  destruct (dict_get "directory" trial); [|eauto].
  cbn [res_bind].
  destruct (MarkdownFileWriter.create_link _ _ _ _); [|eauto].
  cbn. eauto.
Qed.

(** X20.  A report over a collection in which some trial has an empty
    dictionary of hyperparameters always raises and writes nothing: the
    hyperparameter table of that trial has no row.  When the record has every
    key the report reads, the exception of its section is the [ValueError]
    of [max]. *)
Theorem report_rejects_empty_hyperparameters (w : World) (l : nat) :
  l ∈ trials (w_exp w) →
  dict_get "hyperparameters" (deref w l) = Some (PyDict []) →
  (∃ e, create_experiment_report [] w = (Err e, w)) ∧
  (∀ cwd file_dir name description start_time directory,
     dict_get "name" (deref w l) = Some name →
     dict_get "description" (deref w l) = Some description →
     dict_get "start_time" (deref w l) = Some start_time →
     dict_get "directory" (deref w l) = Some (PyStr directory) →
     directory ≠ "" →
     trial_section cwd file_dir (deref w l)
     = Err (ValueError "max() arg is an empty sequence")).
Proof.
  intros Hl Hhp. split.
  - assert (∃ e, (create_experiment_report [] w).1 = Err e) as [e He].
    { unfold create_experiment_report, bind, get_world, getitem, lift, ret,
        raise.
      cbn beta iota.
      destruct (dict_get "directory" _) as [dir|]; [|eauto].
      destruct dir; cbn [path_join]; unfold ret, raise; eauto.
      destruct (dict_get "name" _); [|eauto].
      destruct (dict_get "description" _); [|eauto].
      destruct (dict_get "start_time" _); [|eauto].
      match goal with
      | |- context [MarkdownFileWriter.create_link ?a ?b ?c ?d] =>
          destruct (MarkdownFileWriter.create_link a b c d); [|eauto]
      end.
      match goal with
      | |- context [res_mapM ?f ?ts] =>
          destruct (trial_section_empty_hyperparameters
                      (w_cwd w)
                      (posixpath.dirname
                         (posixpath.join s "experiment_report.md"))
                      (deref w l) Hhp) as [e1 He1];
          destruct (res_mapM_some_Err f ts l e1 Hl He1) as [e' ->]
      end.
      eauto. }
    exists e. pose proof (fails_cleanly_report [] w e He) as Hw.
    destruct (create_experiment_report [] w) as [r w']. cbn in *.
    by subst.
  - intros cwd file_dir name description start_time directory
      Hn Hd Hs Hdir Hne.
    unfold trial_section, res_getitem. rewrite Hn, Hd, Hs, Hdir, Hhp.
    cbn [res_bind]. unfold MarkdownFileWriter.create_link.
    destruct (relpath_Ret cwd directory file_dir Hne) as [r ->].
    reflexivity.
Qed.
End ReportTables.

(** ** The worked examples *)

Section Evaluations.
#[local] Existing Instance example_collaborators.
#[local] Existing Instance example_suggester.

Lemma Trial_exit_skips_empty_rerun_witness :
  ∃ w' name,
    dict_get "name" (deref rerun_world (trial_data rerun_trial)) = Some name ∧
    Trial.__exit__ rerun_trial None rerun_world = (Ret (), w') ∧
    w_fs w' = w_fs rerun_world ∧
    w_exp w' = w_exp rerun_world ∧
    (∀ l, l ∈ trials (w_exp rerun_world) → deref w' l = deref rerun_world l) ∧
    w_warnings w' =
      w_warnings rerun_world
      ++ ["Skipping '" +:+ fmt name +:+ "'. Already run, no new"
          +:+ nl +:+ "results. Keeping old results."].
Proof.
  apply (Trial_exit_skips_empty_rerun rerun_trial rerun_world).
  - vm_compute. reflexivity.
  - reflexivity.
  - vm_compute. reflexivity.
  - vm_compute. intros Hin. inversion Hin as [|? ? ? Hin']. inversion Hin'.
Defined.

(** C1.  Trial ["T"] is retained with accuracy 0.8 and its record is on disk.
    ["T"] is opened again on the same experiment, the caller records the
    accuracy 0.9, and the scope is left without an exception.  The snapshot
    comes from [Experiment.get_results], which has no ["training_history"]:
    the close removes the old record, then raises [KeyError] at
    [trial_results["training_history"]], before the new record is written
    or appended.  The collection ends without any entry named ["T"] and the
    file still holds the old record. *)
Theorem rerun_with_results_drops_the_record :
  let close :=
    (let* t := reopened_T in
     record_accuracy (9 # 10) ;;;
     Trial.__exit__ t None) world_with_T in
  trials (w_exp world_with_T) = [0] ∧
  dict_get "name" (deref world_with_T 0) = Some (PyStr "T") ∧
  result_of (let* t := reopened_T in ret (_already_runned t)) world_with_T
  = Ret true ∧
  close.1 = Err (KeyError "training_history") ∧
  trials (w_exp close.2) = [] ∧
  fs_files (w_fs close.2) = fs_files (w_fs world_with_T) ∧
  w_warnings close.2 = ["'T' already run. Overwriting old" +:+ nl +:+ "results."].
Proof. cbv zeta. split_and!; vm_compute; reflexivity. Qed.

(** C3.  A fault whose class needs three arguments (TensorFlow's
    [InvalidArgumentError(node_def, op, message)], [json.JSONDecodeError(msg,
    doc, pos)]) leaves the experiment scope.  [exc_type(exc_value)] raises
    [TypeError], and that [TypeError] is what the close raises: the fault is
    not wrapped in [ExperimentError].  No file is written. *)
Theorem fault_of_three_parameter_class_is_not_wrapped :
  let w := world_after setup_experiment (empty_world "/home/u") in
  let fault :=
    OtherError "InvalidArgumentError" [PyNone; PyNone; PyStr "shape mismatch"] in
  let close := Experiment.__exit__ (Some (three_parameter_class, fault)) w in
  close.1 = Err (TypeError "__init__() missing 2 required positional arguments") ∧
  fs_files (w_fs close.2) = fs_files (w_fs w) ∧
  fs_files (w_fs close.2) !! "/home/u/runs/exp_1/experiment_info.json" = None.
Proof. cbv zeta. split_and!; vm_compute; reflexivity. Qed.

(** The same scope left by a [ValueError]: the close raises
    [ExperimentError] from the re-created exception. *)
Example fault_of_ValueError_is_wrapped :
  let w := world_after setup_experiment (empty_world "/home/u") in
  (Experiment.__exit__
     (Some (ValueError_class, OtherError "ValueError" [PyStr "boom"])) w).1
  = Err (ExperimentError "An error occurred during the experiment."
                         (OtherError "ValueError" [PyObj 0])).
Proof. reflexivity. Qed.

(** C4.  A new process opens the experiment whose trial ["T"] was persisted
    by an earlier run.  The file of ["T"] is there, yet the collection of
    the new experiment is empty; [experiment.trial(name, description,
    hyperparameters)] raises [TypeError], because it passes three arguments
    to [Trial], which takes two; and a [Trial] built directly for ["T"] has
    [already_runned = False]. *)
Theorem persisted_trial_is_not_preloaded :
  let w := world_after setup_experiment (restart world_with_T) in
  is_Some (fs_files (w_fs w) !! "/home/u/runs/exp_1/t/trial_info.json") ∧
  trials (w_exp w) = [] ∧
  result_of (Experiment.trial (PyStr "T") (PyStr "second run")
                              example_hyperparameters) w
  = Err (TypeError "Trial.__init__() takes 4 positional arguments") ∧
  result_of (let* t := Trial.__init__ Experiment.get_results (PyStr "T")
                                      example_hyperparameters in
             ret (_already_runned t)) w
  = Ret false.
Proof. vm_compute. split_and!; eauto. Qed.

(** C5.  The file written for the retained trial ["T"]: its keys are those
    of [trial_data], ["training_history"] included; there is no
    ["description"]. *)
Theorem persisted_trial_keeps_training_history :
  ∃ doc,
    fs_files (w_fs world_with_T) !! "/home/u/runs/exp_1/t/trial_info.json"
    = Some (JsonFile (PyDict doc)) ∧
    dict_keys doc = trial_keys ∧
    dict_get "training_history" doc = Some (PyDict []) ∧
    dict_has "description" doc = false.
Proof. eexists. vm_compute. repeat split. Qed.

Lemma Experiment_exit_sorts_trials_witness :
  let w' := (Experiment.__exit__ None world_with_a_b).2 in
  let ts := trials (w_exp world_with_a_b) in
  let ts' := trials (w_exp w') in
  (ts' = sort_by_descending accuracy_a_b ts ∧
   ts' ≡ₚ ts ∧
   StronglySorted (fun a b => (accuracy_a_b b <= accuracy_a_b a)%Q) ts' ∧
   (∀ q, List.filter (fun l => Qeq_bool (accuracy_a_b l) q) ts'
         = List.filter (fun l => Qeq_bool (accuracy_a_b l) q) ts) ∧
   w_heap w' = w_heap world_with_a_b) ∧
  (fun l => dict_get "name" (deref w' l)) <$> ts
  = [Some (PyStr "trial_a"); Some (PyStr "trial_b")] ∧
  (fun l => dict_get "name" (deref w' l)) <$> ts'
  = [Some (PyStr "trial_b"); Some (PyStr "trial_a")].
Proof.
  split.
  - apply (Experiment_exit_sorts_trials accuracy_a_b world_with_a_b).
    + vm_compute. reflexivity.
    + intros l Hl. vm_compute in Hl.
      inversion Hl as [|? ? ? Hl']; [vm_compute; reflexivity|].
      inversion Hl' as [|? ? ? Hl'']; [vm_compute; reflexivity|].
      inversion Hl''.
  - vm_compute. split; reflexivity.
Defined.

(** C6 as stated fails: an accuracy may be a NaN (a run that diverged).
    Every comparison with it is false, so [list.sort] finds the reversed
    list [0.9, nan, 0.5] to be one run and moves nothing: the close
    returns, and the trial with accuracy 0.5 still comes before the trial
    with accuracy 0.9. *)
Lemma nan_accuracy_is_not_sorted :
  let run := Experiment.__exit__ None world_with_nan_accuracy in
  run.1 = Ret () ∧
  (fun l => Experiment.accuracy_key (deref run.2 l)) <$> trials (w_exp run.2)
  = [Ret (PyNum (5 # 10)); Ret PyNaN; Ret (PyNum (9 # 10))] ∧
  (fun l => dict_get "name" (deref run.2 l)) <$> trials (w_exp run.2)
  = [Some (PyStr "a"); Some (PyStr "b"); Some (PyStr "c")] ∧
  ¬ descending_accuracy run.2 ∧
  ¬ (∀ w : World,
       (Experiment.__exit__ None w).1 = Ret () →
       descending_accuracy (Experiment.__exit__ None w).2).
Proof.
  cbv zeta.
  assert (¬ descending_accuracy
              (Experiment.__exit__ None world_with_nan_accuracy).2) as Hno.
  { intros Hsorted.
    apply (Hsorted 0%nat 2%nat 0%nat 2%nat
                   (PyNum (5 # 10)) (PyNum (9 # 10)));
      [lia|vm_compute; reflexivity..]. }
  split_and!; [vm_compute; reflexivity..|exact Hno|].
  intros Hall. apply Hno, Hall. vm_compute. reflexivity.
Qed.

Lemma Trial_write_unserializable_hyperparameters_witness :
  let d := deref world_with_function 0 in
  let written := dict_set "hyperparameters" PyNone d in
  ∃ w' msg,
    Trial._write_trial_data trial_with_function world_with_function
    = (Ret (), w') ∧
    fs_files (w_fs w') =
      <[posixpath.join "/home/u/runs/exp_1/t" "trial_info.json" :=
          JsonFile (PyDict written)]>
        (fs_files (w_fs world_with_function)) ∧
    dict_get "hyperparameters" written = Some PyNone ∧
    (∀ k, k ≠ "hyperparameters" → dict_get k written = dict_get k d) ∧
    dict_keys written = dict_keys d ∧
    w_warnings w' = w_warnings world_with_function ++ [msg] ∧
    w_heap w' = w_heap world_with_function ∧
    w_exp w' = w_exp world_with_function.
Proof.
  apply (Trial_write_unserializable_hyperparameters
           trial_with_function world_with_function
           "/home/u/runs/exp_1/t" (PyStr "T")
           (PyDict [("lr", PyNum 1); ("schedule", PyObj 3)]));
    vm_compute; reflexivity.
Defined.

Lemma Experiment_directory_deterministic_witness :
  let run1 := Experiment.__init__ "/data/runs" "exp 1" PyNone None
                                  (empty_world "/home/alice") in
  let run2 := Experiment.__init__ "/data/runs" "exp 1" PyNone None
                                  (empty_world "/home/bob") in
  dict_get "directory" (experiment_data (w_exp run1.2))
  = Some (PyStr "/data/runs/exp_1") ∧
  dict_get "directory" (experiment_data (w_exp run2.2))
  = Some (PyStr "/data/runs/exp_1").
Proof.
  apply (Experiment_directory_deterministic
           (empty_world "/home/alice") (empty_world "/home/bob")
           "/data/runs" "exp 1" PyNone PyNone None None);
    [right|..]; vm_compute; reflexivity.
Defined.

(** C8 as stated fails: with the relative base path ["runs"], the directory
    of the experiment depends on the working directory of the process. *)
Lemma relative_base_path_depends_on_cwd :
  ¬ (∀ (w1 w2 : World) (directory name : string),
       dict_get "directory"
         (experiment_data
            (w_exp (world_after
                      (Experiment.__init__ directory name PyNone None) w1)))
       = dict_get "directory"
           (experiment_data
              (w_exp (world_after
                        (Experiment.__init__ directory name PyNone None) w2)))).
Proof.
  intros Hsame.
  specialize (Hsame (empty_world "/home/alice") (empty_world "/home/bob")
                    "runs" "exp 1").
  vm_compute in Hsame. discriminate Hsame.
Qed.


(** The three descriptors of that configuration. *)
Example generated_stream_names :
  (iterate 10 (DefinitionsIterator
                 (iterator__init__ (0%nat : @Suggester example_suggester)
                                   (PyNum 3) (PyStr "trial_")))).1
  = [PyDict [("name", PyStr "trial_1");
             ("hyperparameters", PyDict [("lr", PyNum 1)])];
     PyDict [("name", PyStr "trial_2");
             ("hyperparameters", PyDict [("lr", PyNum 2)])];
     PyDict [("name", PyStr "trial_3");
             ("hyperparameters", PyDict [("lr", PyNum 3)])]].
Proof. vm_compute. reflexivity. Qed.

Lemma Experiment_exit_requires_accuracy_witness :
  (Experiment.__exit__ None
     (world_after setup_experiment (empty_world "/home/u"))).1 = Ret () ∧
  (Experiment.__exit__ None world_without_accuracy).1
  = Err (KeyError "accuracy").
Proof.
  split.
  - apply (Experiment_exit_requires_accuracy
             (world_after setup_experiment (empty_world "/home/u")));
      vm_compute; reflexivity.
  - apply (Experiment_exit_requires_accuracy world_without_accuracy).
    + vm_compute. reflexivity.
    + intros l Hl. vm_compute in Hl.
      inversion Hl as [|? ? ? Hl']; [|inversion Hl'].
      eexists. vm_compute. reflexivity.
    + exists 0, []. split_and!; [left|vm_compute; reflexivity|reflexivity].
Defined.
End Evaluations.

(** ** Further worked examples *)

Section MoreEvaluations.
#[local] Existing Instance example_collaborators.
#[local] Existing Instance example_suggester.

Lemma Trial_exit_reraises_witness :
  ∃ w',
    Trial.__exit__ trial_with_function
      (Some (ValueError_class, ValueError "diverged")) world_with_function
    = (Err (ValueError "diverged"), w') ∧
    w_fs w' = w_fs world_with_function ∧
    w_exp w' = w_exp world_with_function ∧
    w_warnings w' = [].
Proof.
  eexists. split.
  - apply (Trial_exit_reraises trial_with_function world_with_function
             ValueError_class (ValueError "diverged") (PyStr "t0")).
    vm_compute. reflexivity.
  - vm_compute. split_and!; reflexivity.
Defined.

Lemma Trial_exit_discards_empty_first_run_witness :
  ∃ w' name,
    dict_get "name" (deref world_with_function (trial_data trial_with_function))
    = Some name ∧
    Trial.__exit__ trial_with_function None world_with_function = (Ret (), w') ∧
    w_fs w' = w_fs world_with_function ∧
    w_exp w' = w_exp world_with_function ∧
    (∀ l, l ≠ trial_data trial_with_function →
          deref w' l = deref world_with_function l) ∧
    w_warnings w' =
      w_warnings world_with_function
      ++ ["'" +:+ fmt name +:+ "' produced no results. Nothing"
          +:+ nl +:+ "saved."].
Proof.
  apply (Trial_exit_discards_empty_first_run
           trial_with_function world_with_function);
    vm_compute; reflexivity.
Defined.

Lemma Trial_exit_appends_new_witness :
  ∃ w',
    Trial.__exit__ open_T None world_with_open_T = (Ret (), w') ∧
    trials (w_exp w') = trials (w_exp world_with_open_T) ++ [0] ∧
    dict_get "evaluation_metrics" (deref w' 0)
    = Some (PyDict [("accuracy", PyNum (8 # 10))]) ∧
    is_Some (fs_files (w_fs w') !! "/home/u/runs/exp_1/t/trial_info.json").
Proof.
  destruct (Trial_exit_appends_new open_T world_with_open_T
              (PyStr "T") (PyStr "t0") (PyDict [])
              (PyDict [("accuracy", PyNum (8 # 10))]) (PyDict []) (PyDict [])
              "/home/u/runs/exp_1/t" (w_fs world_with_open_T))
    as (w' & Hrun & Hts & Hrec & _ & Hfiles & _);
    try (vm_compute; reflexivity).
  exists w'. split_and!; [done|done| |].
  - change (deref w' 0) with (deref w' (trial_data open_T)).
    rewrite Hrec. vm_compute. reflexivity.
  - rewrite Hfiles. vm_compute. eauto.
Defined.

Lemma remove_trial_removes_first_witness :
  (py_in (PyStr "trial_b") [PyStr "trial_a"; PyStr "trial_b"] = false →
   Trial._remove_trial (PyStr "trial_b") world_with_a_b
   = (Err (ValueError ("Trial " +:+ fmt (PyStr "trial_b")
                       +:+ " not found in experiment trials.")),
      world_with_a_b)) ∧
  (py_in (PyStr "trial_b") [PyStr "trial_a"; PyStr "trial_b"] = true →
   ∃ i l n,
     Trial._remove_trial (PyStr "trial_b") world_with_a_b
     = (Ret (), set_exp (set_trials (fun ts => delete i ts)) world_with_a_b) ∧
     trials (w_exp world_with_a_b) !! i = Some l ∧
     dict_get "name" (deref world_with_a_b l) = Some n ∧
     py_eq n (PyStr "trial_b") = true ∧
     (∀ j m, (j < i)%nat →
             [PyStr "trial_a"; PyStr "trial_b"] !! j = Some m →
             py_eq m (PyStr "trial_b") = false) ∧
     length (delete i (trials (w_exp world_with_a_b)))
     = pred (length (trials (w_exp world_with_a_b)))).
Proof.
  apply (remove_trial_removes_first (PyStr "trial_b")
           [PyStr "trial_a"; PyStr "trial_b"] world_with_a_b).
  vm_compute. reflexivity.
Defined.

Lemma Trial_write_truncates_on_other_entry_witness :
  let d := deref world_with_object_metric 0 in
  let written := dict_set "hyperparameters" PyNone d in
  ∃ w',
    Trial._write_trial_data trial_with_function world_with_object_metric
    = (Err (TypeError "Object is not JSON serializable"), w') ∧
    fs_files (w_fs w')
    = <[posixpath.join "/home/u/runs/exp_1/t" "trial_info.json" :=
          TruncatedJson (PyDict written)]>
        (fs_files (w_fs world_with_object_metric)) ∧
    w_warnings w'
    = w_warnings world_with_object_metric
      ++ ["Hyperparameters are not JSON serializable for trial"
          +:+ fmt (PyStr "T") +:+ ". Saving None instead."] ∧
    w_exp w' = w_exp world_with_object_metric ∧
    w_heap w' = w_heap world_with_object_metric.
Proof.
  apply (Trial_write_truncates_on_other_entry
           trial_with_function world_with_object_metric
           "/home/u/runs/exp_1/t" (PyStr "T"));
    vm_compute; reflexivity.
Defined.



Lemma sort_trials_idempotent_witness :
  (Experiment._sort_trials ;;; Experiment._sort_trials) world_with_a_b
  = Experiment._sort_trials world_with_a_b ∧
  (StronglySorted (fun a b => (accuracy_a_b b <= accuracy_a_b a)%Q)
                  (trials (w_exp world_with_a_b)) →
   Experiment._sort_trials world_with_a_b = (Ret (), world_with_a_b)).
Proof.
  apply (sort_trials_idempotent accuracy_a_b world_with_a_b).
  intros l Hl. vm_compute in Hl.
  inversion Hl as [|? ? ? Hl']; [vm_compute; reflexivity|].
  inversion Hl' as [|? ? ? Hl'']; [vm_compute; reflexivity|].
  inversion Hl''.
Defined.

Lemma Experiment_exit_report_needs_description_witness :
  let run := Experiment.__exit__ None world_with_a_b in
  run.1 = Err (KeyError "description") ∧
  is_Some (fs_files (w_fs run.2) !! "/home/u/runs/exp_1/experiment_info.json") ∧
  fs_files (w_fs run.2) !! "/home/u/runs/exp_1/experiment_report.md" = None ∧
  trials (w_exp run.2) = [1; 0].
Proof.
  destruct (Experiment_exit_report_needs_description accuracy_a_b
              world_with_a_b (PyStr "t0") "/home/u/runs/exp_1")
    as (Hr & Hfiles & _ & _ & Hts & _).
  - vm_compute. reflexivity.
  - vm_compute. reflexivity.
  - vm_compute. reflexivity.
  - vm_compute. discriminate.
  - intros l Hl. vm_compute in Hl.
    inversion Hl as [|? ? ? Hl']; [split; vm_compute; reflexivity|].
    inversion Hl' as [|? ? ? Hl'']; [split; vm_compute; reflexivity|].
    inversion Hl''.
  - cbv zeta. rewrite Hr, Hfiles, Hts. split_and!; [done| | |].
    + vm_compute. eauto.
    + vm_compute. reflexivity.
    + vm_compute. reflexivity.
Defined.


Lemma explicit_trials_are_streamed_in_order_witness :
  (_process_trials_definitions (PyList example_trials_list) (empty_world "/")
   = (Ret (ListIterator example_trials_list), empty_world "/") ∧
   ∀ extra,
     iterate (S (length example_trials_list) + extra)
             (ListIterator example_trials_list)
     = (example_trials_list, Some StopIteration)) ∧
  (∀ d rest,
     "name" ∉ dict_keys d ∨ "hyperparameters" ∉ dict_keys d
     ∨ (∃ k, k ∈ dict_keys d ∧ k ≠ "name" ∧ k ≠ "hyperparameters") →
     _process_trials_definitions
       (PyList (example_trials_list ++ PyDict d :: rest)) (empty_world "/")
     = (Err (AssertionError
               "Invalid keys in list elements of trials_definitions."),
        empty_world "/")).
Proof.
  apply (explicit_trials_are_streamed_in_order
           example_trials_list (empty_world "/")).
  repeat constructor.
  - exists (PyStr "small"), (PyDict [("lr", PyNum 1)]). by left.
  - exists (PyStr "large"), (PyDict [("lr", PyNum 2)]). by right.
Defined.

Lemma generator_config_pops_and_warns_witness :
  let run := _process_trials_definitions_at 0 world_with_config in
  w_warnings run.2
  = ["Ignoring key 'seed' in trials_definitions.";
     "Ignoring key 'comment' in trials_definitions."] ∧
  deref run.2 0 = [("seed", PyNum 7); ("comment", PyStr "first sweep")] ∧
  (∃ stream, run.1 = Ret stream) ∧
  (_process_trials_definitions_at 0 run.2).1
  = Err (AssertionError "hparams_configs is not a key in trials_definitions.").
Proof.
  destruct (generator_config_pops_and_warns
              0 example_config_with_unknown_keys world_with_config)
    as (_ & Hleft & _ & Hcfg & Hagain).
  - reflexivity.
  - repeat (apply NoDup_cons_2;
            [intros Hin;
             repeat (apply elem_of_cons in Hin as [Hin|Hin]; [discriminate|]);
             by apply elem_of_nil in Hin|]).
    apply NoDup_nil_2.
  - destruct (Hcfg (PyDict [("lr", PyList [PyNum 1; PyNum 2])]))
      as (Hw & Hs & _); [reflexivity|discriminate|].
    cbv zeta. split_and!.
    + rewrite Hw. vm_compute. reflexivity.
    + rewrite Hleft. vm_compute. reflexivity.
    + rewrite (Hs 0%nat eq_refl). eauto.
    + exact Hagain.
Defined.

Lemma uncountable_num_trials_never_stops_witness :
  iterate 4 (DefinitionsIterator
               (iterator__init__ (0%nat : @Suggester example_suggester)
                                 (PyStr "3") (PyStr "trial_")))
  = (expected_descriptors "trial_" 1 4
       (0%nat : @Suggester example_suggester), None).
Proof.
  apply (@uncountable_num_trials_never_stops
           example_collaborators example_suggester
           (PyStr "trial_") (PyStr "3") 0%nat 4).
  intros k. reflexivity.
Defined.

Lemma load_definitions_explicit_list_witness :
  load_definitions_of_experiment "/home/u/definitions.json"
                                 world_with_definitions
  = (Ret (PyDict example_experiment_definitions,
          ListIterator example_trials_list), world_with_definitions).
Proof.
  apply (load_definitions_explicit_list
           "/home/u/definitions.json" example_definitions
           example_experiment_definitions example_trials_list
           world_with_definitions); try (vm_compute; reflexivity).
  repeat constructor.
  - exists (PyStr "small"), (PyDict [("lr", PyNum 1)]). by left.
  - exists (PyStr "large"), (PyDict [("lr", PyNum 2)]). by right.
Defined.

Lemma report_rejects_empty_hyperparameters_witness :
  (∃ e, create_experiment_report [] world_with_bare_trial
        = (Err e, world_with_bare_trial)) ∧
  dict_keys (deref world_with_bare_trial 0) = trial_keys.
Proof.
  split; [|vm_compute; reflexivity].
  apply (report_rejects_empty_hyperparameters world_with_bare_trial 0).
  - vm_compute. left.
  - vm_compute. reflexivity.
Defined.
End MoreEvaluations.
